(** * Childcare finder: feature engineering, match score and top-N selection

    A shallow embedding of [collect_data.py] (the collection script:
    [FeatureEngineer], [SimpleRecommender]) and of [calculate_match_score] in
    [app.py] (the viewer), with the properties the specification states about
    them.

    Numbers.  The Python code computes on IEEE doubles.  Every finite double
    is a rational, so a number is modelled by [pyfloat]: an exact rational,
    one of the two infinities, or NaN.  Arithmetic is exact (rounding is not
    modelled), NaN propagates as in IEEE 754, every comparison with NaN is
    false, and signed zeros are not distinguished.  A scalar division by zero
    raises [ZeroDivisionError] ([py_div]); a division of data-frame columns
    gives an infinity or NaN instead ([fdiv]).  The great-circle distance
    needs [sin], [cos], [sqrt] and [asin]; it is modelled over the real
    numbers in the module [Haversine].

    Exceptions.  A function that can raise returns an [option]; [None] stands
    for the exception. *)

From Stdlib Require Import QArith Qreals ZArith Reals Psatz Bool Ascii String List Sorted.
From stdpp Require Import gmap strings list fin_maps.

Local Open Scope Q_scope.

(** ** Floating-point numbers *)

Inductive pyfloat : Type :=
  | NaN
  | PInf
  | NInf
  | Fin (q : Q).

Declare Scope pyfloat_scope.
Delimit Scope pyfloat_scope with fl.
Bind Scope pyfloat_scope with pyfloat.

Definition Qlt_bool (a b : Q) : bool :=
  match a ?= b with Lt => true | _ => false end.

(** The infinity (or NaN) with the sign of a comparison against zero. *)
Definition inf_of (c : comparison) : pyfloat :=
  match c with Gt => PInf | Lt => NInf | Eq => NaN end.

Definition fneg (x : pyfloat) : pyfloat :=
  match x with
  | NaN => NaN
  | PInf => NInf
  | NInf => PInf
  | Fin a => Fin (- a)
  end.

Definition fadd (x y : pyfloat) : pyfloat :=
  match x, y with
  | NaN, _ | _, NaN => NaN
  | PInf, NInf | NInf, PInf => NaN
  | PInf, _ | _, PInf => PInf
  | NInf, _ | _, NInf => NInf
  | Fin a, Fin b => Fin (a + b)
  end.

Definition fsub (x y : pyfloat) : pyfloat := fadd x (fneg y).

Definition fmul (x y : pyfloat) : pyfloat :=
  match x, y with
  | NaN, _ | _, NaN => NaN
  | PInf, PInf | NInf, NInf => PInf
  | PInf, NInf | NInf, PInf => NInf
  | PInf, Fin b | Fin b, PInf => inf_of (b ?= 0)
  | NInf, Fin b | Fin b, NInf => inf_of (0 ?= b)
  | Fin a, Fin b => Fin (a * b)
  end.

(** IEEE division, as numpy applies it to columns: a zero divisor gives an
    infinity, or NaN for [0 / 0]. *)
Definition fdiv (x y : pyfloat) : pyfloat :=
  match x, y with
  | NaN, _ | _, NaN => NaN
  | (PInf | NInf), (PInf | NInf) => NaN
  | Fin _, (PInf | NInf) => Fin 0
  | PInf, Fin b => if Qlt_bool b 0 then NInf else PInf
  | NInf, Fin b => if Qlt_bool b 0 then PInf else NInf
  | Fin a, Fin b => if Qeq_bool b 0 then inf_of (a ?= 0) else Fin (a / b)
  end.

(** [x / y] on Python scalars: a zero divisor raises [ZeroDivisionError],
    whatever the dividend. *)
Definition py_div (x y : pyfloat) : option pyfloat :=
  match y with
  | Fin b => if Qeq_bool b 0 then None else Some (fdiv x y)
  | _ => Some (fdiv x y)
  end.

(** [x <= y] and [x < y]; false as soon as one side is NaN. *)
Definition fle (x y : pyfloat) : bool :=
  match x, y with
  | NaN, _ | _, NaN => false
  | NInf, _ | _, PInf => true
  | _, NInf | PInf, _ => false
  | Fin a, Fin b => Qle_bool a b
  end.

Definition flt (x y : pyfloat) : bool :=
  match x, y with
  | NaN, _ | _, NaN => false
  | PInf, _ | _, NInf => false
  | NInf, _ | _, PInf => true
  | Fin a, Fin b => Qlt_bool a b
  end.

Infix "+" := fadd : pyfloat_scope.
Infix "-" := fsub : pyfloat_scope.
Infix "*" := fmul : pyfloat_scope.
Infix "/" := fdiv : pyfloat_scope.
Infix "<=?" := fle : pyfloat_scope.
Infix "<?" := flt : pyfloat_scope.

(** Python's built-in [min(a, b)] and [max(a, b)]: the first argument is kept
    unless the second is strictly smaller (resp. larger), so a NaN first
    argument is returned as it is and a NaN second argument is dropped. *)
Definition py_min (a b : pyfloat) : pyfloat := if (b <? a)%fl then b else a.
Definition py_max (a b : pyfloat) : pyfloat := if (a <? b)%fl then b else a.

(** [pd.notna] on a number. *)
Definition notna (x : pyfloat) : bool :=
  match x with NaN => false | _ => true end.

(** [Series.fillna(v)] on one cell. *)
Definition fillna (v : pyfloat) (x : pyfloat) : pyfloat :=
  match x with NaN => v | _ => x end.

(** Truthiness of a float: [bool(x)] is false only for zero; NaN is truthy. *)
Definition truthy (x : pyfloat) : bool :=
  match x with Fin a => negb (Qeq_bool a 0) | _ => true end.

(** A Python integer used as a float. *)
Definition of_nat (n : nat) : pyfloat := Fin (inject_Z (Z.of_nat n)).

(** Two numbers are the same value (rationals up to [==]; NaN is the same
    value as NaN, which is not Python's [==]). *)
Definition feq (x y : pyfloat) : Prop :=
  match x, y with
  | NaN, NaN | PInf, PInf | NInf, NInf => True
  | Fin a, Fin b => a == b
  | _, _ => False
  end.

Infix "=f=" := feq (at level 70, no associativity).

Definition feqb (x y : pyfloat) : bool :=
  match x, y with
  | NaN, NaN | PInf, PInf | NInf, NInf => true
  | Fin a, Fin b => Qeq_bool a b
  | _, _ => false
  end.

(** Two calls have the same outcome: both raise, or both return the same
    value. *)
Definition same_outcome (x y : option pyfloat) : Prop :=
  match x, y with
  | Some a, Some b => a =f= b
  | None, None => True
  | _, _ => False
  end.

(** A number with its rational in lowest terms. *)
Definition reduced (x : pyfloat) : pyfloat :=
  match x with Fin q => Fin (Qred q) | _ => x end.

(** [lo <= x <= hi], as Python would test it. *)
Definition in_range (lo hi : Q) (x : pyfloat) : bool :=
  (Fin lo <=? x)%fl && (x <=? Fin hi)%fl.

(** The call returns (does not raise) a value in [[lo, hi]]. *)
Definition returns_in_range (lo hi : Q) (o : option pyfloat) : bool :=
  match o with Some x => in_range lo hi x | None => false end.

(** A number that is not NaN and not negative. *)
Definition nonneg (x : pyfloat) : bool := (Fin 0 <=? x)%fl.

(** A finite, strictly positive number. *)
Definition finite_positive (x : pyfloat) : bool :=
  match x with Fin q => Qlt_bool 0 q | _ => false end.

(** A step of the score returns, and its result is not negative when the
    score so far is not. *)
Definition keeps_nonneg (block : pyfloat -> option pyfloat) : Prop :=
  forall s, nonneg s = true -> exists s', block s = Some s' /\ nonneg s' = true.

(** ** Provider rows and preferences *)

(** A row of the engineered data frame, as the scorers read it.  The frame
    built by [engineer_all_features] always has the columns [distance_miles],
    [estimated_price] and [rating], so [row['c']] and [row.get('c')] read the
    same cell; a missing value is NaN.  The [mentions_*] columns vary from
    frame to frame and are looked up by name.  The frame also has text
    columns, so the cells of a row that [df.apply(..., axis=1)] hands over
    are Python scalars. *)
Record row : Type := {
  distance_miles : pyfloat;
  estimated_price : pyfloat;
  rating : pyfloat;
  mentions : gmap string pyfloat
}.

(** The preference dictionary; [values] is [None] when the key is absent. *)
Record preferences : Type := {
  max_distance : pyfloat;
  max_budget : pyfloat;
  values : option (list string)
}.

(** [f'mentions_{value}'] *)
Definition col_name (value : string) : string := "mentions_" +:+ value.

(** ** [SimpleRecommender.calculate_match_score] (collect_data.py)

    Each of the four commented blocks of the function is a step from the
    score so far to the new score. *)

Module Collect.

(** 1. Distance Score (35 points) *)
Definition distance_block (r : row) (p : preferences) (score : pyfloat) : option pyfloat :=
  if notna (distance_miles r) then
    if (distance_miles r <=? max_distance p)%fl then
      ratio ← py_div (distance_miles r) (max_distance p);
      Some (score + Fin 35 * (Fin 1 - ratio))%fl
    else Some score
  else Some score.

(** 2. Price Score (30 points), with the penalty for over budget *)
Definition price_block (r : row) (p : preferences) (score : pyfloat) : option pyfloat :=
  if notna (estimated_price r) then
    if (estimated_price r <=? max_budget p)%fl then
      ratio ← py_div (estimated_price r) (max_budget p);
      Some (score + Fin 30 * (Fin 1 - ratio))%fl
    else
      ratio ← py_div (estimated_price r - max_budget p)%fl (max_budget p);
      Some (score + py_max (Fin 0) (Fin 30 * (Fin 1 - ratio)))%fl
  else Some score.

(** 3. Rating Score (20 points) *)
Definition rating_block (r : row) (score : pyfloat) : option pyfloat :=
  if notna (rating r) then
    ratio ← py_div (rating r) (Fin 5);
    Some (score + Fin 20 * ratio)%fl
  else Some score.

(** The loop over [preferences.get('values', [])]. *)
Fixpoint values_loop (r : row) (vs : list string) (values_score : nat) : nat :=
  match vs with
  | [] => values_score
  | value :: vs' =>
      let values_score :=
        match mentions r !! col_name value with
        | Some c => if (Fin 0 <? c)%fl then S values_score else values_score
        | None => values_score
        end in
      values_loop r vs' values_score
  end.

(** 4. Values Match (15 points) *)
Definition values_block (r : row) (p : preferences) (score : pyfloat) : option pyfloat :=
  let values_score := values_loop r (default [] (values p)) 0 in
  match values p with
  | Some ((_ :: _) as vs) =>
      ratio ← py_div (of_nat values_score) (of_nat (length vs));
      Some (score + Fin 15 * ratio)%fl
  | _ => Some score
  end.

Definition calculate_match_score (r : row) (p : preferences) : option pyfloat :=
  let score := Fin 0 in
  score ← distance_block r p score;
  score ← price_block r p score;
  score ← rating_block r score;
  score ← values_block r p score;
  Some (py_min score (Fin 100)).

End Collect.

(** ** [calculate_match_score] (app.py) *)

Module Viewer.

(** Distance (35 points) *)
Definition distance_block (r : row) (max_distance : pyfloat) (score : pyfloat)
    : option pyfloat :=
  if notna (distance_miles r) then
    if (distance_miles r <=? max_distance)%fl then
      ratio ← py_div (distance_miles r) max_distance;
      Some (score + Fin 35 * (Fin 1 - ratio))%fl
    else Some score
  else Some score.

(** Price (30 points): nothing is added over budget *)
Definition price_block (r : row) (max_budget : pyfloat) (score : pyfloat)
    : option pyfloat :=
  if notna (estimated_price r) then
    if (estimated_price r <=? max_budget)%fl then
      ratio ← py_div (estimated_price r) max_budget;
      Some (score + Fin 30 * (Fin 1 - ratio))%fl
    else Some score
  else Some score.

(** Rating (20 points) *)
Definition rating_block (r : row) (score : pyfloat) : option pyfloat :=
  if notna (rating r) then
    ratio ← py_div (rating r) (Fin 5);
    Some (score + Fin 20 * ratio)%fl
  else Some score.

(** [sum(1 for v in values if row.get(f'mentions_{v}', 0) > 0)] *)
Definition matches (r : row) (values : list string) : nat :=
  length (List.filter
            (fun v => (Fin 0 <? default (Fin 0) (mentions r !! col_name v))%fl)
            values).

(** Values (15 points) *)
Definition values_block (r : row) (values : list string) (score : pyfloat)
    : option pyfloat :=
  match values with
  | [] => Some score
  | _ :: _ =>
      ratio ← py_div (of_nat (matches r values)) (of_nat (length values));
      Some (score + Fin 15 * ratio)%fl
  end.

Definition calculate_match_score
    (r : row) (max_distance max_budget : pyfloat) (values : list string)
    : option pyfloat :=
  let score := Fin 0 in
  score ← distance_block r max_distance score;
  score ← price_block r max_budget score;
  score ← rating_block r score;
  score ← values_block r values score;
  Some (py_min score (Fin 100)).

(** The row filter of [main]:
    [(df['distance_miles'] <= max_distance * 1.2) & (df['rating'].fillna(0) >= min_rating)]. *)
Definition passes_filter (r : row) (max_distance min_rating : pyfloat) : bool :=
  (distance_miles r <=? max_distance * Fin 1.2)%fl &&
  (min_rating <=? fillna (Fin 0) (rating r))%fl.

End Viewer.

(** ** Strings, as the feature extractor uses them

    Review texts are treated as byte strings: [lower] folds the ASCII letters
    only. *)

Definition lower_ascii (c : ascii) : ascii :=
  let n := nat_of_ascii c in
  if (65 <=? n)%nat && (n <=? 90)%nat then ascii_of_nat (n + 32) else c.

(** [str.lower] *)
Fixpoint lower (s : string) : string :=
  match s with
  | EmptyString => EmptyString
  | String c s' => String (lower_ascii c) (lower s')
  end.

(** [sub in s] *)
Fixpoint contains (sub s : string) : bool :=
  String.prefix sub s ||
  match s with
  | EmptyString => false
  | String _ s' => contains sub s'
  end.

(** Occurrences of [sub] in [s] scanning from the left, where a match makes
    the scan pass over the rest of the matched characters ([skip] of them
    are left). *)
Fixpoint count_from (sub s : string) (skip : nat) : nat :=
  match s with
  | EmptyString => 0
  | String _ s' =>
      match skip with
      | S k => count_from sub s' k
      | O =>
          if String.prefix sub s
          then S (count_from sub s' (String.length sub - 1))
          else count_from sub s' 0
      end
  end.

(** [s.count(sub)]: the number of non-overlapping occurrences. *)
Definition count (s sub : string) : nat :=
  match sub with
  | EmptyString => S (String.length s)
  | _ => count_from sub s 0
  end.

(** A review dictionary; only its ['text'] entry is read. *)
Record review : Type := { text : option string }.

(** [r.get('text', '')] *)
Definition get_text (r : review) : string := default EmptyString (text r).

(** [' '.join([r.get('text', '').lower() for r in reviews])] *)
Definition all_text_of (reviews : list review) : string :=
  String.concat " " (map (fun r => lower (get_text r)) reviews).

Definition sum_nat (l : list nat) : nat := foldr Nat.add 0%nat l.

(** [np.mean] of a list of integers; the mean of the empty list is NaN. *)
Definition np_mean (l : list nat) : pyfloat :=
  (of_nat (sum_nat l) / of_nat (length l))%fl.

(** ** [FeatureEngineer] (collect_data.py) *)

Module FeatureEngineer.

Definition flag (b : bool) : pyfloat := if b then Fin 1 else Fin 0.

(** The dictionary returned for a provider without reviews. *)
Definition no_review_features : gmap string pyfloat :=
  list_to_map [
    ("mentions_clean", Fin 0);
    ("mentions_safe", Fin 0);
    ("mentions_caring", Fin 0);
    ("mentions_educational", Fin 0);
    ("mentions_montessori", Fin 0);
    ("mentions_play_based", Fin 0);
    ("mentions_affordable", Fin 0);
    ("mentions_expensive", Fin 0);
    ("negative_keywords_count", Fin 0);
    ("positive_keywords_count", Fin 0);
    ("avg_review_length", Fin 0)
  ].

Definition positive_words : list string :=
  ["excellent"; "amazing"; "wonderful"; "great"; "love"; "best"; "professional"].

Definition negative_words : list string :=
  ["poor"; "bad"; "terrible"; "disappointed"; "worst"; "unprofessional"].

Definition extract_review_features (reviews : list review) : gmap string pyfloat :=
  match reviews with
  | [] => no_review_features
  | _ :: _ =>
      let all_text := all_text_of reviews in
      list_to_map [
        ("mentions_montessori", flag (contains "montessori" all_text));
        ("mentions_reggio", flag (contains "reggio" all_text));
        ("mentions_play_based",
           flag (existsb (fun word => contains word all_text)
                   ["play-based"; "play based"; "child-led"]));
        ("mentions_stem", flag (contains "stem" all_text));
        ("mentions_clean", of_nat (count all_text "clean"));
        ("mentions_safe", of_nat (count all_text "safe"));
        ("mentions_caring",
           of_nat (count all_text "caring" + count all_text "nurturing"));
        ("mentions_educational",
           of_nat (count all_text "educational" + count all_text "learning"));
        ("mentions_affordable",
           of_nat (count all_text "affordable" + count all_text "reasonable"));
        ("mentions_expensive",
           of_nat (count all_text "expensive" + count all_text "pricey"));
        ("positive_keywords_count",
           of_nat (sum_nat (map (count all_text) positive_words)));
        ("negative_keywords_count",
           of_nat (sum_nat (map (count all_text) negative_words)));
        ("avg_review_length",
           np_mean (map (fun r => String.length (get_text r)) reviews))
      ]
  end.

(** [base_price + (rating - 3.5) * k if rating else base_price]: the
    argument is [None] or a float, and the test is its truthiness. *)
Definition adjust_by_rating (price : pyfloat) (rating : option pyfloat) (k : Q) : pyfloat :=
  match rating with
  | Some x => if truthy x then (price + (x - Fin 3.5) * Fin k)%fl else price
  | None => price
  end.

Definition estimate_price_from_reviews
    (reviews : list review) (rating : option pyfloat) : pyfloat :=
  match reviews with
  | [] =>
      let base_price := Fin 1200 in
      adjust_by_rating base_price rating 200
  | _ :: _ =>
      let all_text := all_text_of reviews in
      let affordable_count :=
        (count all_text "affordable" + count all_text "reasonable")%nat in
      let expensive_count :=
        (count all_text "expensive" + count all_text "pricey")%nat in
      let base_price := Fin 1200 in
      let estimated_price :=
        if (expensive_count <? affordable_count)%nat then (base_price * Fin 0.85)%fl
        else if (affordable_count <? expensive_count)%nat then (base_price * Fin 1.25)%fl
        else base_price in
      adjust_by_rating estimated_price rating 150
  end.

(** The [estimated_price] column of [engineer_all_features], on one row: the
    rating handed over is the row's rating cell, NaN when the provider has
    no rating. *)
Definition estimated_price_column (reviews : list review) (rating : pyfloat) : pyfloat :=
  estimate_price_from_reviews reviews (Some rating).

(** The [quality_score] column of [engineer_all_features], on one row:
    [rating] is the row's rating cell, the two counts are its integer
    keyword-count cells.  Column arithmetic: the division is [fdiv]. *)
Definition quality_score
    (rating : pyfloat) (positive_keywords_count negative_keywords_count : Z) : pyfloat :=
  ((fillna (Fin 3) rating / Fin 5) * Fin 0.6 +
   (Fin (inject_Z (positive_keywords_count - negative_keywords_count)) /
    Fin (inject_Z (positive_keywords_count + negative_keywords_count + 1))) * Fin 0.4)%fl.

End FeatureEngineer.

(** ** Top-N selection

    [DataFrame.nlargest(n, column)] is pandas code.  It is modelled from its
    documented contract with the default [keep='first']: the first [n] rows
    in descending order of the column, rows with equal values in their
    original order, rows whose value is NaN after all the others. *)

Section NLargest.

Context {A : Type} (key : A -> pyfloat).

(** Insert [x] in a list sorted in descending order, before the first entry
    that is not strictly larger. *)
Fixpoint insert_desc (x : A) (l : list A) : list A :=
  match l with
  | [] => [x]
  | y :: l' => if (key x <? key y)%fl then y :: insert_desc x l' else x :: y :: l'
  end.

Definition sort_desc (l : list A) : list A := foldr insert_desc [] l.

Definition has_key (x : A) : bool := notna (key x).

Definition nlargest (n : nat) (l : list A) : list A :=
  take n (sort_desc (List.filter has_key l)
          ++ List.filter (fun x => negb (has_key x)) l).

(** [a] may stand before [b] in a descending ranking. *)
Definition ranks_before (a b : A) : Prop := (key a <? key b)%fl = false.

(** The key of [x] is the value [s]. *)
Definition same_key (s : pyfloat) (x : A) : bool := feqb s (key x).

End NLargest.

(** A row of the frame once [recommend] has added the [match_score] column. *)
Record scored_row : Type := {
  provider : row;
  match_score : pyfloat
}.

Module SimpleRecommender.

(** [df['match_score'] = df.apply(lambda row: self.calculate_match_score(row, preferences), axis=1)];
    an exception on one row ends the call. *)
Definition with_match_score (df : list row) (p : preferences) : option (list scored_row) :=
  mapM (fun r =>
          score ← Collect.calculate_match_score r p;
          Some {| provider := r; match_score := score |}) df.

(** [top_n] is a number of rows. *)
Definition recommend (df : list row) (p : preferences) (top_n : nat)
    : option (list scored_row) :=
  scored ← with_match_score df p;
  Some (nlargest match_score top_n scored).

End SimpleRecommender.

(** ** Great-circle distance, over the reals *)

Module Haversine.

Local Open Scope R_scope.

(** A coordinate cell: NaN, or a finite double read as a real. *)
Inductive cell : Type :=
  | Missing
  | Val (x : R).

Definition notna (c : cell) : bool :=
  match c with Missing => false | Val _ => true end.

(** [math.radians] *)
Definition radians (x : R) : R := x * (PI / 180).

(** [math.sqrt] and [math.asin] raise [ValueError] outside their domain. *)
Definition math_sqrt (x : R) : option R :=
  if Rle_dec 0 x then Some (sqrt x) else None.

Definition math_asin (x : R) : option R :=
  if Rle_dec (-1) x then if Rle_dec x 1 then Some (asin x) else None else None.

(** [FeatureEngineer.calculate_distance] on finite coordinates. *)
Definition calculate_distance (lat1 lon1 lat2 lon2 : R) : option R :=
  let R_earth := 3959 in
  let lat1 := radians lat1 in
  let lon1 := radians lon1 in
  let lat2 := radians lat2 in
  let lon2 := radians lon2 in
  let dlat := lat2 - lat1 in
  let dlon := lon2 - lon1 in
  let a := sin (dlat / 2) ^ 2 + cos lat1 * cos lat2 * sin (dlon / 2) ^ 2 in
  s ← math_sqrt a;
  t ← math_asin s;
  let c := 2 * t in
  Some (R_earth * c).

(** The same call on cells: [math.radians], [sin], [cos], [sqrt], [asin] and
    the arithmetic all return NaN on a NaN argument without raising, so a NaN
    coordinate makes the result NaN. *)
Definition calculate_distance_cells (lat1 lon1 lat2 lon2 : cell) : option cell :=
  match lat1, lon1, lat2, lon2 with
  | Val a, Val b, Val c, Val d => Val <$> calculate_distance a b c d
  | _, _, _, _ => Some Missing
  end.

(** The [distance_miles] column of [engineer_all_features], on one row. *)
Definition distance_miles_column
    (user_location : R * R) (latitude longitude : cell) : option cell :=
  if notna latitude then
    calculate_distance_cells (Val (fst user_location)) (Val (snd user_location))
      latitude longitude
  else Some (Val 999).


End Haversine.

(** ** Inputs used in the examples *)

Definition example_row : row :=
  {| distance_miles := Fin 5; estimated_price := Fin 750; rating := Fin 5;
     mentions := ∅ |}.

Definition example_prefs : preferences :=
  {| max_distance := Fin 10; max_budget := Fin 1500; values := Some [] |}.

Definition negative_rating_row : row :=
  {| distance_miles := Fin 999; estimated_price := Fin 3000; rating := Fin (-5);
     mentions := ∅ |}.

Definition unrated_row : row :=
  {| distance_miles := Fin 5; estimated_price := Fin 750; rating := NaN;
     mentions := ∅ |}.

Definition over_budget_row : row :=
  {| distance_miles := Fin 5; estimated_price := Fin 2000; rating := Fin 5;
     mentions := ∅ |}.

Definition typical_row : row :=
  {| distance_miles := Fin 5; estimated_price := Fin 1200; rating := Fin 4;
     mentions := ∅ |}.

Definition negative_budget_prefs : preferences :=
  {| max_distance := Fin 10; max_budget := Fin (-100); values := None |}.

Definition tie_dataset : list row :=
  [ {| distance_miles := Fin 8; estimated_price := Fin 1500; rating := Fin 4;
       mentions := ∅ |};
    {| distance_miles := Fin 5; estimated_price := Fin 750; rating := Fin 5;
       mentions := ∅ |};
    {| distance_miles := Fin 8; estimated_price := Fin 1500; rating := Fin 4;
       mentions := {[ "mentions_clean" := Fin 3 ]} |};
    {| distance_miles := NaN; estimated_price := NaN; rating := NaN;
       mentions := ∅ |} ].

Definition plain_reviews : list review :=
  [ {| text := Some "Friendly staff and a big garden." |} ].

Definition pricey_reviews : list review :=
  [ {| text := Some "Great teachers but EXPENSIVE, really pricey." |} ].

Definition affordable_reviews : list review :=
  [ {| text := Some "Affordable and safe place for kids" |};
    {| text := None |};
    {| text := Some "Reasonable fees, a bit expensive in summer" |} ].

(** The keys of the dictionary returned for an empty review list. *)
Definition no_review_keys : list string :=
  [ "mentions_clean"; "mentions_safe"; "mentions_caring"; "mentions_educational";
    "mentions_montessori"; "mentions_play_based"; "mentions_affordable";
    "mentions_expensive"; "negative_keywords_count"; "positive_keywords_count";
    "avg_review_length" ].

(** The rating cell is missing or holds a value that is not negative. *)
Definition rating_absent_or_nonneg (r : row) : bool :=
  negb (notna (rating r)) || nonneg (rating r).

(** ** The four terms of the match score

    The contribution of each block, as a value of its own: what the block
    adds to the score when its division returns. *)

Module Terms.

Definition distance_term (r : row) (max_distance : pyfloat) : pyfloat :=
  if notna (distance_miles r) && (distance_miles r <=? max_distance)%fl
  then (Fin 35 * (Fin 1 - distance_miles r / max_distance))%fl
  else Fin 0.

(** The price term of the collection script. *)
Definition price_term_collect (r : row) (max_budget : pyfloat) : pyfloat :=
  if notna (estimated_price r) then
    if (estimated_price r <=? max_budget)%fl
    then (Fin 30 * (Fin 1 - estimated_price r / max_budget))%fl
    else py_max (Fin 0)
           (Fin 30 * (Fin 1 - (estimated_price r - max_budget) / max_budget))%fl
  else Fin 0.

(** The price term of the viewer. *)
Definition price_term_viewer (r : row) (max_budget : pyfloat) : pyfloat :=
  if notna (estimated_price r) && (estimated_price r <=? max_budget)%fl
  then (Fin 30 * (Fin 1 - estimated_price r / max_budget))%fl
  else Fin 0.

Definition stars_term (r : row) : pyfloat :=
  if notna (rating r) then (Fin 20 * (rating r / Fin 5))%fl else Fin 0.

Definition values_term (r : row) (values : list string) : pyfloat :=
  match values with
  | [] => Fin 0
  | _ :: _ =>
      (Fin 15 * (of_nat (Viewer.matches r values) / of_nat (length values)))%fl
  end.

(** The sum of four terms in the order the code adds them, clamped. *)
Definition total (t1 t2 t3 t4 : pyfloat) : pyfloat :=
  py_min (Fin 0 + t1 + t2 + t3 + t4)%fl (Fin 100).

End Terms.

(** The cell is missing or holds a value that is not negative. *)
Definition absent_or_nonneg (x : pyfloat) : bool := negb (notna x) || nonneg x.

(** Two rows that differ at most in their distance. *)
Definition same_but_distance (r1 r2 : row) : Prop :=
  estimated_price r1 = estimated_price r2 /\ rating r1 = rating r2 /\
  mentions r1 = mentions r2.

(** Two rows that differ at most in their estimated price. *)
Definition same_but_price (r1 r2 : row) : Prop :=
  distance_miles r1 = distance_miles r2 /\ rating r1 = rating r2 /\
  mentions r1 = mentions r2.

(** Both calls return, and the score of the first is at most the score of
    the second. *)
Definition scores_at_most (o2 o1 : option pyfloat) : Prop :=
  exists s1 s2, o1 = Some s1 /\ o2 = Some s2 /\ (s2 <=? s1)%fl = true.

Definition near_row : row :=
  {| distance_miles := Fin 2; estimated_price := Fin 1200; rating := Fin 4;
     mentions := ∅ |}.

Definition cheap_row : row :=
  {| distance_miles := Fin 5; estimated_price := Fin 900; rating := Fin 4;
     mentions := ∅ |}.

Definition at_budget_row : row :=
  {| distance_miles := Fin 5; estimated_price := Fin 1500; rating := Fin 4;
     mentions := ∅ |}.

Definition just_over_budget_row : row :=
  {| distance_miles := Fin 5; estimated_price := Fin 1600; rating := Fin 4;
     mentions := ∅ |}.

(** The rating cell is missing or holds a value on the 0-5 scale. *)
Definition rating_on_scale (r : row) : bool :=
  negb (notna (rating r)) || in_range 0 5 (rating r).

(** The keywords that set the [mentions_<value>] column of a provider with
    reviews, as [extract_review_features] lists them. *)
Definition keywords_of (value : string) : list string :=
  if decide (value = "montessori") then ["montessori"]
  else if decide (value = "reggio") then ["reggio"]
  else if decide (value = "play_based") then ["play-based"; "play based"; "child-led"]
  else if decide (value = "stem") then ["stem"]
  else if decide (value = "clean") then ["clean"]
  else if decide (value = "safe") then ["safe"]
  else if decide (value = "caring") then ["caring"; "nurturing"]
  else if decide (value = "educational") then ["educational"; "learning"]
  else if decide (value = "affordable") then ["affordable"; "reasonable"]
  else if decide (value = "expensive") then ["expensive"; "pricey"]
  else [].

(** The row has a positive entry in the column of the value: the test both
    scorers apply to a requested value. *)
Definition value_matched (mentions : gmap string pyfloat) (value : string) : bool :=
  (Fin 0 <? default (Fin 0) (mentions !! col_name value))%fl.

(** The two review lists have the same texts up to letter case. *)
Definition same_up_to_case (rs rs' : list review) : Prop :=
  map (fun r => lower (get_text r)) rs = map (fun r => lower (get_text r)) rs'.

(** The [rating] argument is [None] or a number on the 0-5 scale. *)
Definition rating_arg_on_scale (rating : option pyfloat) : bool :=
  match rating with
  | None => true
  | Some x => in_range 0 5 x
  end.

(** A rating cell that is missing or holds a value on the 0-5 scale. *)
Definition rating_cell_on_scale (x : pyfloat) : bool :=
  negb (notna x) || in_range 0 5 x.

(** [lo < x < hi], as Python would test it. *)
Definition strictly_between (lo hi : Q) (x : pyfloat) : bool :=
  (Fin lo <? x)%fl && (x <? Fin hi)%fl.

Definition unrated_far_row : row :=
  {| distance_miles := Fin 4; estimated_price := NaN; rating := NaN;
     mentions := FeatureEngineer.no_review_features |}.

Definition zero_budget_prefs : preferences :=
  {| max_distance := Fin 10; max_budget := Fin 0; values := Some ["clean"] |}.

Definition unrated_near_row : row :=
  {| distance_miles := Fin 1; estimated_price := Fin 900; rating := NaN;
     mentions := ∅ |}.

(** The labels the viewer lists under "Approach" for a row (app.py):
    [row.get('mentions_<value>', 0) > 0] for three of the values. *)
Definition matching_values (r : row) : list string :=
  let matching_values := [] in
  let matching_values :=
    if value_matched (mentions r) "montessori"
    then matching_values ++ ["Montessori"] else matching_values in
  let matching_values :=
    if value_matched (mentions r) "play_based"
    then matching_values ++ ["Play-Based"] else matching_values in
  let matching_values :=
    if value_matched (mentions r) "stem"
    then matching_values ++ ["STEM"] else matching_values in
  matching_values.

(** The row with another cell in one of its [mentions_*] columns. *)
Definition with_mention (r : row) (value : string) (c : pyfloat) : row :=
  {| distance_miles := distance_miles r; estimated_price := estimated_price r;
     rating := rating r; mentions := <[col_name value := c]> (mentions r) |}.

Definition rated_reviewed_row : row :=
  {| distance_miles := Fin 5;
     estimated_price := FeatureEngineer.estimated_price_column pricey_reviews (Fin 5);
     rating := Fin 5;
     mentions := FeatureEngineer.extract_review_features pricey_reviews |}.

Definition generous_prefs : preferences :=
  {| max_distance := Fin 10; max_budget := Fin 1800; values := Some ["clean"] |}.

(** ** [SimpleChildcareCollector] (collect_data.py)

    The two endpoints of the places API are the environment.  Their
    responses are taken in the shape the API documents: a search response
    has a string [status], an optional array [results] of objects and an
    optional string [next_page_token]; a details response has a string
    [status] and an optional object [result].  What is inside the objects is
    free JSON. *)

Module SimpleChildcareCollector.

#[warnings="-register-all"]
Inductive json : Type :=
  | JNull
  | JBool (b : bool)
  | JNum (x : pyfloat)
  | JStr (s : string)
  | JArr (l : list json)
  | JObj (m : gmap string json).

Definition dict : Type := gmap string json.

(** [d.get(k, v)]; [d.get(k)] is [get d k JNull]. *)
Definition get (d : dict) (k : string) (v : json) : json := default v (d !! k).

(** [bool(d)] on a dictionary. *)
Definition dict_truthy (d : dict) : bool := negb (size d =? 0)%nat.

(** [bool(x)] *)
Definition json_truthy (x : json) : bool :=
  match x with
  | JNull => false
  | JBool b => b
  | JNum x => truthy x
  | JStr s => negb (String.eqb s "")
  | JArr l => negb (length l =? 0)%nat
  | JObj m => dict_truthy m
  end.

(** The receiver of a chained [.get]: anything but a dictionary raises
    [AttributeError]. *)
Definition as_dict (x : json) : option dict :=
  match x with JObj m => Some m | _ => None end.

Record search_response : Type := {
  status : string;
  results : option (list dict);
  next_page_token : option string
}.

(** The [params] of a search request: those of the first request, or a page
    token alone. *)
Inductive search_params : Type :=
  | Nearby (location : pyfloat * pyfloat) (radius : pyfloat) (keyword : string)
  | PageToken (pagetoken : string).

(** [min(radius_miles * 1609.34, 50000)], for an integer number of miles. *)
Definition radius_param (radius_miles : Z) : pyfloat :=
  let radius_meters := (Fin (inject_Z radius_miles) * Fin 1609.34)%fl in
  py_min radius_meters (Fin 50000).

(** The [while True] loop of [search_childcare_in_area].  [responses] are
    the replies of the endpoint to the successive requests; the result is
    the providers found and the requests sent, or [None] when the loop asks
    for a reply beyond those given. *)
Fixpoint search_loop (responses : list search_response) (params : search_params)
    (providers : list dict) (sent : list search_params)
    : option (list dict * list search_params) :=
  match responses with
  | [] => None
  | data :: responses' =>
      let sent := sent ++ [params] in
      if negb (String.eqb (status data) "OK") then Some (providers, sent)
      else
        let providers := providers ++ default [] (results data) in
        match next_page_token data with
        | None => Some (providers, sent)
        | Some token =>
            if String.eqb token "" then Some (providers, sent)
            else search_loop responses' (PageToken token) providers sent
        end
  end.

Definition search_childcare_in_area (responses : list search_response)
    (location : pyfloat * pyfloat) (radius_miles : Z) (query : string)
    : option (list dict * list search_params) :=
  search_loop responses (Nearby location (radius_param radius_miles) query) [] [].

Record details_response : Type := {
  details_status : string;
  result : option dict
}.

(** [get_detailed_info]: [data['result']] raises [KeyError] when the entry
    is absent. *)
Definition get_detailed_info (api : json -> details_response) (place_id : json)
    : option dict :=
  let data := api place_id in
  if String.eqb (details_status data) "OK" then result data else Some ∅.

(** The dictionary [combined]. *)
Record combined : Type := {
  place_id : json;
  name : json;
  address : json;
  phone : json;
  website : json;
  rating : json;
  review_count : json;
  latitude : json;
  longitude : json;
  business_status : json;
  reviews : json
}.

(** [details.get('geometry', {}).get('location', {})] *)
Definition location_of (details : dict) : option dict :=
  geometry ← as_dict (get details "geometry" (JObj ∅));
  as_dict (get geometry "location" (JObj ∅)).

Definition combine (provider details : dict) (place_id : json) : option combined :=
  location ← location_of details;
  Some {| place_id := place_id;
          name := get details "name" (get provider "name" (JStr "Unknown"));
          address := get details "formatted_address" (JStr "");
          phone := get details "formatted_phone_number" (JStr "");
          website := get details "website" (JStr "");
          rating := get details "rating" JNull;
          review_count := get details "user_ratings_total" (JNum (Fin 0));
          latitude := get location "lat" JNull;
          longitude := get location "lng" JNull;
          business_status := get details "business_status" (JStr "UNKNOWN");
          reviews := get details "reviews" (JArr []) |}.

(** The [for provider in providers] loop of [collect_all_providers], with
    the place ids asked of the details endpoint so far and the records
    appended so far. *)
Fixpoint collect_loop (api : json -> details_response) (providers : list dict)
    (asked : list json) (detailed_providers : list combined)
    : option (list json * list combined) :=
  match providers with
  | [] => Some (asked, detailed_providers)
  | provider :: providers' =>
      let place_id := get provider "place_id" JNull in
      if negb (json_truthy place_id)
      then collect_loop api providers' asked detailed_providers
      else
        let asked := asked ++ [place_id] in
        details ← get_detailed_info api place_id;
        if dict_truthy details then
          combined ← combine provider details place_id;
          collect_loop api providers' asked (detailed_providers ++ [combined])
        else collect_loop api providers' asked detailed_providers
  end.

(** [collect_all_providers], from the search to the list of records the
    frame is made of. *)
Definition collect_all_providers
    (responses : list search_response) (api : json -> details_response)
    (location : pyfloat * pyfloat) (radius : Z) : option (list combined) :=
  found ← search_childcare_in_area responses location radius "childcare";
  match found.1 with
  | [] => Some []
  | _ :: _ =>
      collected ← collect_loop api found.1 [] [];
      Some collected.2
  end.

(** The response lets the loop go on: it is OK and carries a page token. *)
Definition continues (data : search_response) : bool :=
  String.eqb (status data) "OK" &&
  match next_page_token data with
  | Some token => negb (String.eqb token "")
  | None => false
  end.

(** The providers a response adds. *)
Definition found_in (data : search_response) : list dict :=
  if String.eqb (status data) "OK" then default [] (results data) else [].

(** The request that follows a response with a page token. *)
Definition next_params (data : search_response) : search_params :=
  PageToken (default EmptyString (next_page_token data)).

(** The place id the loop reads from a search hit. *)
Definition place_id_of (provider : dict) : json := get provider "place_id" JNull.

(** The detail fetch of the place id gives a non-empty dictionary. *)
Definition fetched (api : json -> details_response) (place_id : json) : bool :=
  match get_detailed_info api place_id with
  | Some details => dict_truthy details
  | None => false
  end.

(** The hit has a place id and its detail fetch gives a non-empty
    dictionary. *)
Definition kept (api : json -> details_response) (provider : dict) : bool :=
  json_truthy (get provider "place_id" JNull) &&
  fetched api (get provider "place_id" JNull).

(** Nothing in the reply to the hit's detail request makes the loop raise:
    an OK reply has a [result], and a non-empty result has dictionaries (or
    nothing) under [geometry] and [location]. *)
Definition well_formed (api : json -> details_response) (provider : dict) : bool :=
  let place_id := get provider "place_id" JNull in
  negb (json_truthy place_id) ||
  match get_detailed_info api place_id with
  | Some details => negb (dict_truthy details) || bool_decide (is_Some (location_of details))
  | None => false
  end.

(** A coordinate of a collected record as a cell of the frame: [None] and
    NaN are missing; a value that is not a number is no coordinate. *)
Definition coordinate_cell (x : json) : option Haversine.cell :=
  match x with
  | JNull | JNum NaN => Some Haversine.Missing
  | JNum (Fin q) => Some (Haversine.Val (Q2R q))
  | _ => None
  end.

(** A details endpoint that knows two places: one with a name and a
    position, one with a name only; every other request fails. *)
Definition example_api (place_id : json) : details_response :=
  match place_id with
  | JStr "a" =>
      {| details_status := "OK";
         result := Some {[ "name" := JStr "Little Learners";
                           "geometry" :=
                             JObj {[ "location" :=
                                       JObj {[ "lat" := JNum (Fin 42.5);
                                               "lng" := JNum (Fin (-70.8)) ]} ]} ]} |}
  | JStr "b" =>
      {| details_status := "OK"; result := Some {[ "name" := JStr "Sunshine" ]} |}
  | JStr "c" =>
      {| details_status := "OK"; result := Some ∅ |}
  | _ => {| details_status := "NOT_FOUND"; result := None |}
  end.

Definition example_hits : list dict :=
  [ {[ "place_id" := JStr "a"; "name" := JStr "LL" ]};
    {[ "name" := JStr "no id" ]};
    {[ "place_id" := JStr "zzz" ]};
    {[ "place_id" := JStr "c" ]};
    {[ "place_id" := JStr "b" ]} ].

End SimpleChildcareCollector.

(** * Properties *)

(** ** Comparisons and arithmetic *)

Arguments Qle_bool : simpl never.
Arguments Qlt_bool : simpl never.
Arguments Qeq_bool : simpl never.
Arguments Qcompare : simpl never.
Arguments Qplus : simpl never.
Arguments Qminus : simpl never.
Arguments Qmult : simpl never.
Arguments Qdiv : simpl never.
Arguments Qopp : simpl never.
Arguments inject_Z : simpl never.

Lemma Qlt_bool_iff (a b : Q) : Qlt_bool a b = true <-> a < b.
Proof.
  unfold Qlt_bool. rewrite Qlt_alt.
  destruct (a ?= b); split; intros H; congruence.
Qed.

Lemma Qlt_bool_false (a b : Q) : Qlt_bool a b = false <-> b <= a.
Proof.
  rewrite <- not_true_iff_false, Qlt_bool_iff. split; intros H; lra.
Qed.

Lemma Qle_bool_false (a b : Q) : Qle_bool a b = false <-> b < a.
Proof.
  rewrite <- not_true_iff_false, Qle_bool_iff. split; intros H; lra.
Qed.

Lemma Qeq_bool_false (a b : Q) : Qeq_bool a b = false <-> ~ a == b.
Proof.
  rewrite <- not_true_iff_false, Qeq_bool_iff. tauto.
Qed.

Lemma Qcompare_Gt (a b : Q) : (a ?= b) = Gt <-> b < a.
Proof. rewrite <- Qgt_alt. reflexivity. Qed.

Lemma Qcompare_Lt (a b : Q) : (a ?= b) = Lt <-> a < b.
Proof. rewrite <- Qlt_alt. reflexivity. Qed.

Lemma Qcompare_Eq (a b : Q) : (a ?= b) = Eq <-> a == b.
Proof. rewrite <- Qeq_alt. reflexivity. Qed.

(** Turn every boolean comparison of rationals in the context and the goal
    into the order it decides. *)
Ltac qbool :=
  repeat match goal with
  | H : Qle_bool _ _ = true |- _ => apply -> Qle_bool_iff in H
  | H : Qle_bool _ _ = false |- _ => apply -> Qle_bool_false in H
  | H : Qlt_bool _ _ = true |- _ => apply -> Qlt_bool_iff in H
  | H : Qlt_bool _ _ = false |- _ => apply -> Qlt_bool_false in H
  | H : Qeq_bool _ _ = true |- _ => apply -> Qeq_bool_iff in H
  | H : Qeq_bool _ _ = false |- _ => apply -> Qeq_bool_false in H
  | H : (_ ?= _) = Gt |- _ => apply -> Qcompare_Gt in H
  | H : (_ ?= _) = Lt |- _ => apply -> Qcompare_Lt in H
  | H : (_ ?= _) = Eq |- _ => apply -> Qcompare_Eq in H
  | |- Qle_bool _ _ = true => apply <- Qle_bool_iff
  | |- Qle_bool _ _ = false => apply <- Qle_bool_false
  | |- Qlt_bool _ _ = true => apply <- Qlt_bool_iff
  | |- Qlt_bool _ _ = false => apply <- Qlt_bool_false
  | |- Qeq_bool _ _ = true => apply <- Qeq_bool_iff
  | |- Qeq_bool _ _ = false => apply <- Qeq_bool_false
  end.

(** Case analysis on the boolean tests left in the goal. *)
Ltac qcases :=
  repeat match goal with
  | |- context [Qle_bool ?a ?b] => destruct (Qle_bool a b) eqn:?; simpl
  | |- context [Qlt_bool ?a ?b] => destruct (Qlt_bool a b) eqn:?; simpl
  | |- context [Qeq_bool ?a ?b] => destruct (Qeq_bool a b) eqn:?; simpl
  | |- context [?a ?= ?b] => destruct (a ?= b) eqn:?; simpl
  end.

(** Close a goal by the arithmetic of its hypotheses. *)
Ltac qdone :=
  qbool; first [ reflexivity | tauto | lra | exfalso; lra ].

Lemma Qdiv_le_1 (x m : Q) : 0 < m -> x <= m -> x / m <= 1.
Proof.
  intros Hm Hx. apply Qle_shift_div_r; [exact Hm | lra].
Qed.

Lemma Qdiv_ge_1 (x m : Q) : 0 < m -> m <= x -> 1 <= x / m.
Proof.
  intros Hm Hx. apply Qle_shift_div_l; [exact Hm | lra].
Qed.

Lemma of_nat_nonneg (n : nat) : 0 <= inject_Z (Z.of_nat n).
Proof.
  change 0 with (inject_Z 0). rewrite <- Zle_Qle. lia.
Qed.

Lemma of_nat_pos (n : nat) : (0 < n)%nat -> 0 < inject_Z (Z.of_nat n).
Proof.
  intros H. change 0 with (inject_Z 0). rewrite <- Zlt_Qlt. lia.
Qed.

Global Instance feq_equiv : Equivalence feq.
Proof.
  split.
  - intros []; simpl; auto. reflexivity.
  - intros [] []; simpl; auto. intros H. symmetry. exact H.
  - intros [] [] []; simpl; auto; try tauto. intros H1 H2. rewrite H1. exact H2.
Qed.

Lemma fadd_feq (a a' b b' : pyfloat) :
  a =f= a' -> b =f= b' -> (a + b)%fl =f= (a' + b')%fl.
Proof.
  destruct a, a'; simpl; try tauto; destruct b, b'; simpl; try tauto.
  intros H1 H2. rewrite H1, H2. reflexivity.
Qed.

Lemma flt_feq (a a' b b' : pyfloat) :
  a =f= a' -> b =f= b' -> (a <? b)%fl = (a' <? b')%fl.
Proof.
  destruct a, a'; simpl; try tauto; destruct b, b'; simpl; try tauto.
  intros H1 H2. unfold Qlt_bool. rewrite H1, H2. reflexivity.
Qed.

Lemma py_min_feq (a a' b : pyfloat) : a =f= a' -> py_min a b =f= py_min a' b.
Proof.
  intros H. unfold py_min. rewrite (flt_feq b b a a'); [| reflexivity | exact H].
  destruct (b <? a')%fl; [reflexivity | exact H].
Qed.

Lemma fadd_zero_r (a : pyfloat) : (a + Fin 0)%fl =f= a.
Proof. destruct a; simpl; auto. lra. Qed.

Lemma nonneg_fadd (a b : pyfloat) :
  nonneg a = true -> nonneg b = true -> nonneg (a + b)%fl = true.
Proof.
  unfold nonneg. destruct a, b; simpl; try discriminate; auto.
  intros; qbool; lra.
Qed.

Lemma py_min_in_range (s : pyfloat) :
  nonneg s = true -> in_range 0 100 (py_min s (Fin 100)) = true.
Proof.
  unfold nonneg, in_range, py_min. destruct s; simpl; try discriminate; auto.
  intros H. destruct (Qlt_bool 100 q) eqn:E; simpl.
  - reflexivity.
  - rewrite H. simpl. qbool. lra.
Qed.

(** The result of [min(score, 100)] is NaN or at most 100, whatever the
    score. *)
Lemma py_min_upper (s : pyfloat) :
  notna (py_min s (Fin 100)) = false \/ (py_min s (Fin 100) <=? Fin 100)%fl = true.
Proof.
  unfold py_min. destruct s; simpl; auto.
  destruct (Qlt_bool 100 q) eqn:E; simpl; right; qbool; lra.
Qed.

(** A division by a divisor that is not zero returns. *)
Lemma py_div_truthy (x y : pyfloat) :
  truthy y = true -> py_div x y = Some (x / y)%fl.
Proof.
  unfold py_div, truthy. destruct y; try reflexivity.
  destruct (Qeq_bool q 0); [discriminate | reflexivity].
Qed.

Lemma finite_positive_truthy (m : pyfloat) :
  finite_positive m = true -> truthy m = true.
Proof.
  destruct m; simpl; try discriminate. intros H.
  destruct (Qeq_bool q 0) eqn:E; [| reflexivity]. qdone.
Qed.

Lemma py_div_by_5 (x : pyfloat) : py_div x (Fin 5) = Some (x / Fin 5)%fl.
Proof. reflexivity. Qed.

(** [weight * (1 - x / m)] is not negative when [x <= m] and [m] is finite
    and positive. *)
Lemma within_term_nonneg (w : Q) (x m : pyfloat) :
  0 < w -> finite_positive m = true -> (x <=? m)%fl = true ->
  nonneg (Fin w * (Fin 1 - x / m))%fl = true.
Proof.
  intros Hw Hm Hx. destruct m as [ | | |m]; try discriminate. simpl in Hm.
  unfold nonneg. apply Qlt_bool_iff in Hm.
  destruct x as [ | | |x]; simpl in Hx; try discriminate; simpl.
  - qcases; qdone.
  - apply Qle_bool_iff in Hx. pose proof (Qdiv_le_1 x m Hm Hx) as Hd.
    assert (Hp : 0 <= w * (1 + - (x / m))) by (apply Qmult_le_0_compat; lra).
    qcases; qdone.
Qed.

(** The over-budget penalty of the collection script is never negative. *)
Lemma penalty_nonneg (x : pyfloat) : nonneg (py_max (Fin 0) x) = true.
Proof.
  unfold nonneg, py_max. destruct x; simpl; auto.
  qcases; qdone.
Qed.

Lemma rating_term_nonneg (x : pyfloat) :
  nonneg x = true -> nonneg (Fin 20 * (x / Fin 5))%fl = true.
Proof.
  unfold nonneg. destruct x; simpl; try discriminate.
  - intros _. vm_compute. reflexivity.
  - intros H. apply Qle_bool_iff in H.
    assert (Hd : 0 <= q / 5) by (apply Qle_shift_div_l; lra).
    assert (Hp : 0 <= 20 * (q / 5)) by (apply Qmult_le_0_compat; lra).
    qcases; qdone.
Qed.

Lemma values_term_nonneg (k n : nat) :
  (0 < n)%nat ->
  py_div (of_nat k) (of_nat n) = Some (of_nat k / of_nat n)%fl /\
  nonneg (Fin 15 * (of_nat k / of_nat n))%fl = true.
Proof.
  intros Hn. pose proof (of_nat_pos n Hn) as Hq. pose proof (of_nat_nonneg k) as Hk.
  assert (Hz : Qeq_bool (inject_Z (Z.of_nat n)) 0 = false)
    by (apply Qeq_bool_false; lra).
  unfold nonneg, py_div, of_nat. rewrite Hz. split; [reflexivity |]. simpl.
  rewrite Hz. simpl.
  assert (Hd : 0 <= inject_Z (Z.of_nat k) / inject_Z (Z.of_nat n))
    by (apply Qle_shift_div_l; lra).
  assert (Hp : 0 <= 15 * (inject_Z (Z.of_nat k) / inject_Z (Z.of_nat n)))
    by (apply Qmult_le_0_compat; lra).
  qdone.
Qed.

(** ** The two scorers on the values block *)

Lemma values_loop_acc (r : row) (vs : list string) (acc : nat) :
  Collect.values_loop r vs acc = (acc + Viewer.matches r vs)%nat.
Proof.
  revert acc. induction vs as [|v vs IH]; intros acc.
  - unfold Viewer.matches. simpl. lia.
  - cbn [Collect.values_loop]. rewrite IH. unfold Viewer.matches.
    cbn [List.filter].
    destruct (mentions r !! col_name v) as [c|]; cbn -[flt].
    + destruct (Fin 0 <? c)%fl; cbn [length]; lia.
    + change (Fin 0 <? Fin 0)%fl with false. lia.
Qed.

Lemma values_block_agree (r : row) (p : preferences) (score : pyfloat) :
  Collect.values_block r p score
  = Viewer.values_block r (default [] (values p)) score.
Proof.
  unfold Collect.values_block, Viewer.values_block.
  rewrite values_loop_acc. destruct (values p) as [[|v vs]|]; reflexivity.
Qed.

Lemma rating_block_agree (r : row) (score : pyfloat) :
  Collect.rating_block r score = Viewer.rating_block r score.
Proof. reflexivity. Qed.

Lemma distance_block_agree (r : row) (p : preferences) (score : pyfloat) :
  Collect.distance_block r p score = Viewer.distance_block r (max_distance p) score.
Proof. reflexivity. Qed.

(** ** Range of the match score *)

Section ScoreRange.

Variables (r : row) (p : preferences).
Hypothesis Hdistance : finite_positive (max_distance p) = true.
Hypothesis Hbudget : finite_positive (max_budget p) = true.
Hypothesis Hrating : rating_absent_or_nonneg r = true.

Lemma distance_keeps_nonneg : keeps_nonneg (Collect.distance_block r p).
Proof.
  intros s Hs. unfold Collect.distance_block.
  destruct (notna (distance_miles r)); [| eauto].
  destruct (distance_miles r <=? max_distance p)%fl eqn:E; [| eauto].
  rewrite py_div_truthy by (apply finite_positive_truthy, Hdistance).
  eexists. split; [reflexivity |].
  apply nonneg_fadd; [exact Hs |]. apply within_term_nonneg; auto. reflexivity.
Qed.

Lemma collect_price_keeps_nonneg : keeps_nonneg (Collect.price_block r p).
Proof.
  intros s Hs. unfold Collect.price_block.
  destruct (notna (estimated_price r)); [| eauto].
  rewrite !py_div_truthy by (apply finite_positive_truthy, Hbudget).
  destruct (estimated_price r <=? max_budget p)%fl eqn:E;
    (eexists; split; [reflexivity |]); (apply nonneg_fadd; [exact Hs |]).
  - apply within_term_nonneg; auto. reflexivity.
  - apply penalty_nonneg.
Qed.

Lemma viewer_price_keeps_nonneg : keeps_nonneg (Viewer.price_block r (max_budget p)).
Proof.
  intros s Hs. unfold Viewer.price_block.
  destruct (notna (estimated_price r)); [| eauto].
  destruct (estimated_price r <=? max_budget p)%fl eqn:E; [| eauto].
  rewrite py_div_truthy by (apply finite_positive_truthy, Hbudget).
  eexists. split; [reflexivity |].
  apply nonneg_fadd; [exact Hs |]. apply within_term_nonneg; auto. reflexivity.
Qed.

Lemma rating_keeps_nonneg : keeps_nonneg (Collect.rating_block r).
Proof.
  intros s Hs. unfold Collect.rating_block.
  unfold rating_absent_or_nonneg in Hrating.
  destruct (notna (rating r)); [| eauto]. simpl in Hrating.
  rewrite py_div_by_5. eexists. split; [reflexivity |].
  apply nonneg_fadd; [exact Hs |]. apply rating_term_nonneg, Hrating.
Qed.

Lemma values_keeps_nonneg (vs : list string) : keeps_nonneg (Viewer.values_block r vs).
Proof.
  intros s Hs. unfold Viewer.values_block. destruct vs as [|v vs]; [eauto |].
  destruct (values_term_nonneg (Viewer.matches r (v :: vs)) (length (v :: vs)))
    as [Hdiv Hterm]; [simpl; lia |].
  rewrite Hdiv. eexists. split; [reflexivity |].
  apply nonneg_fadd; [exact Hs | exact Hterm].
Qed.

Lemma collect_score_in_range :
  returns_in_range 0 100 (Collect.calculate_match_score r p) = true.
Proof.
  unfold Collect.calculate_match_score.
  destruct (distance_keeps_nonneg (Fin 0)) as (s1 & -> & H1); [reflexivity |].
  destruct (collect_price_keeps_nonneg s1 H1) as (s2 & E2 & H2).
  destruct (rating_keeps_nonneg s2 H2) as (s3 & E3 & H3).
  destruct (values_keeps_nonneg (default [] (values p)) s3 H3) as (s4 & E4 & H4).
  cbn [mbind option_bind]. rewrite E2. cbn [mbind option_bind]. rewrite E3.
  cbn [mbind option_bind]. rewrite values_block_agree, E4.
  cbn [mbind option_bind returns_in_range]. apply py_min_in_range, H4.
Qed.

Lemma viewer_score_in_range :
  returns_in_range 0 100
    (Viewer.calculate_match_score r (max_distance p) (max_budget p)
       (default [] (values p))) = true.
Proof.
  unfold Viewer.calculate_match_score. rewrite <- distance_block_agree.
  destruct (distance_keeps_nonneg (Fin 0)) as (s1 & -> & H1); [reflexivity |].
  destruct (viewer_price_keeps_nonneg s1 H1) as (s2 & E2 & H2).
  destruct (rating_keeps_nonneg s2 H2) as (s3 & E3 & H3).
  destruct (values_keeps_nonneg (default [] (values p)) s3 H3) as (s4 & E4 & H4).
  cbn [mbind option_bind]. rewrite E2. cbn [mbind option_bind].
  rewrite <- rating_block_agree, E3. cbn [mbind option_bind]. rewrite E4.
  cbn [mbind option_bind returns_in_range]. apply py_min_in_range, H4.
Qed.

End ScoreRange.

(** C1 (as amended): for every preference set whose [max_distance] and
    [max_budget] are finite and positive, and every provider row whose rating
    is absent or not negative, both implementations of [calculate_match_score]
    return a value in the closed interval [0, 100], whatever the values of
    [distance_miles], [estimated_price] and the mention counts. *)
Theorem match_score_in_0_100 (r : row) (p : preferences) :
  finite_positive (max_distance p) = true ->
  finite_positive (max_budget p) = true ->
  rating_absent_or_nonneg r = true ->
  returns_in_range 0 100 (Collect.calculate_match_score r p) = true /\
  returns_in_range 0 100
    (Viewer.calculate_match_score r (max_distance p) (max_budget p)
       (default [] (values p))) = true.
Proof.
  intros Hd Hb Hr. split.
  - apply collect_score_in_range; assumption.
  - apply viewer_score_in_range; assumption.
Qed.

Lemma match_score_in_0_100_witness :
  returns_in_range 0 100 (Collect.calculate_match_score typical_row example_prefs) = true /\
  returns_in_range 0 100
    (Viewer.calculate_match_score typical_row (Fin 10) (Fin 1500) []) = true.
Proof.
  apply (match_score_in_0_100 typical_row example_prefs); reflexivity.
Defined.

(** C1 (as stated) fails: the score is only clamped from above.  A row with
    rating -5, beyond the distance limit and at twice the budget, scores -20
    in both implementations. *)
Lemma match_score_negative_rating :
  same_outcome (Collect.calculate_match_score negative_rating_row example_prefs)
    (Some (Fin (-20))) /\
  returns_in_range 0 100
    (Collect.calculate_match_score negative_rating_row example_prefs) = false /\
  same_outcome (Viewer.calculate_match_score negative_rating_row (Fin 10) (Fin 1500) [])
    (Some (Fin (-20))) /\
  returns_in_range 0 100
    (Viewer.calculate_match_score negative_rating_row (Fin 10) (Fin 1500) []) = false.
Proof. vm_compute. repeat split; reflexivity. Qed.

(** The limits have to be positive as well: below a negative limit the
    distance and price terms are negative, and a zero limit makes the
    division raise. *)
Lemma match_score_needs_positive_limits :
  same_outcome
    (Collect.calculate_match_score
       {| distance_miles := Fin (-20); estimated_price := NaN; rating := NaN;
          mentions := ∅ |}
       {| max_distance := Fin (-10); max_budget := Fin 1500; values := None |})
    (Some (Fin (-35))) /\
  same_outcome
    (Collect.calculate_match_score
       {| distance_miles := NaN; estimated_price := Fin (-200); rating := NaN;
          mentions := ∅ |}
       {| max_distance := Fin 10; max_budget := Fin (-100); values := None |})
    (Some (Fin (-30))) /\
  Collect.calculate_match_score
    {| distance_miles := Fin 0; estimated_price := NaN; rating := NaN;
       mentions := ∅ |}
    {| max_distance := Fin 0; max_budget := Fin 1500; values := None |}
  = None.
Proof. vm_compute. repeat split; reflexivity. Qed.

(** Whatever the row and the preferences, a score that is returned and is
    not NaN is at most 100. *)
Lemma match_score_upper (r : row) (p : preferences) (s : pyfloat) :
  Collect.calculate_match_score r p = Some s ->
  notna s = false \/ (s <=? Fin 100)%fl = true.
Proof.
  unfold Collect.calculate_match_score. intros H.
  destruct (Collect.distance_block r p (Fin 0)) as [s1|]; [| discriminate].
  cbn [mbind option_bind] in H.
  destruct (Collect.price_block r p s1) as [s2|]; [| discriminate].
  cbn [mbind option_bind] in H.
  destruct (Collect.rating_block r s2) as [s3|]; [| discriminate].
  cbn [mbind option_bind] in H.
  destruct (Collect.values_block r p s3) as [s4|]; [| discriminate].
  cbn [mbind option_bind] in H. injection H as <-. apply py_min_upper.
Qed.

(** ** The worked example *)

(** C6: with [max_distance = 10], [max_budget = 1500] and no values, a
    provider at distance 5, price 750 and rating 5.0 scores exactly
    [35*(1-5/10) + 30*(1-750/1500) + 20*(5/5) + 0 = 52.5], in the collection
    script and in the viewer, whatever its mention columns. *)
Theorem example_score_52_5 (m : gmap string pyfloat) :
  let r := {| distance_miles := Fin 5; estimated_price := Fin 750;
              rating := Fin 5; mentions := m |} in
  let p := {| max_distance := Fin 10; max_budget := Fin 1500; values := Some [] |} in
  same_outcome (Collect.calculate_match_score r p) (Some (Fin 52.5)) /\
  same_outcome (Viewer.calculate_match_score r (Fin 10) (Fin 1500) []) (Some (Fin 52.5)) /\
  Fin 52.5 =f= Fin (35 * (1 - 5 / 10) + 30 * (1 - 750 / 1500) + 20 * (5 / 5) + 0).
Proof. vm_compute. repeat split; reflexivity. Qed.

(** ** Agreement of the two scorers *)

Lemma same_outcome_refl (o : option pyfloat) : same_outcome o o.
Proof. destruct o; simpl; [reflexivity | exact I]. Qed.

Lemma same_outcome_bind (o o' : option pyfloat) (f g : pyfloat -> option pyfloat) :
  same_outcome o o' ->
  (forall s s', s =f= s' -> same_outcome (f s) (g s')) ->
  same_outcome (o ≫= f) (o' ≫= g).
Proof.
  destruct o, o'; simpl; try tauto. intros H Hfg. apply Hfg, H.
Qed.

Lemma rating_block_feq (r : row) (s s' : pyfloat) :
  s =f= s' -> same_outcome (Collect.rating_block r s) (Viewer.rating_block r s').
Proof.
  intros H. unfold Collect.rating_block, Viewer.rating_block.
  destruct (notna (rating r)); [| exact H]. rewrite py_div_by_5.
  apply fadd_feq; [exact H | reflexivity].
Qed.

Lemma values_block_feq (r : row) (vs : list string) (s s' : pyfloat) :
  s =f= s' -> same_outcome (Viewer.values_block r vs s) (Viewer.values_block r vs s').
Proof.
  intros H. unfold Viewer.values_block. destruct vs; [exact H |].
  destruct (py_div _ _); [| exact I]. apply fadd_feq; [exact H | reflexivity].
Qed.

(** Above a positive budget and at or above twice that budget, the division
    of the penalty branch returns and the penalty is zero. *)
Lemma penalty_zero (x b : pyfloat) :
  (Fin 0 <? b)%fl = true -> (x <=? b)%fl = false -> (Fin 2 * b <=? x)%fl = true ->
  exists ratio, py_div (x - b)%fl b = Some ratio /\
                py_max (Fin 0) (Fin 30 * (Fin 1 - ratio))%fl = Fin 0.
Proof.
  unfold py_max.
  destruct b as [ | | |b], x as [ | | |x]; simpl; try discriminate.
  - intros Hb _ _. apply Qlt_bool_iff in Hb.
    assert (Hz : Qeq_bool b 0 = false) by (apply Qeq_bool_false; lra).
    unfold py_div. rewrite Hz. eexists. split; [reflexivity |].
    simpl. qcases; qdone.
  - intros Hb Hx H2. qbool.
    assert (Hz : Qeq_bool b 0 = false) by (apply Qeq_bool_false; lra).
    unfold py_div. rewrite Hz. eexists. split; [reflexivity |].
    simpl.
    assert (Hd : 1 <= (x + - b) / b) by (apply Qdiv_ge_1; lra).
    assert (Hp : 0 <= 30 * ((x + - b) / b + - 1)) by (apply Qmult_le_0_compat; lra).
    destruct (Qlt_bool 0 (30 * (1 + - ((x + - b) / b)))) eqn:E; [| reflexivity].
    qbool. exfalso. lra.
Qed.

Lemma price_block_agree (r : row) (p : preferences) (s : pyfloat) :
  (Fin 0 <? max_budget p)%fl = true ->
  notna (estimated_price r) = false \/
  (estimated_price r <=? max_budget p)%fl = true \/
  (Fin 2 * max_budget p <=? estimated_price r)%fl = true ->
  same_outcome (Collect.price_block r p s) (Viewer.price_block r (max_budget p) s).
Proof.
  intros Hb H. unfold Collect.price_block, Viewer.price_block.
  destruct (notna (estimated_price r)); [| apply same_outcome_refl].
  destruct (estimated_price r <=? max_budget p)%fl eqn:E;
    [apply same_outcome_refl |].
  destruct H as [H | [H | H]]; try discriminate.
  destruct (penalty_zero _ _ Hb E H) as (ratio & Hdiv & Hzero).
  rewrite Hdiv. cbn [mbind option_bind]. rewrite Hzero. apply fadd_zero_r.
Qed.

(** C5 (as amended): when [max_budget] is positive, the two implementations
    have the same outcome on every row whose [estimated_price] is missing, at
    most [max_budget], or at least [2 * max_budget]; and there is a row with
    [max_budget < estimated_price < 2 * max_budget] on which they return
    different scores. *)
Theorem scorers_agree_outside_penalty_band :
  (forall (r : row) (p : preferences),
     (Fin 0 <? max_budget p)%fl = true ->
     notna (estimated_price r) = false \/
     (estimated_price r <=? max_budget p)%fl = true \/
     (Fin 2 * max_budget p <=? estimated_price r)%fl = true ->
     same_outcome
       (Collect.calculate_match_score r p)
       (Viewer.calculate_match_score r (max_distance p) (max_budget p)
          (default [] (values p)))) /\
  (exists (r : row) (p : preferences),
     (max_budget p <? estimated_price r)%fl = true /\
     (estimated_price r <? Fin 2 * max_budget p)%fl = true /\
     same_outcome (Collect.calculate_match_score r p) (Some (Fin 57.5)) /\
     same_outcome
       (Viewer.calculate_match_score r (max_distance p) (max_budget p)
          (default [] (values p)))
       (Some (Fin 37.5)) /\
     ~ same_outcome
         (Collect.calculate_match_score r p)
         (Viewer.calculate_match_score r (max_distance p) (max_budget p)
            (default [] (values p)))).
Proof.
  split.
  - intros r p Hb H.
    unfold Collect.calculate_match_score, Viewer.calculate_match_score.
    rewrite distance_block_agree.
    destruct (Viewer.distance_block r (max_distance p) (Fin 0)) as [s1|];
      [| exact I].
    cbn [mbind option_bind].
    apply same_outcome_bind; [apply price_block_agree; assumption |].
    intros s2 s2' H2.
    apply same_outcome_bind; [apply rating_block_feq, H2 |].
    intros s3 s3' H3. rewrite values_block_agree.
    apply same_outcome_bind; [apply values_block_feq, H3 |].
    intros s4 s4' H4. apply py_min_feq, H4.
  - exists over_budget_row, example_prefs. vm_compute.
    repeat split; try reflexivity. discriminate.
Qed.

Lemma scorers_agree_witness :
  same_outcome
    (Collect.calculate_match_score negative_rating_row example_prefs)
    (Viewer.calculate_match_score negative_rating_row (Fin 10) (Fin 1500) []).
Proof.
  apply (proj1 scorers_agree_outside_penalty_band negative_rating_row example_prefs).
  - reflexivity.
  - right. right. reflexivity.
Defined.

(** C5 (as stated) fails for a negative budget: every price above the budget
    is then also above twice the budget, the collection script adds its
    penalty term and the viewer adds nothing. *)
Lemma scorers_differ_negative_budget :
  (Fin 2 * max_budget negative_budget_prefs <=? estimated_price typical_row)%fl = true /\
  same_outcome (Collect.calculate_match_score typical_row negative_budget_prefs)
    (Some (Fin 100)) /\
  same_outcome (Viewer.calculate_match_score typical_row (Fin 10) (Fin (-100)) [])
    (Some (Fin 33.5)).
Proof. vm_compute. repeat split; reflexivity. Qed.

(** ** Top-N selection *)

Lemma flt_false_trans (a b c : pyfloat) :
  notna b = true ->
  (a <? b)%fl = false -> (b <? c)%fl = false -> (a <? c)%fl = false.
Proof.
  destruct a, b, c; simpl; try discriminate; auto.
  intros _ H1 H2. qdone.
Qed.

Lemma flt_asym (a b : pyfloat) : (a <? b)%fl = true -> (b <? a)%fl = false.
Proof.
  destruct a, b; simpl; try discriminate; auto. intros H. qdone.
Qed.

Lemma flt_not_feqb (s a b : pyfloat) :
  (a <? b)%fl = true -> feqb s a = true -> feqb s b = false.
Proof.
  destruct s, a, b; simpl; try discriminate; auto.
  intros H1 H2. qdone.
Qed.

Lemma feqb_notna (s a : pyfloat) : feqb s a = true -> notna a = notna s.
Proof. destruct s, a; simpl; try discriminate; auto. Qed.

Section NLargestFacts.

Context {A : Type} (key : A -> pyfloat).

Lemma Forall_insert_desc (P : A -> Prop) (x : A) (l : list A) :
  P x -> Forall P l -> Forall P (insert_desc key x l).
Proof.
  intros Hx Hl. induction Hl as [|y l Hy Hl IH]; simpl.
  - constructor; [exact Hx | constructor].
  - destruct (key x <? key y)%fl; repeat constructor; auto.
Qed.

Lemma Forall_sort_desc (P : A -> Prop) (l : list A) :
  Forall P l -> Forall P (sort_desc key l).
Proof.
  induction 1 as [|x l Hx Hl IH]; simpl; [constructor |].
  apply Forall_insert_desc; assumption.
Qed.

Lemma insert_desc_sorted (x : A) (l : list A) :
  Forall (fun y => has_key key y = true) l ->
  StronglySorted (ranks_before key) l ->
  StronglySorted (ranks_before key) (insert_desc key x l).
Proof.
  intros Hk Hs. induction Hs as [|y l Hs IH Hy]; simpl.
  - repeat constructor.
  - inversion Hk as [|? ? Hky Hkl]; subst.
    destruct (key x <? key y)%fl eqn:E.
    + constructor; [apply IH, Hkl |].
      apply Forall_insert_desc; [| exact Hy].
      apply flt_asym, E.
    + constructor; [constructor; assumption |].
      constructor; [exact E |].
      eapply Forall_impl; [exact Hy |].
      intros z Hz. eapply flt_false_trans; [exact Hky | exact E | exact Hz].
Qed.

Lemma sort_desc_sorted (l : list A) :
  Forall (fun y => has_key key y = true) l ->
  StronglySorted (ranks_before key) (sort_desc key l).
Proof.
  induction 1 as [|x l Hx Hl IH]; simpl; [constructor |].
  apply insert_desc_sorted; [apply Forall_sort_desc, Hl | exact IH].
Qed.

Lemma ranks_before_nan (a : A) (l : list A) :
  Forall (fun y => has_key key y = false) l -> Forall (ranks_before key a) l.
Proof.
  intros H. eapply Forall_impl; [exact H |]. intros b Hb.
  unfold ranks_before, has_key in *.
  destruct (key b); try discriminate. destruct (key a); reflexivity.
Qed.

Lemma nan_sorted (l : list A) :
  Forall (fun y => has_key key y = false) l -> StronglySorted (ranks_before key) l.
Proof.
  induction 1 as [|y l Hy Hl IH]; constructor; [exact IH |].
  apply ranks_before_nan, Hl.
Qed.

Lemma sorted_app_nan (l1 l2 : list A) :
  StronglySorted (ranks_before key) l1 ->
  Forall (fun y => has_key key y = false) l2 ->
  StronglySorted (ranks_before key) (l1 ++ l2).
Proof.
  intros H1 H2. induction H1 as [|x l1 Hs IH Hx]; simpl.
  - apply nan_sorted, H2.
  - constructor; [exact IH |].
    apply Forall_app; split; [exact Hx | apply ranks_before_nan, H2].
Qed.

Lemma sorted_take (n : nat) (l : list A) :
  StronglySorted (ranks_before key) l -> StronglySorted (ranks_before key) (take n l).
Proof.
  intros Hs. revert n. induction Hs as [|x l Hs IH Hx]; intros [|n]; simpl;
    try constructor; auto.
  apply Forall_take, Hx.
Qed.

Lemma sorted_lookup (l : list A) (i j : nat) (a b : A) :
  StronglySorted (ranks_before key) l ->
  (i < j)%nat -> l !! i = Some a -> l !! j = Some b -> ranks_before key a b.
Proof.
  intros Hs. revert i j. induction Hs as [|x l Hs IH Hx]; intros i j Hij Hi Hj.
  - discriminate.
  - destruct j as [|j]; [lia |]. simpl in Hj. destruct i as [|i]; simpl in Hi.
    + injection Hi as ->. rewrite Forall_forall in Hx. apply Hx.
      eapply list_elem_of_lookup_2, Hj.
    + apply (IH i j); [lia | assumption | assumption].
Qed.

Lemma nlargest_sorted (n : nat) (l : list A) :
  StronglySorted (ranks_before key) (nlargest key n l).
Proof.
  unfold nlargest. apply sorted_take, sorted_app_nan.
  - apply sort_desc_sorted. rewrite Forall_forall. intros x Hx.
    apply list_elem_of_In, List.filter_In in Hx. apply Hx.
  - rewrite Forall_forall. intros x Hx.
    apply list_elem_of_In, List.filter_In in Hx.
    destruct Hx as [_ Hx]. destruct (has_key key x); auto.
Qed.

(** Stability: the rows of one score keep their order. *)
Lemma filter_insert_desc (s : pyfloat) (x : A) (l : list A) :
  List.filter (same_key key s) (insert_desc key x l) =
  List.filter (same_key key s) (x :: l).
Proof.
  induction l as [|y l IH]; [reflexivity |].
  simpl insert_desc. destruct (key x <? key y)%fl eqn:E; [| reflexivity].
  simpl. simpl in IH. rewrite IH.
  destruct (same_key key s x) eqn:Ex; [| reflexivity].
  unfold same_key in *. rewrite (flt_not_feqb s _ _ E Ex). reflexivity.
Qed.

Lemma filter_sort_desc (s : pyfloat) (l : list A) :
  List.filter (same_key key s) (sort_desc key l) = List.filter (same_key key s) l.
Proof.
  induction l as [|x l IH]; [reflexivity |].
  simpl sort_desc. rewrite filter_insert_desc. simpl. rewrite IH. reflexivity.
Qed.

Lemma filter_nan_class (s : pyfloat) (l : list A) :
  notna s = false -> List.filter (same_key key s) (List.filter (has_key key) l) = [].
Proof.
  intros Hs. induction l as [|y l IH]; [reflexivity |]. simpl.
  destruct (has_key key y) eqn:Ek; [| exact IH]. simpl.
  destruct (same_key key s y) eqn:Es; [| exact IH].
  unfold same_key, has_key in *.
  apply feqb_notna in Es. congruence.
Qed.

Lemma filter_filter_split (s : pyfloat) (l : list A) :
  List.filter (same_key key s) (List.filter (has_key key) l) ++
  List.filter (same_key key s) (List.filter (fun x => negb (has_key key x)) l) =
  List.filter (same_key key s) l.
Proof.
  induction l as [|x l IH]; [reflexivity |]. simpl.
  destruct (has_key key x) eqn:Ek; simpl.
  - destruct (same_key key s x); simpl; rewrite IH; reflexivity.
  - destruct (same_key key s x) eqn:Es; [| exact IH].
    assert (Hs : notna s = false).
    { unfold same_key, has_key in *.
      apply feqb_notna in Es. congruence. }
    rewrite filter_nan_class in * by exact Hs. simpl in *. rewrite IH. reflexivity.
Qed.

Lemma filter_take_prefix (P : A -> bool) (n : nat) (l : list A) :
  List.filter P (take n l) `prefix_of` List.filter P l.
Proof.
  exists (List.filter P (drop n l)).
  rewrite <- List.filter_app, take_drop. reflexivity.
Qed.

Lemma nlargest_stable (s : pyfloat) (n : nat) (l : list A) :
  List.filter (same_key key s) (nlargest key n l) `prefix_of` List.filter (same_key key s) l.
Proof.
  unfold nlargest. etransitivity; [apply filter_take_prefix |].
  rewrite List.filter_app, filter_sort_desc, filter_filter_split. reflexivity.
Qed.

Lemma nlargest_length (n : nat) (l : list A) : (length (nlargest key n l) <= n)%nat.
Proof. unfold nlargest. rewrite length_take. lia. Qed.

End NLargestFacts.

(** The score returns whenever neither limit is zero. *)
Lemma match_score_returns (r : row) (p : preferences) :
  truthy (max_distance p) = true -> truthy (max_budget p) = true ->
  is_Some (Collect.calculate_match_score r p).
Proof.
  intros Hd Hb.
  assert (H1 : forall s, is_Some (Collect.distance_block r p s)).
  { intros s. unfold Collect.distance_block.
    rewrite py_div_truthy by exact Hd.
    destruct (notna (distance_miles r)), (distance_miles r <=? max_distance p)%fl;
      eexists; reflexivity. }
  assert (H2 : forall s, is_Some (Collect.price_block r p s)).
  { intros s. unfold Collect.price_block.
    rewrite !py_div_truthy by exact Hb.
    destruct (notna (estimated_price r)), (estimated_price r <=? max_budget p)%fl;
      eexists; reflexivity. }
  assert (H3 : forall s, is_Some (Collect.rating_block r s)).
  { intros s. unfold Collect.rating_block. rewrite py_div_by_5.
    destruct (notna (rating r)); eexists; reflexivity. }
  assert (H4 : forall s, is_Some (Collect.values_block r p s)).
  { intros s. rewrite values_block_agree. unfold Viewer.values_block.
    destruct (default [] (values p)) as [|v vs]; [eexists; reflexivity |].
    destruct (values_term_nonneg (Viewer.matches r (v :: vs)) (length (v :: vs)))
      as [-> _]; [simpl; lia | eexists; reflexivity]. }
  unfold Collect.calculate_match_score.
  destruct (H1 (Fin 0)) as [s1 ->]. cbn [mbind option_bind].
  destruct (H2 s1) as [s2 ->]. cbn [mbind option_bind].
  destruct (H3 s2) as [s3 ->]. cbn [mbind option_bind].
  destruct (H4 s3) as [s4 ->]. eexists. reflexivity.
Qed.

Lemma with_match_score_spec (df : list row) (p : preferences) (scored : list scored_row) :
  SimpleRecommender.with_match_score df p = Some scored ->
  map provider scored = df /\
  Forall (fun x => Collect.calculate_match_score (provider x) p = Some (match_score x))
    scored.
Proof.
  unfold SimpleRecommender.with_match_score. intros H. apply mapM_Some_1 in H.
  induction H as [|r x df scored Hx _ [IH1 IH2]]; [split; constructor |].
  destruct (Collect.calculate_match_score r p) as [s|] eqn:E; [| discriminate].
  cbn [mbind option_bind] in Hx. injection Hx as <-.
  split; [simpl; rewrite IH1; reflexivity |]. constructor; [exact E | exact IH2].
Qed.

(** ** Quality score *)

(** C9: with keyword counts that are not negative, the divisor
    [positive + negative + 1] is strictly positive and [quality_score] is
    [0.6 * (rating_or_3 / 5) + 0.4 * ((positive - negative) / (positive + negative + 1))];
    no clamp is applied: the value is negative for a poorly rated provider
    with negative reviews only, and exceeds 1 when the rating cell exceeds
    the 0-5 scale. *)
Theorem quality_score_formula (rating : pyfloat) (positive negative : Z) :
  (0 <= positive)%Z -> (0 <= negative)%Z ->
  0 < inject_Z (positive + negative + 1) /\
  FeatureEngineer.quality_score rating positive negative =f=
    (Fin 0.6 * (fillna (Fin 3) rating / Fin 5) +
     Fin (0.4 * (inject_Z (positive - negative) / inject_Z (positive + negative + 1))))%fl /\
  (forall r : Q, fillna (Fin 3) rating = Fin r ->
     FeatureEngineer.quality_score rating positive negative =f=
       Fin (0.6 * (r / 5) +
            0.4 * (inject_Z (positive - negative) / inject_Z (positive + negative + 1)))) /\
  FeatureEngineer.quality_score (Fin 1) 0 9 =f= Fin (-0.24) /\
  FeatureEngineer.quality_score (Fin 10) 3 0 =f= Fin 1.5.
Proof.
  intros Hp Hn.
  assert (Hd : 0 < inject_Z (positive + negative + 1)).
  { change 0 with (inject_Z 0). rewrite <- Zlt_Qlt. lia. }
  assert (Hz : Qeq_bool (inject_Z (positive + negative + 1)) 0 = false).
  { apply Qeq_bool_false. lra. }
  split; [exact Hd |]. split; [| split; [| split]].
  - unfold FeatureEngineer.quality_score.
    destruct rating as [ | | |r]; simpl; rewrite Hz; simpl;
      try reflexivity; qcases; qdone.
  - intros r Hr. unfold FeatureEngineer.quality_score. rewrite Hr.
    simpl. rewrite Hz. simpl. qcases; qdone.
  - vm_compute. reflexivity.
  - vm_compute. reflexivity.
Qed.

Lemma quality_score_formula_witness :
  FeatureEngineer.quality_score (Fin 4.8) 2 0 =f=
    Fin (0.6 * (4.8 / 5) + 0.4 * (inject_Z (2 - 0) / inject_Z (2 + 0 + 1))).
Proof.
  apply (proj1 (proj2 (proj2
           (quality_score_formula (Fin 4.8) 2 0 ltac:(lia) ltac:(lia))))).
  reflexivity.
Defined.

(** ** Distance *)

Section Distance.

Local Open Scope R_scope.

Lemma math_sqrt_0 : Haversine.math_sqrt 0 = Some 0.
Proof.
  unfold Haversine.math_sqrt. destruct (Rle_dec 0 0) as [_ | H]; [| lra].
  rewrite sqrt_0. reflexivity.
Qed.

Lemma math_asin_0 : Haversine.math_asin 0 = Some 0.
Proof.
  unfold Haversine.math_asin.
  destruct (Rle_dec (-1) 0) as [_ | H]; [| lra].
  destruct (Rle_dec 0 1) as [_ | H]; [| lra].
  rewrite asin_0. reflexivity.
Qed.

(** C10: the distance from a point to itself is zero (and the call does
    not raise). *)
Theorem calculate_distance_same_point (lat lon : R) :
  Haversine.calculate_distance lat lon lat lon = Some 0.
Proof.
  unfold Haversine.calculate_distance.
  replace (Haversine.radians lat - Haversine.radians lat) with 0 by lra.
  replace (Haversine.radians lon - Haversine.radians lon) with 0 by lra.
  replace (0 / 2) with 0 by lra. rewrite sin_0.
  replace (0 ^ 2 + cos (Haversine.radians lat) * cos (Haversine.radians lat) * 0 ^ 2)
    with 0 by (simpl; lra).
  rewrite math_sqrt_0. simpl. rewrite math_asin_0. simpl. f_equal. lra.
Qed.

(** The argument of the square root stays in [0, 1]. *)
Lemma haversine_term_bounds (phi1 phi2 dlon : R) :
  let a := sin ((phi2 - phi1) / 2) ^ 2 + cos phi1 * cos phi2 * sin (dlon / 2) ^ 2 in
  0 <= a <= 1.
Proof.
  set (u := (phi2 - phi1) / 2). set (m := (phi1 + phi2) / 2).
  replace phi1 with (m - u) by (unfold m, u; lra).
  replace phi2 with (m + u) by (unfold m, u; lra).
  rewrite cos_minus, cos_plus.
  pose proof (sin2_cos2 u) as Hu. pose proof (sin2_cos2 m) as Hm.
  pose proof (sin2_cos2 (dlon / 2)) as Hl.
  unfold Rsqr in *. simpl.
  set (su := sin u) in *. set (cu := cos u) in *.
  set (sm := sin m) in *. set (cm := cos m) in *.
  set (sl := sin (dlon / 2)) in *. set (cl := cos (dlon / 2)) in *.
  assert (Hprod : (cm * cu + sm * su) * (cm * cu - sm * su) = 1 - sm * sm - su * su)
    by nra.
  assert (0 <= su * su) by nra. assert (0 <= sm * sm) by nra.
  assert (0 <= sl * sl) by nra. assert (0 <= cl * cl) by nra.
  assert (0 <= cu * cu) by nra. assert (0 <= cm * cm) by nra.
  replace (su * (su * 1) + (cm * cu + sm * su) * (cm * cu - sm * su) * (sl * (sl * 1)))
    with (su * su * (cl * cl) + (cm * cm) * (sl * sl)) by nra.
  split; nra.
Qed.

(** On finite coordinates [calculate_distance] never raises, and the
    distance is not negative. *)
Lemma calculate_distance_total (lat1 lon1 lat2 lon2 : R) :
  exists d : R, Haversine.calculate_distance lat1 lon1 lat2 lon2 = Some d /\ 0 <= d.
Proof.
  unfold Haversine.calculate_distance.
  pose proof (haversine_term_bounds (Haversine.radians lat1) (Haversine.radians lat2)
                (Haversine.radians lon2 - Haversine.radians lon1)) as Ha.
  cbv zeta in Ha.
  set (a := sin _ ^ 2 + _) in *.
  unfold Haversine.math_sqrt. destruct (Rle_dec 0 a) as [H0 | H0]; [| lra]. simpl.
  assert (Hs : 0 <= sqrt a <= 1).
  { split; [apply sqrt_pos |]. rewrite <- sqrt_1. apply sqrt_le_1; lra. }
  unfold Haversine.math_asin.
  destruct (Rle_dec (-1) (sqrt a)) as [H1 | H1]; [| lra].
  destruct (Rle_dec (sqrt a) 1) as [H2 | H2]; [| lra]. simpl.
  eexists. split; [reflexivity |].
  assert (Hasin : 0 <= asin (sqrt a)).
  { destruct (Rle_lt_dec 0 (asin (sqrt a))) as [Hge | Hlt]; [exact Hge |].
    pose proof (asin_bound (sqrt a)) as Hb. pose proof PI_RGT_0 as Hpi.
    assert (Hsin : sin (asin (sqrt a)) < 0) by (apply sin_lt_0_var; lra).
    rewrite sin_asin in Hsin by lra. lra. }
  lra.
Qed.


End Distance.







(** The bounds are needed: at the limit 900 the viewer's filter lets the
    sentinel through, and at the limit 999 the scorers' test does. *)
Example sentinel_passes_above_the_bounds :
  Viewer.passes_filter negative_rating_row (Fin 900) (Fin (-5)) = true /\
  (distance_miles negative_rating_row <=? Fin 999)%fl = true.
Proof. vm_compute. split; reflexivity. Qed.

(** ** Review features and price estimate *)

(** C4, at the failing input: the dictionary returned for an empty review
    list has eleven entries, all zero, and no entry for [mentions_reggio] or
    [mentions_stem]; the branch for a non-empty list has both. *)
Theorem no_review_features_missing_flags :
  FeatureEngineer.extract_review_features [] !! "mentions_reggio" = None /\
  FeatureEngineer.extract_review_features [] !! "mentions_stem" = None /\
  size (FeatureEngineer.extract_review_features []) = 11%nat /\
  Forall (fun k => FeatureEngineer.extract_review_features [] !! k = Some (Fin 0))
    no_review_keys /\
  FeatureEngineer.extract_review_features plain_reviews !! "mentions_reggio"
    = Some (Fin 0) /\
  FeatureEngineer.extract_review_features plain_reviews !! "mentions_stem"
    = Some (Fin 0).
Proof.
  repeat split; try (vm_compute; reflexivity).
  repeat constructor.
Qed.

(** Whatever the reviews, a non-empty review list yields both flags. *)
Lemma review_features_have_flags (r : review) (rs : list review) :
  FeatureEngineer.extract_review_features (r :: rs) !! "mentions_reggio"
    = Some (FeatureEngineer.flag (contains "reggio" (all_text_of (r :: rs)))) /\
  FeatureEngineer.extract_review_features (r :: rs) !! "mentions_stem"
    = Some (FeatureEngineer.flag (contains "stem" (all_text_of (r :: rs)))).
Proof.
  unfold FeatureEngineer.extract_review_features.
  generalize (all_text_of (r :: rs)). intros t.
  generalize (map (fun r0 => String.length (get_text r0)) (r :: rs)). intros lens.
  split; vm_compute; reflexivity.
Qed.

(** The keyword counts on a small example, lower-casing included. *)
Example review_features_example :
  let f := FeatureEngineer.extract_review_features affordable_reviews in
  f !! "mentions_affordable" = Some (Fin 2) /\
  f !! "mentions_expensive" = Some (Fin 1) /\
  f !! "mentions_safe" = Some (Fin 1) /\
  reduced <$> f !! "avg_review_length" = Some (Fin (76 # 3)).
Proof. vm_compute. repeat split; reflexivity. Qed.

(** C2, at the failing inputs.  The adjustment is guarded by the truthiness
    of [rating], not by its presence: a missing rating that reaches the
    function as NaN (as a cell of a float column does) is truthy and makes
    the estimate NaN, with or without reviews; a rating of 0 is falsy and
    gets no adjustment. *)
Theorem estimate_price_truthiness :
  FeatureEngineer.estimated_price_column [] NaN = NaN /\
  FeatureEngineer.estimate_price_from_reviews [] (Some NaN) = NaN /\
  FeatureEngineer.estimate_price_from_reviews plain_reviews (Some NaN) = NaN /\
  FeatureEngineer.estimate_price_from_reviews plain_reviews (Some (Fin 0)) =f= Fin 1200 /\
  FeatureEngineer.estimate_price_from_reviews [] (Some (Fin 0)) =f= Fin 1200.
Proof. vm_compute. repeat split; reflexivity. Qed.

(** Where the rating is [None] or a number other than zero, the estimate is
    the one the specification describes. *)
Lemma estimate_price_rated (r : review) (rs : list review) (q : Q) :
  ~ q == 0 ->
  let all_text := all_text_of (r :: rs) in
  let affordable := (count all_text "affordable" + count all_text "reasonable")%nat in
  let expensive := (count all_text "expensive" + count all_text "pricey")%nat in
  FeatureEngineer.estimate_price_from_reviews (r :: rs) (Some (Fin q)) =f=
    Fin ((if (expensive <? affordable)%nat then 1200 * 0.85
          else if (affordable <? expensive)%nat then 1200 * 1.25
          else 1200) + (q - 3.5) * 150) /\
  FeatureEngineer.estimate_price_from_reviews (r :: rs) None =f=
    Fin (if (expensive <? affordable)%nat then 1200 * 0.85
         else if (affordable <? expensive)%nat then 1200 * 1.25
         else 1200) /\
  FeatureEngineer.estimate_price_from_reviews [] (Some (Fin q)) =f=
    Fin (1200 + (q - 3.5) * 200) /\
  FeatureEngineer.estimate_price_from_reviews [] None = Fin 1200.
Proof.
  intros Hq. cbv zeta. unfold FeatureEngineer.estimate_price_from_reviews.
  generalize (all_text_of (r :: rs)). intros t.
  unfold FeatureEngineer.adjust_by_rating, truthy.
  assert (Hz : Qeq_bool q 0 = false) by (apply Qeq_bool_false; exact Hq).
  rewrite Hz. cbn [negb].
  repeat split;
    repeat match goal with |- context [(?a <? ?b)%nat] => destruct (a <? b)%nat end;
    simpl; first [reflexivity | lra].
Qed.

Lemma estimate_price_examples :
  FeatureEngineer.estimate_price_from_reviews [] (Some (Fin 3.5)) =f= Fin 1200 /\
  FeatureEngineer.estimate_price_from_reviews [] None = Fin 1200 /\
  FeatureEngineer.estimate_price_from_reviews affordable_reviews (Some (Fin 4.2))
    =f= Fin (1200 * 0.85 + (4.2 - 3.5) * 150) /\
  FeatureEngineer.estimate_price_from_reviews pricey_reviews (Some (Fin 3))
    =f= Fin (1200 * 1.25 + (3 - 3.5) * 150).
Proof. vm_compute. repeat split; reflexivity. Qed.

(** * Further properties *)

(** ** The match score as a sum of four terms *)

Lemma fle_feq (a a' b b' : pyfloat) :
  a =f= a' -> b =f= b' -> (a <=? b)%fl = (a' <=? b')%fl.
Proof.
  destruct a, a'; simpl; try tauto; destruct b, b'; simpl; try tauto.
  intros H1 H2.
  destruct (Qle_bool q q1) eqn:E1, (Qle_bool q0 q2) eqn:E2; qbool; auto;
    exfalso; rewrite H1, H2 in *; lra.
Qed.

Lemma py_div_None (x y : pyfloat) : py_div x y = None <-> truthy y = false.
Proof.
  unfold py_div, truthy. destruct y; try (split; discriminate).
  destruct (Qeq_bool q 0); simpl; split; congruence.
Qed.

Lemma values_block_term (r : row) (vs : list string) (s : pyfloat) :
  exists u, Viewer.values_block r vs s = Some u /\
            u =f= (s + Terms.values_term r vs)%fl.
Proof.
  unfold Viewer.values_block, Terms.values_term. destruct vs as [|v vs].
  - exists s. split; [reflexivity |]. symmetry. apply fadd_zero_r.
  - destruct (values_term_nonneg (Viewer.matches r (v :: vs)) (length (v :: vs)))
      as [-> _]; [simpl; lia |].
    eexists. split; reflexivity.
Qed.

Lemma rating_block_term (r : row) (s : pyfloat) :
  exists u, Collect.rating_block r s = Some u /\
            u =f= (s + Terms.stars_term r)%fl.
Proof.
  unfold Collect.rating_block, Terms.stars_term. destruct (notna (rating r)).
  - rewrite py_div_by_5. eexists. split; reflexivity.
  - exists s. split; [reflexivity |]. symmetry. apply fadd_zero_r.
Qed.

Lemma distance_block_term (r : row) (p : preferences) (s : pyfloat) :
  truthy (max_distance p) = true ->
  exists u, Collect.distance_block r p s = Some u /\
            u =f= (s + Terms.distance_term r (max_distance p))%fl.
Proof.
  intros Hd. unfold Collect.distance_block, Terms.distance_term.
  rewrite py_div_truthy by exact Hd.
  destruct (notna (distance_miles r)), (distance_miles r <=? max_distance p)%fl;
    cbn [andb mbind option_bind];
    first [ eexists; split; reflexivity
          | exists s; split; [reflexivity | symmetry; apply fadd_zero_r] ].
Qed.

Lemma collect_price_block_term (r : row) (p : preferences) (s : pyfloat) :
  truthy (max_budget p) = true ->
  exists u, Collect.price_block r p s = Some u /\
            u =f= (s + Terms.price_term_collect r (max_budget p))%fl.
Proof.
  intros Hb. unfold Collect.price_block, Terms.price_term_collect.
  rewrite !py_div_truthy by exact Hb.
  destruct (notna (estimated_price r)), (estimated_price r <=? max_budget p)%fl;
    cbn [andb mbind option_bind];
    first [ eexists; split; reflexivity
          | exists s; split; [reflexivity | symmetry; apply fadd_zero_r] ].
Qed.

Lemma viewer_price_block_term (r : row) (max_budget : pyfloat) (s : pyfloat) :
  truthy max_budget = true ->
  exists u, Viewer.price_block r max_budget s = Some u /\
            u =f= (s + Terms.price_term_viewer r max_budget)%fl.
Proof.
  intros Hb. unfold Viewer.price_block, Terms.price_term_viewer.
  rewrite py_div_truthy by exact Hb.
  destruct (notna (estimated_price r)), (estimated_price r <=? max_budget)%fl;
    cbn [andb mbind option_bind];
    first [ eexists; split; reflexivity
          | exists s; split; [reflexivity | symmetry; apply fadd_zero_r] ].
Qed.

Lemma score_terms (r : row) (p : preferences) :
  truthy (max_distance p) = true -> truthy (max_budget p) = true ->
  same_outcome
    (Collect.calculate_match_score r p)
    (Some (Terms.total
             (Terms.distance_term r (max_distance p))
             (Terms.price_term_collect r (max_budget p))
             (Terms.stars_term r)
             (Terms.values_term r (default [] (values p))))) /\
  same_outcome
    (Viewer.calculate_match_score r (max_distance p) (max_budget p)
       (default [] (values p)))
    (Some (Terms.total
             (Terms.distance_term r (max_distance p))
             (Terms.price_term_viewer r (max_budget p))
             (Terms.stars_term r)
             (Terms.values_term r (default [] (values p))))).
Proof.
  intros Hd Hb. unfold Terms.total. split.
  - unfold Collect.calculate_match_score.
    destruct (distance_block_term r p (Fin 0) Hd) as (s1 & -> & E1).
    cbn [mbind option_bind].
    destruct (collect_price_block_term r p s1 Hb) as (s2 & -> & E2).
    cbn [mbind option_bind].
    destruct (rating_block_term r s2) as (s3 & -> & E3).
    cbn [mbind option_bind]. rewrite values_block_agree.
    destruct (values_block_term r (default [] (values p)) s3) as (s4 & -> & E4).
    cbn [mbind option_bind same_outcome]. apply py_min_feq.
    rewrite E4. apply fadd_feq; [| reflexivity].
    rewrite E3. apply fadd_feq; [| reflexivity].
    rewrite E2. apply fadd_feq; [| reflexivity]. exact E1.
  - unfold Viewer.calculate_match_score. rewrite <- distance_block_agree.
    destruct (distance_block_term r p (Fin 0) Hd) as (s1 & -> & E1).
    cbn [mbind option_bind].
    destruct (viewer_price_block_term r (max_budget p) s1 Hb) as (s2 & -> & E2).
    cbn [mbind option_bind]. rewrite <- rating_block_agree.
    destruct (rating_block_term r s2) as (s3 & -> & E3).
    cbn [mbind option_bind].
    destruct (values_block_term r (default [] (values p)) s3) as (s4 & -> & E4).
    cbn [mbind option_bind same_outcome]. apply py_min_feq.
    rewrite E4. apply fadd_feq; [| reflexivity].
    rewrite E3. apply fadd_feq; [| reflexivity].
    rewrite E2. apply fadd_feq; [| reflexivity]. exact E1.
Qed.

(** X1: when neither limit is zero, both scorers return, and the score is
    the clamped sum of four terms that are computed independently of one
    another: distance, price, rating and values. *)
Theorem match_score_is_sum_of_terms (r : row) (p : preferences) :
  truthy (max_distance p) = true -> truthy (max_budget p) = true ->
  same_outcome
    (Collect.calculate_match_score r p)
    (Some (Terms.total
             (Terms.distance_term r (max_distance p))
             (Terms.price_term_collect r (max_budget p))
             (Terms.stars_term r)
             (Terms.values_term r (default [] (values p))))) /\
  same_outcome
    (Viewer.calculate_match_score r (max_distance p) (max_budget p)
       (default [] (values p)))
    (Some (Terms.total
             (Terms.distance_term r (max_distance p))
             (Terms.price_term_viewer r (max_budget p))
             (Terms.stars_term r)
             (Terms.values_term r (default [] (values p))))).
Proof. apply score_terms. Qed.

Lemma match_score_is_sum_of_terms_witness :
  same_outcome
    (Collect.calculate_match_score over_budget_row example_prefs)
    (Some (Terms.total
             (Terms.distance_term over_budget_row (Fin 10))
             (Terms.price_term_collect over_budget_row (Fin 1500))
             (Terms.stars_term over_budget_row)
             (Terms.values_term over_budget_row []))).
Proof.
  apply (proj1 (match_score_is_sum_of_terms over_budget_row example_prefs
                  eq_refl eq_refl)).
Defined.

(** ** The rating term *)

(** C7: the rating term of the match score.  When the rating cell is absent
    the rating block returns the score as it is (it adds nothing and does
    not raise), the match score is the one of the other three blocks, and,
    no limit being zero, it is the clamped sum of the distance, price and
    values terms and a rating term 0.  When the rating is present the block
    adds [20 * (rating / 5)], the match score is computed with this addition
    between the price block and the values block, and, no limit being zero,
    it is the clamped sum of the distance, price and values terms and the
    rating term [20 * (rating / 5)].  Both implementations. *)
Theorem rating_term (r : row) (p : preferences) (score : pyfloat) :
  (notna (rating r) = false ->
     Collect.rating_block r score = Some score /\
     Viewer.rating_block r score = Some score /\
     Collect.calculate_match_score r p =
       (s ← Collect.distance_block r p (Fin 0);
        s ← Collect.price_block r p s;
        s ← Collect.values_block r p s;
        Some (py_min s (Fin 100))) /\
     Viewer.calculate_match_score r (max_distance p) (max_budget p)
         (default [] (values p)) =
       (s ← Viewer.distance_block r (max_distance p) (Fin 0);
        s ← Viewer.price_block r (max_budget p) s;
        s ← Viewer.values_block r (default [] (values p)) s;
        Some (py_min s (Fin 100))) /\
     (truthy (max_distance p) = true -> truthy (max_budget p) = true ->
      same_outcome
        (Collect.calculate_match_score r p)
        (Some (Terms.total
                 (Terms.distance_term r (max_distance p))
                 (Terms.price_term_collect r (max_budget p))
                 (Fin 0)
                 (Terms.values_term r (default [] (values p))))) /\
      same_outcome
        (Viewer.calculate_match_score r (max_distance p) (max_budget p)
           (default [] (values p)))
        (Some (Terms.total
                 (Terms.distance_term r (max_distance p))
                 (Terms.price_term_viewer r (max_budget p))
                 (Fin 0)
                 (Terms.values_term r (default [] (values p))))))) /\
  (notna (rating r) = true ->
     Collect.rating_block r score = Some (score + Fin 20 * (rating r / Fin 5))%fl /\
     Viewer.rating_block r score = Some (score + Fin 20 * (rating r / Fin 5))%fl /\
     Collect.calculate_match_score r p =
       (s ← Collect.distance_block r p (Fin 0);
        s ← Collect.price_block r p s;
        s ← Some (s + Fin 20 * (rating r / Fin 5))%fl;
        s ← Collect.values_block r p s;
        Some (py_min s (Fin 100))) /\
     Viewer.calculate_match_score r (max_distance p) (max_budget p)
         (default [] (values p)) =
       (s ← Viewer.distance_block r (max_distance p) (Fin 0);
        s ← Viewer.price_block r (max_budget p) s;
        s ← Some (s + Fin 20 * (rating r / Fin 5))%fl;
        s ← Viewer.values_block r (default [] (values p)) s;
        Some (py_min s (Fin 100))) /\
     (truthy (max_distance p) = true -> truthy (max_budget p) = true ->
      same_outcome
        (Collect.calculate_match_score r p)
        (Some (Terms.total
                 (Terms.distance_term r (max_distance p))
                 (Terms.price_term_collect r (max_budget p))
                 (Fin 20 * (rating r / Fin 5))%fl
                 (Terms.values_term r (default [] (values p))))) /\
      same_outcome
        (Viewer.calculate_match_score r (max_distance p) (max_budget p)
           (default [] (values p)))
        (Some (Terms.total
                 (Terms.distance_term r (max_distance p))
                 (Terms.price_term_viewer r (max_budget p))
                 (Fin 20 * (rating r / Fin 5))%fl
                 (Terms.values_term r (default [] (values p))))))) /\
  (forall q : Q, rating r = Fin q ->
     (Fin 20 * (rating r / Fin 5))%fl =f= Fin (20 * (q / 5))).
Proof.
  split; [| split].
  - intros H. split; [| split; [| split; [| split]]].
    + unfold Collect.rating_block. rewrite H. reflexivity.
    + unfold Viewer.rating_block. rewrite H. reflexivity.
    + unfold Collect.calculate_match_score, Collect.rating_block. rewrite H.
      destruct (Collect.distance_block r p (Fin 0)) as [s1|]; [| reflexivity].
      cbn [mbind option_bind].
      destruct (Collect.price_block r p s1) as [s2|]; reflexivity.
    + unfold Viewer.calculate_match_score, Viewer.rating_block. rewrite H.
      destruct (Viewer.distance_block r (max_distance p) (Fin 0)) as [s1|];
        [| reflexivity].
      cbn [mbind option_bind].
      destruct (Viewer.price_block r (max_budget p) s1) as [s2|]; reflexivity.
    + intros Hd Hb. pose proof (score_terms r p Hd Hb) as Hterms.
      unfold Terms.stars_term in Hterms. rewrite H in Hterms. exact Hterms.
  - intros H. split; [| split; [| split; [| split]]].
    + unfold Collect.rating_block. rewrite H, py_div_by_5. reflexivity.
    + unfold Viewer.rating_block. rewrite H, py_div_by_5. reflexivity.
    + unfold Collect.calculate_match_score, Collect.rating_block.
      rewrite H, py_div_by_5. reflexivity.
    + unfold Viewer.calculate_match_score, Viewer.rating_block.
      rewrite H, py_div_by_5. reflexivity.
    + intros Hd Hb. pose proof (score_terms r p Hd Hb) as Hterms.
      unfold Terms.stars_term in Hterms. rewrite H in Hterms. exact Hterms.
  - intros q ->. vm_compute. reflexivity.
Qed.

Lemma rating_term_witness :
  (Collect.rating_block unrated_row (Fin 32.5) = Some (Fin 32.5) /\
   same_outcome
     (Collect.calculate_match_score unrated_row example_prefs)
     (Some (Terms.total
              (Terms.distance_term unrated_row (Fin 10))
              (Terms.price_term_collect unrated_row (Fin 1500))
              (Fin 0)
              (Terms.values_term unrated_row [])))) /\
  (Collect.rating_block example_row (Fin 32.5)
     = Some (Fin 32.5 + Fin 20 * (Fin 5 / Fin 5))%fl /\
   same_outcome
     (Viewer.calculate_match_score example_row (Fin 10) (Fin 1500) [])
     (Some (Terms.total
              (Terms.distance_term example_row (Fin 10))
              (Terms.price_term_viewer example_row (Fin 1500))
              (Fin 20 * (Fin 5 / Fin 5))%fl
              (Terms.values_term example_row [])))).
Proof.
  split.
  - destruct (proj1 (rating_term unrated_row example_prefs (Fin 32.5)) eq_refl)
      as (Hblock & _ & _ & _ & Hsum).
    split; [exact Hblock |]. exact (proj1 (Hsum eq_refl eq_refl)).
  - destruct (proj1 (proj2 (rating_term example_row example_prefs (Fin 32.5))) eq_refl)
      as (Hblock & _ & _ & _ & Hsum).
    split; [exact Hblock |]. exact (proj2 (Hsum eq_refl eq_refl)).
Defined.

(** The rating term on the worked example: 32.5 without a rating, 52.5 with
    the rating 5. *)
Example rating_term_example :
  same_outcome (Collect.calculate_match_score unrated_row example_prefs)
    (Some (Fin 32.5)) /\
  same_outcome (Viewer.calculate_match_score unrated_row (Fin 10) (Fin 1500) [])
    (Some (Fin 32.5)) /\
  same_outcome (Collect.calculate_match_score example_row example_prefs)
    (Some (Fin 52.5)) /\
  same_outcome (Viewer.calculate_match_score example_row (Fin 10) (Fin 1500) [])
    (Some (Fin 52.5)).
Proof. vm_compute. repeat split; reflexivity. Qed.

(** ** Order facts on numbers *)

Lemma Qdiv_le_compat (x y m : Q) : 0 < m -> x <= y -> x / m <= y / m.
Proof.
  intros Hm Hxy. unfold Qdiv. apply Qmult_le_compat_r; [exact Hxy |].
  apply Qlt_le_weak, Qinv_lt_0_compat, Hm.
Qed.

Lemma Qdiv_nonneg (x m : Q) : 0 < m -> 0 <= x -> 0 <= x / m.
Proof. intros Hm Hx. apply Qle_shift_div_l; lra. Qed.

Lemma fle_trans (a b c : pyfloat) :
  (a <=? b)%fl = true -> (b <=? c)%fl = true -> (a <=? c)%fl = true.
Proof.
  destruct a, b, c; simpl; try discriminate; auto. intros H1 H2. qdone.
Qed.

Lemma fle_of_feq (a b : pyfloat) : notna a = true -> a =f= b -> (a <=? b)%fl = true.
Proof.
  destruct a, b; simpl; try discriminate; try tauto. intros _ H. qbool. lra.
Qed.

Lemma fadd_mono (a a' b b' : pyfloat) :
  nonneg a = true -> nonneg b = true ->
  (a <=? a')%fl = true -> (b <=? b')%fl = true ->
  (a + b <=? a' + b')%fl = true.
Proof.
  unfold nonneg.
  destruct a, a'; simpl; try discriminate; destruct b, b'; simpl;
    try discriminate; auto.
  intros; qbool; lra.
Qed.

Lemma fadd_le_bound (a b : pyfloat) (x y : Q) :
  nonneg a = true -> nonneg b = true ->
  (a <=? Fin x)%fl = true -> (b <=? Fin y)%fl = true ->
  (a + b <=? Fin (x + y))%fl = true.
Proof. intros Ha Hb. apply fadd_mono; assumption. Qed.

Lemma py_min_mono (a a' : pyfloat) :
  (a <=? a')%fl = true ->
  (py_min a (Fin 100) <=? py_min a' (Fin 100))%fl = true.
Proof.
  unfold py_min. destruct a, a'; simpl; try discriminate; auto;
    intros H; qcases; qdone.
Qed.

Lemma total_mono (t1 t2 t3 t4 u1 u2 u3 u4 : pyfloat) :
  nonneg t1 = true -> nonneg t2 = true -> nonneg t3 = true -> nonneg t4 = true ->
  (t1 <=? u1)%fl = true -> (t2 <=? u2)%fl = true ->
  (t3 <=? u3)%fl = true -> (t4 <=? u4)%fl = true ->
  (Terms.total t1 t2 t3 t4 <=? Terms.total u1 u2 u3 u4)%fl = true.
Proof.
  intros N1 N2 N3 N4 L1 L2 L3 L4. unfold Terms.total.
  assert (N0 : nonneg (Fin 0) = true) by reflexivity.
  apply py_min_mono.
  repeat first [ apply fadd_mono | apply nonneg_fadd ]; auto.
Qed.

Lemma nonneg_refl (t : pyfloat) : nonneg t = true -> (t <=? t)%fl = true.
Proof. unfold nonneg. destruct t; simpl; try discriminate; auto. intros; qdone. Qed.

Lemma outcome_value (o : option pyfloat) (t : pyfloat) :
  same_outcome o (Some t) -> exists s, o = Some s /\ s =f= t.
Proof. destruct o; simpl; [eauto | tauto]. Qed.

(** ** Bounds and monotonicity of the terms *)

Lemma distance_term_nonneg (r : row) (m : pyfloat) :
  finite_positive m = true -> nonneg (Terms.distance_term r m) = true.
Proof.
  intros Hm. unfold Terms.distance_term.
  destruct (notna (distance_miles r)); [| reflexivity].
  destruct (distance_miles r <=? m)%fl eqn:E; [| reflexivity].
  apply within_term_nonneg; auto. reflexivity.
Qed.

Lemma price_term_viewer_nonneg (r : row) (m : pyfloat) :
  finite_positive m = true -> nonneg (Terms.price_term_viewer r m) = true.
Proof.
  intros Hm. unfold Terms.price_term_viewer.
  destruct (notna (estimated_price r)); [| reflexivity].
  destruct (estimated_price r <=? m)%fl eqn:E; [| reflexivity].
  apply within_term_nonneg; auto. reflexivity.
Qed.

Lemma price_term_collect_nonneg (r : row) (m : pyfloat) :
  finite_positive m = true -> nonneg (Terms.price_term_collect r m) = true.
Proof.
  intros Hm. unfold Terms.price_term_collect.
  destruct (notna (estimated_price r)); [| reflexivity].
  destruct (estimated_price r <=? m)%fl eqn:E.
  - apply within_term_nonneg; auto. reflexivity.
  - apply penalty_nonneg.
Qed.

Lemma rating_term_of_nonneg (r : row) :
  rating_absent_or_nonneg r = true -> nonneg (Terms.stars_term r) = true.
Proof.
  unfold rating_absent_or_nonneg, Terms.stars_term.
  destruct (notna (rating r)); simpl; [| reflexivity].
  apply rating_term_nonneg.
Qed.

Lemma values_term_of_nonneg (r : row) (vs : list string) :
  nonneg (Terms.values_term r vs) = true.
Proof.
  unfold Terms.values_term. destruct vs as [|v vs]; [reflexivity |].
  apply values_term_nonneg. simpl. lia.
Qed.

(** [w * (1 - x / m)] decreases when [x] grows. *)
Lemma within_term_antimono (w : Q) (x y m : pyfloat) :
  0 < w -> finite_positive m = true ->
  (x <=? y)%fl = true -> (y <=? m)%fl = true ->
  (Fin w * (Fin 1 - y / m) <=? Fin w * (Fin 1 - x / m))%fl = true.
Proof.
  intros Hw Hm Hxy Hy. destruct m as [ | | |m]; try discriminate.
  simpl in Hm. apply Qlt_bool_iff in Hm.
  destruct x as [ | | |x], y as [ | | |y]; simpl in Hxy, Hy; try discriminate; simpl.
  - qcases; qdone.
  - qcases; qdone.
  - qbool. pose proof (Qdiv_le_compat x y m Hm Hxy) as Hd.
    assert (Hp : w * (1 + - (y / m)) <= w * (1 + - (x / m))).
    { rewrite !(Qmult_comm w). apply Qmult_le_compat_r; lra. }
    qcases; qdone.
Qed.

Lemma fle_notna (a b : pyfloat) :
  (a <=? b)%fl = true -> notna a = true /\ notna b = true.
Proof. destruct a, b; simpl; try discriminate; auto. Qed.

Lemma distance_term_antimono (r1 r2 : row) (m : pyfloat) :
  finite_positive m = true ->
  (distance_miles r1 <=? distance_miles r2)%fl = true ->
  (Terms.distance_term r2 m <=? Terms.distance_term r1 m)%fl = true.
Proof.
  intros Hm H. destruct (fle_notna _ _ H) as [N1 N2].
  pose proof (distance_term_nonneg r1 m Hm) as Hn. revert Hn.
  unfold Terms.distance_term. rewrite N1, N2. cbn [andb].
  destruct (distance_miles r2 <=? m)%fl eqn:E2.
  - rewrite (fle_trans _ _ _ H E2). intros _.
    apply within_term_antimono; auto. reflexivity.
  - intros Hn. exact Hn.
Qed.

Lemma price_term_viewer_antimono (r1 r2 : row) (m : pyfloat) :
  finite_positive m = true ->
  (estimated_price r1 <=? estimated_price r2)%fl = true ->
  (Terms.price_term_viewer r2 m <=? Terms.price_term_viewer r1 m)%fl = true.
Proof.
  intros Hm H. destruct (fle_notna _ _ H) as [N1 N2].
  pose proof (price_term_viewer_nonneg r1 m Hm) as Hn. revert Hn.
  unfold Terms.price_term_viewer. rewrite N1, N2. cbn [andb].
  destruct (estimated_price r2 <=? m)%fl eqn:E2.
  - rewrite (fle_trans _ _ _ H E2). intros _.
    apply within_term_antimono; auto. reflexivity.
  - intros Hn. exact Hn.
Qed.

Lemma terms_same_but_distance (r1 r2 : row) (m : pyfloat) (vs : list string) :
  same_but_distance r1 r2 ->
  Terms.price_term_collect r1 m = Terms.price_term_collect r2 m /\
  Terms.price_term_viewer r1 m = Terms.price_term_viewer r2 m /\
  Terms.stars_term r1 = Terms.stars_term r2 /\
  Terms.values_term r1 vs = Terms.values_term r2 vs.
Proof.
  intros (Hp & Hr & Hm).
  unfold Terms.price_term_collect, Terms.price_term_viewer, Terms.stars_term,
    Terms.values_term, Viewer.matches.
  rewrite Hp, Hr, Hm. auto.
Qed.

Lemma terms_same_but_price (r1 r2 : row) (m : pyfloat) (vs : list string) :
  same_but_price r1 r2 ->
  Terms.distance_term r1 m = Terms.distance_term r2 m /\
  Terms.stars_term r1 = Terms.stars_term r2 /\
  Terms.values_term r1 vs = Terms.values_term r2 vs.
Proof.
  intros (Hd & Hr & Hm).
  unfold Terms.distance_term, Terms.stars_term, Terms.values_term, Viewer.matches.
  rewrite Hd, Hr, Hm. auto.
Qed.

Lemma scores_at_most_totals (o1 o2 : option pyfloat) (t1 t2 : pyfloat) :
  same_outcome o1 (Some t1) -> same_outcome o2 (Some t2) ->
  (t2 <=? t1)%fl = true -> scores_at_most o2 o1.
Proof.
  intros H1 H2 Hle.
  destruct (outcome_value _ _ H1) as (s1 & -> & E1).
  destruct (outcome_value _ _ H2) as (s2 & -> & E2).
  exists s1, s2. split; [reflexivity |]. split; [reflexivity |].
  rewrite (fle_feq s2 t2 s1 t1); assumption.
Qed.

(** X2: with positive limits and a rating that is absent or not negative,
    of two providers that differ only in their distance the closer one never
    gets the lower match score, in the collection script and in the viewer. *)
Theorem closer_never_scores_lower (r1 r2 : row) (p : preferences) :
  finite_positive (max_distance p) = true ->
  finite_positive (max_budget p) = true ->
  rating_absent_or_nonneg r1 = true ->
  same_but_distance r1 r2 ->
  (distance_miles r1 <=? distance_miles r2)%fl = true ->
  scores_at_most (Collect.calculate_match_score r2 p)
                 (Collect.calculate_match_score r1 p) /\
  scores_at_most
    (Viewer.calculate_match_score r2 (max_distance p) (max_budget p)
       (default [] (values p)))
    (Viewer.calculate_match_score r1 (max_distance p) (max_budget p)
       (default [] (values p))).
Proof.
  intros Hd Hb Hr Hsame Hle.
  pose proof (finite_positive_truthy _ Hd) as Td.
  pose proof (finite_positive_truthy _ Hb) as Tb.
  destruct (score_terms r1 p Td Tb) as [C1 V1].
  destruct (score_terms r2 p Td Tb) as [C2 V2].
  destruct (terms_same_but_distance r1 r2 (max_budget p) (default [] (values p)) Hsame)
    as (Ec & Ev & Er & Evs).
  assert (Hr2 : rating_absent_or_nonneg r2 = true).
  { unfold rating_absent_or_nonneg in *. destruct Hsame as (_ & <- & _). exact Hr. }
  split.
  - apply (scores_at_most_totals _ _ _ _ C1 C2).
    rewrite Ec, Er, Evs.
    apply total_mono;
      auto using distance_term_nonneg, price_term_collect_nonneg,
        rating_term_of_nonneg, values_term_of_nonneg, distance_term_antimono,
        nonneg_refl.
  - apply (scores_at_most_totals _ _ _ _ V1 V2).
    rewrite Ev, Er, Evs.
    apply total_mono;
      auto using distance_term_nonneg, price_term_viewer_nonneg,
        rating_term_of_nonneg, values_term_of_nonneg, distance_term_antimono,
        nonneg_refl.
Qed.

Lemma closer_never_scores_lower_witness :
  scores_at_most (Collect.calculate_match_score typical_row example_prefs)
                 (Collect.calculate_match_score near_row example_prefs).
Proof.
  apply (closer_never_scores_lower near_row typical_row example_prefs);
    first [ reflexivity | repeat split ].
Defined.

(** X3: in the viewer, with positive limits and a rating that is absent or
    not negative, of two providers that differ only in their estimated price
    the cheaper one never gets the lower match score. *)
Theorem viewer_cheaper_never_scores_lower
    (r1 r2 : row) (limit budget : pyfloat) (vs : list string) :
  finite_positive limit = true ->
  finite_positive budget = true ->
  rating_absent_or_nonneg r1 = true ->
  same_but_price r1 r2 ->
  (estimated_price r1 <=? estimated_price r2)%fl = true ->
  scores_at_most (Viewer.calculate_match_score r2 limit budget vs)
                 (Viewer.calculate_match_score r1 limit budget vs).
Proof.
  intros Hd Hb Hr Hsame Hle.
  pose proof (finite_positive_truthy _ Hd) as Td.
  pose proof (finite_positive_truthy _ Hb) as Tb.
  destruct (score_terms r1
              {| max_distance := limit; max_budget := budget;
                 values := Some vs |} Td Tb) as [_ V1].
  destruct (score_terms r2
              {| max_distance := limit; max_budget := budget;
                 values := Some vs |} Td Tb) as [_ V2].
  cbn [max_distance max_budget values from_option id] in V1, V2.
  unfold Datatypes.id in V1, V2.
  destruct (terms_same_but_price r1 r2 limit vs Hsame) as (Ed & Er & Evs).
  assert (Hr2 : rating_absent_or_nonneg r2 = true).
  { unfold rating_absent_or_nonneg in *. destruct Hsame as (_ & <- & _). exact Hr. }
  apply (scores_at_most_totals _ _ _ _ V1 V2). rewrite Ed, Er, Evs.
  apply total_mono;
    auto using distance_term_nonneg, price_term_viewer_nonneg,
      rating_term_of_nonneg, values_term_of_nonneg, price_term_viewer_antimono,
      nonneg_refl.
Qed.

Lemma viewer_cheaper_never_scores_lower_witness :
  scores_at_most (Viewer.calculate_match_score typical_row (Fin 10) (Fin 1500) [])
                 (Viewer.calculate_match_score cheap_row (Fin 10) (Fin 1500) []).
Proof.
  apply (viewer_cheaper_never_scores_lower cheap_row typical_row);
    first [ reflexivity | repeat split ].
Defined.

Lemma Qdiv_lt_compat (x y m : Q) : 0 < m -> x < y -> x / m < y / m.
Proof.
  intros Hm Hxy. unfold Qdiv. apply Qmult_lt_compat_r; [| exact Hxy].
  apply Qinv_lt_0_compat, Hm.
Qed.

(** The price term of the collection script does not decrease with the
    price: just above the budget it is not lower than just below it. *)
Lemma price_term_collect_inversion (r1 r2 : row) (x1 x2 b : Q) :
  estimated_price r1 = Fin x1 -> estimated_price r2 = Fin x2 ->
  0 < b -> x1 <= b -> b < x2 -> x2 - x1 <= b ->
  (Terms.price_term_collect r1 (Fin b) <=? Terms.price_term_collect r2 (Fin b))%fl = true.
Proof.
  intros E1 E2 Hb H1 H2 Hgap. unfold Terms.price_term_collect, py_max.
  rewrite E1, E2. simpl.
  assert (Hz : Qeq_bool b 0 = false) by (apply Qeq_bool_false; lra).
  assert (L1 : Qle_bool x1 b = true) by (apply Qle_bool_iff; exact H1).
  assert (L2 : Qle_bool x2 b = false) by (apply Qle_bool_false; exact H2).
  rewrite L1, L2, Hz. simpl.
  pose proof (Qdiv_le_1 x1 b Hb H1) as D1.
  assert (D2 : (x2 + - b) / b <= x1 / b) by (apply Qdiv_le_compat; lra).
  assert (P1 : 0 <= 30 * (1 + - (x1 / b))) by (apply Qmult_le_0_compat; lra).
  assert (P2 : 30 * (1 + - (x1 / b)) <= 30 * (1 + - ((x2 + - b) / b))).
  { rewrite !(Qmult_comm 30). apply Qmult_le_compat_r; lra. }
  qcases; qdone.
Qed.

(** At the budget the price term is 0; above it and below twice the budget
    the penalty branch gives more. *)
Lemma price_term_collect_at_budget (r1 r2 : row) (x1 x2 b : Q) :
  estimated_price r1 = Fin x1 -> estimated_price r2 = Fin x2 ->
  0 < b -> x1 == b -> b < x2 -> x2 < 2 * b ->
  (Terms.price_term_collect r1 (Fin b) <? Terms.price_term_collect r2 (Fin b))%fl = true.
Proof.
  intros E1 E2 Hb H1 H2 Hgap. unfold Terms.price_term_collect, py_max.
  rewrite E1, E2. simpl.
  assert (Hz : Qeq_bool b 0 = false) by (apply Qeq_bool_false; lra).
  assert (L1 : Qle_bool x1 b = true) by (apply Qle_bool_iff; lra).
  assert (L2 : Qle_bool x2 b = false) by (apply Qle_bool_false; exact H2).
  rewrite L1, L2, Hz. simpl.
  assert (D1 : x1 / b == 1) by (rewrite H1; field; lra).
  assert (D2 : (x2 + - b) / b < 1).
  { apply Qlt_shift_div_r; [exact Hb | lra]. }
  assert (P2 : 0 < 30 * (1 + - ((x2 + - b) / b))).
  { apply Qmult_lt_0_compat; lra. }
  qcases; qdone.
Qed.

(** X4: in the collection script the price term is not monotone.  With a
    positive budget [b], a provider priced above the budget never gets fewer
    price points than one priced at most [b] when the two prices are at most
    [b] apart, and, everything else being equal, its match score is not
    lower; a provider priced exactly at the budget gets strictly fewer price
    points (none) than one priced above the budget and below twice the
    budget. *)
Theorem collect_dearer_can_score_higher
    (r1 r2 : row) (p : preferences) (x1 x2 b : Q) :
  finite_positive (max_distance p) = true ->
  max_budget p = Fin b -> 0 < b ->
  rating_absent_or_nonneg r1 = true ->
  same_but_price r1 r2 ->
  estimated_price r1 = Fin x1 -> estimated_price r2 = Fin x2 ->
  x1 <= b -> b < x2 -> x2 - x1 <= b ->
  (Terms.price_term_collect r1 (Fin b) <=? Terms.price_term_collect r2 (Fin b))%fl = true /\
  scores_at_most (Collect.calculate_match_score r1 p)
                 (Collect.calculate_match_score r2 p) /\
  (x1 == b -> x2 < 2 * b ->
   Terms.price_term_collect r1 (Fin b) =f= Fin 0 /\
   (Terms.price_term_collect r1 (Fin b) <? Terms.price_term_collect r2 (Fin b))%fl = true).
Proof.
  intros Hd Eb Hb Hr Hsame E1 E2 H1 H2 Hgap.
  pose proof (price_term_collect_inversion r1 r2 x1 x2 b E1 E2 Hb H1 H2 Hgap) as Hle.
  split; [exact Hle |]. split.
  - assert (Fb : finite_positive (max_budget p) = true).
    { rewrite Eb. simpl. apply Qlt_bool_iff, Hb. }
    pose proof (finite_positive_truthy _ Hd) as Td.
    pose proof (finite_positive_truthy _ Fb) as Tb.
    destruct (score_terms r1 p Td Tb) as [C1 _].
    destruct (score_terms r2 p Td Tb) as [C2 _].
    destruct (terms_same_but_price r1 r2 (max_distance p) (default [] (values p)) Hsame)
      as (Ed & Er & Evs).
    assert (Hr2 : rating_absent_or_nonneg r2 = true).
    { unfold rating_absent_or_nonneg in *. destruct Hsame as (_ & <- & _). exact Hr. }
    apply (scores_at_most_totals _ _ _ _ C2 C1). rewrite Ed, Er, Evs, Eb.
    rewrite Eb in Fb.
    apply total_mono;
      auto using distance_term_nonneg, price_term_collect_nonneg,
        rating_term_of_nonneg, values_term_of_nonneg, nonneg_refl.
  - intros Hx1 Hx2. split.
    + unfold Terms.price_term_collect. rewrite E1. simpl.
      assert (Hz : Qeq_bool b 0 = false) by (apply Qeq_bool_false; lra).
      assert (L1 : Qle_bool x1 b = true) by (apply Qle_bool_iff; lra).
      rewrite L1, Hz. simpl.
      assert (D1 : x1 / b == 1) by (rewrite Hx1; field; lra).
      rewrite D1. lra.
    + exact (price_term_collect_at_budget r1 r2 x1 x2 b E1 E2 Hb Hx1 H2 Hx2).
Qed.

Lemma collect_dearer_can_score_higher_witness :
  (Terms.price_term_collect at_budget_row (Fin 1500)
   <=? Terms.price_term_collect just_over_budget_row (Fin 1500))%fl = true /\
  scores_at_most (Collect.calculate_match_score at_budget_row example_prefs)
                 (Collect.calculate_match_score just_over_budget_row example_prefs) /\
  (1500 == 1500 -> 1600 < 2 * 1500 ->
   Terms.price_term_collect at_budget_row (Fin 1500) =f= Fin 0 /\
   (Terms.price_term_collect at_budget_row (Fin 1500)
    <? Terms.price_term_collect just_over_budget_row (Fin 1500))%fl = true).
Proof.
  apply (collect_dearer_can_score_higher at_budget_row just_over_budget_row
           example_prefs 1500 1600 1500);
    first [ reflexivity | lra | repeat split ].
Defined.

Example collect_dearer_scores :
  same_outcome (Collect.calculate_match_score at_budget_row example_prefs)
    (Some (Fin 33.5)) /\
  same_outcome (Collect.calculate_match_score just_over_budget_row example_prefs)
    (Some (Fin 61.5)).
Proof. vm_compute. repeat split; reflexivity. Qed.

(** ** The score without values *)

Lemma in_range_feq (lo hi : Q) (a a' : pyfloat) :
  a =f= a' -> in_range lo hi a = in_range lo hi a'.
Proof.
  intros H. unfold in_range.
  rewrite (fle_feq (Fin lo) (Fin lo) a a'), (fle_feq a a' (Fin hi) (Fin hi));
    auto; reflexivity.
Qed.

Lemma distance_term_le_35 (r : row) (m : pyfloat) :
  finite_positive m = true -> absent_or_nonneg (distance_miles r) = true ->
  (Terms.distance_term r m <=? Fin 35)%fl = true.
Proof.
  intros Hm Hd. destruct m as [ | | |m]; try discriminate.
  simpl in Hm. apply Qlt_bool_iff in Hm.
  unfold Terms.distance_term, absent_or_nonneg, nonneg in *.
  destruct (distance_miles r) as [ | | |x]; simpl in *; try discriminate;
    try reflexivity.
  apply Qle_bool_iff in Hd. pose proof (Qdiv_nonneg x m Hm Hd) as Hq.
  assert (Hp : 35 * (1 + - (x / m)) <= 35 * 1).
  { rewrite !(Qmult_comm 35). apply Qmult_le_compat_r; lra. }
  qcases; qdone.
Qed.

Lemma price_term_viewer_le_30 (r : row) (m : pyfloat) :
  finite_positive m = true -> absent_or_nonneg (estimated_price r) = true ->
  (Terms.price_term_viewer r m <=? Fin 30)%fl = true.
Proof.
  intros Hm Hd. destruct m as [ | | |m]; try discriminate.
  simpl in Hm. apply Qlt_bool_iff in Hm.
  unfold Terms.price_term_viewer, absent_or_nonneg, nonneg in *.
  destruct (estimated_price r) as [ | | |x]; simpl in *; try discriminate;
    try reflexivity.
  apply Qle_bool_iff in Hd. pose proof (Qdiv_nonneg x m Hm Hd) as Hq.
  assert (Hp : 30 * (1 + - (x / m)) <= 30 * 1).
  { rewrite !(Qmult_comm 30). apply Qmult_le_compat_r; lra. }
  qcases; qdone.
Qed.

Lemma price_term_collect_le_30 (r : row) (m : pyfloat) :
  finite_positive m = true -> absent_or_nonneg (estimated_price r) = true ->
  (Terms.price_term_collect r m <=? Fin 30)%fl = true.
Proof.
  intros Hm Hd. destruct m as [ | | |m]; try discriminate.
  simpl in Hm. apply Qlt_bool_iff in Hm.
  unfold Terms.price_term_collect, py_max, absent_or_nonneg, nonneg in *.
  destruct (estimated_price r) as [ | | |x]; simpl in *; try discriminate;
    try reflexivity.
  - qcases; qdone.
  - apply Qle_bool_iff in Hd. pose proof (Qdiv_nonneg x m Hm Hd) as Hq.
    assert (Hp : 30 * (1 + - (x / m)) <= 30 * 1).
    { rewrite !(Qmult_comm 30). apply Qmult_le_compat_r; lra. }
    destruct (Qle_bool x m) eqn:E; simpl.
    + qcases; qdone.
    + qbool. assert (Hq2 : 0 <= (x + - m) / m) by (apply Qdiv_nonneg; lra).
      assert (Hp2 : 30 * (1 + - ((x + - m) / m)) <= 30 * 1).
      { rewrite !(Qmult_comm 30). apply Qmult_le_compat_r; lra. }
      qcases; qdone.
Qed.

Lemma rating_term_le_20 (r : row) :
  rating_on_scale r = true -> (Terms.stars_term r <=? Fin 20)%fl = true.
Proof.
  unfold rating_on_scale, Terms.stars_term, in_range.
  destruct (rating r) as [ | | |x]; simpl; try discriminate; try reflexivity.
  intros H. apply andb_true_iff in H. destruct H as [H0 H5]. qbool.
  assert (Hq : x / 5 <= 1) by (apply Qdiv_le_1; lra).
  assert (Hp : 20 * (x / 5) <= 20 * 1).
  { rewrite !(Qmult_comm 20). apply Qmult_le_compat_r; lra. }
  qcases; qdone.
Qed.

Lemma rating_on_scale_nonneg (r : row) :
  rating_on_scale r = true -> rating_absent_or_nonneg r = true.
Proof.
  unfold rating_on_scale, rating_absent_or_nonneg, in_range, nonneg.
  destruct (notna (rating r)); simpl; [| reflexivity].
  intros H. apply andb_true_iff in H. apply H.
Qed.

Lemma total_without_values (t1 t2 t3 : pyfloat) :
  nonneg t1 = true -> nonneg t2 = true -> nonneg t3 = true ->
  (t1 <=? Fin 35)%fl = true -> (t2 <=? Fin 30)%fl = true ->
  (t3 <=? Fin 20)%fl = true ->
  in_range 0 85 (Terms.total t1 t2 t3 (Fin 0)) = true.
Proof.
  intros N1 N2 N3 L1 L2 L3. unfold Terms.total.
  assert (N0 : nonneg (Fin 0) = true) by reflexivity.
  assert (L0 : (Fin 0 <=? Fin 0)%fl = true) by reflexivity.
  pose proof (fadd_le_bound _ _ _ _ N0 N1 L0 L1) as B1.
  pose proof (nonneg_fadd _ _ N0 N1) as M1.
  pose proof (fadd_le_bound _ _ _ _ M1 N2 B1 L2) as B2.
  pose proof (nonneg_fadd _ _ M1 N2) as M2.
  pose proof (fadd_le_bound _ _ _ _ M2 N3 B2 L3) as B3.
  pose proof (nonneg_fadd _ _ M2 N3) as M3.
  pose proof (fadd_le_bound _ _ _ _ M3 N0 B3 L0) as B4.
  pose proof (nonneg_fadd _ _ M3 N0) as M4.
  revert B4 M4. generalize (Fin 0 + t1 + t2 + t3 + Fin 0)%fl. intros s B M.
  unfold in_range, py_min, nonneg in *.
  destruct s; simpl in *; try discriminate.
  destruct (Qlt_bool 100 q) eqn:E; simpl; qbool; [exfalso; lra |].
  apply andb_true_iff. split; qbool; lra.
Qed.

(** X5: when no values are requested, a provider with a distance and a price
    that are absent or not negative and a rating that is absent or on the
    0-5 scale scores between 0 and 85 under positive limits: the last 15
    points are given for values only.  Both scorers. *)
Theorem score_without_values_at_most_85 (r : row) (p : preferences) :
  finite_positive (max_distance p) = true ->
  finite_positive (max_budget p) = true ->
  absent_or_nonneg (distance_miles r) = true ->
  absent_or_nonneg (estimated_price r) = true ->
  rating_on_scale r = true ->
  default [] (values p) = [] ->
  returns_in_range 0 85 (Collect.calculate_match_score r p) = true /\
  returns_in_range 0 85
    (Viewer.calculate_match_score r (max_distance p) (max_budget p) []) = true.
Proof.
  intros Hd Hb Ad Ap Hr Hv.
  pose proof (finite_positive_truthy _ Hd) as Td.
  pose proof (finite_positive_truthy _ Hb) as Tb.
  pose proof (rating_on_scale_nonneg r Hr) as Hr'.
  destruct (score_terms r p Td Tb) as [C V]. rewrite Hv in C, V.
  cbn [Terms.values_term] in C, V.
  destruct (outcome_value _ _ C) as (s & -> & Es).
  destruct (outcome_value _ _ V) as (s' & -> & Es').
  cbn [returns_in_range]. rewrite (in_range_feq _ _ _ _ Es), (in_range_feq _ _ _ _ Es').
  split; apply total_without_values;
    auto using distance_term_nonneg, price_term_collect_nonneg,
      price_term_viewer_nonneg, rating_term_of_nonneg, distance_term_le_35,
      price_term_collect_le_30, price_term_viewer_le_30, rating_term_le_20.
Qed.

Lemma score_without_values_at_most_85_witness :
  returns_in_range 0 85 (Collect.calculate_match_score example_row example_prefs) = true /\
  returns_in_range 0 85
    (Viewer.calculate_match_score example_row (Fin 10) (Fin 1500) []) = true.
Proof.
  apply (score_without_values_at_most_85 example_row example_prefs); reflexivity.
Defined.

(** ** Outcomes of the scorers *)

Lemma viewer_score_upper
    (r : row) (limit budget : pyfloat) (vs : list string) (s : pyfloat) :
  Viewer.calculate_match_score r limit budget vs = Some s ->
  notna s = false \/ (s <=? Fin 100)%fl = true.
Proof.
  unfold Viewer.calculate_match_score. intros H.
  destruct (Viewer.distance_block r limit (Fin 0)) as [s1|]; [| discriminate].
  cbn [mbind option_bind] in H.
  destruct (Viewer.price_block r budget s1) as [s2|]; [| discriminate].
  cbn [mbind option_bind] in H.
  destruct (Viewer.rating_block r s2) as [s3|]; [| discriminate].
  cbn [mbind option_bind] in H.
  destruct (Viewer.values_block r vs s3) as [s4|]; [| discriminate].
  cbn [mbind option_bind] in H. injection H as <-. apply py_min_upper.
Qed.

(** X6: whatever the row and the preferences (negative, infinite or missing
    values included), a match score that is returned is NaN or at most 100;
    both scorers. *)
Theorem score_never_above_100
    (r : row) (p : preferences) (limit budget : pyfloat) (vs : list string)
    (s : pyfloat) :
  Collect.calculate_match_score r p = Some s \/
  Viewer.calculate_match_score r limit budget vs = Some s ->
  notna s = false \/ (s <=? Fin 100)%fl = true.
Proof.
  intros [H | H].
  - exact (match_score_upper r p s H).
  - exact (viewer_score_upper r limit budget vs s H).
Qed.

Lemma score_never_above_100_witness :
  notna (Fin 100) = false \/ (Fin 100 <=? Fin 100)%fl = true.
Proof.
  apply (score_never_above_100 typical_row negative_budget_prefs NaN NaN [] (Fin 100)).
  left. vm_compute. reflexivity.
Defined.

Lemma bind_None (o : option pyfloat) (f : pyfloat -> option pyfloat) :
  o ≫= f = None <-> o = None \/ exists s, o = Some s /\ f s = None.
Proof.
  destruct o as [s|]; cbn [mbind option_bind].
  - split; [intros H; right; eauto | intros [H | (s' & [= <-] & H)]; congruence].
  - split; auto.
Qed.

Lemma values_block_returns (r : row) (vs : list string) (s : pyfloat) :
  Viewer.values_block r vs s <> None.
Proof.
  destruct (values_block_term r vs s) as (u & -> & _). discriminate.
Qed.

Lemma rating_block_returns (r : row) (s : pyfloat) : Collect.rating_block r s <> None.
Proof.
  destruct (rating_block_term r s) as (u & -> & _). discriminate.
Qed.

Lemma distance_block_None (r : row) (limit : pyfloat) (s : pyfloat) :
  Viewer.distance_block r limit s = None <->
  notna (distance_miles r) && (distance_miles r <=? limit)%fl && negb (truthy limit)
  = true.
Proof.
  unfold Viewer.distance_block.
  destruct (notna (distance_miles r)), (distance_miles r <=? limit)%fl;
    cbn [andb]; try (split; discriminate).
  destruct (py_div (distance_miles r) limit) eqn:E; cbn [mbind option_bind].
  - destruct (truthy limit) eqn:T; [split; discriminate |].
    pose proof (proj2 (py_div_None (distance_miles r) limit) T). congruence.
  - apply (proj1 (py_div_None _ _)) in E. rewrite E. split; reflexivity.
Qed.

Lemma viewer_price_block_None (r : row) (budget : pyfloat) (s : pyfloat) :
  Viewer.price_block r budget s = None <->
  notna (estimated_price r) && (estimated_price r <=? budget)%fl && negb (truthy budget)
  = true.
Proof.
  unfold Viewer.price_block.
  destruct (notna (estimated_price r)), (estimated_price r <=? budget)%fl;
    cbn [andb]; try (split; discriminate).
  destruct (py_div (estimated_price r) budget) eqn:E; cbn [mbind option_bind].
  - destruct (truthy budget) eqn:T; [split; discriminate |].
    pose proof (proj2 (py_div_None (estimated_price r) budget) T). congruence.
  - apply (proj1 (py_div_None _ _)) in E. rewrite E. split; reflexivity.
Qed.

Lemma collect_price_block_None (r : row) (p : preferences) (s : pyfloat) :
  Collect.price_block r p s = None <->
  notna (estimated_price r) && negb (truthy (max_budget p)) = true.
Proof.
  unfold Collect.price_block.
  destruct (notna (estimated_price r)); cbn [andb]; [| split; discriminate].
  destruct (truthy (max_budget p)) eqn:T.
  - rewrite !py_div_truthy by exact T.
    destruct (estimated_price r <=? max_budget p)%fl; split; discriminate.
  - rewrite (proj2 (py_div_None (estimated_price r) (max_budget p)) T).
    rewrite (proj2 (py_div_None (estimated_price r - max_budget p)%fl (max_budget p)) T).
    destruct (estimated_price r <=? max_budget p)%fl; split; reflexivity.
Qed.

(** X7: the scorers raise exactly on a division by a zero limit.  The
    collection script raises if and only if the distance is present, within
    a [max_distance] that is zero, or the price is present and [max_budget]
    is zero; the viewer, which divides by the budget only within budget, if
    and only if the distance or the price is present, within its limit, and
    that limit is zero. *)
Theorem score_raises_iff (r : row) (p : preferences) :
  (Collect.calculate_match_score r p = None <->
   notna (distance_miles r) && (distance_miles r <=? max_distance p)%fl
     && negb (truthy (max_distance p))
   || notna (estimated_price r) && negb (truthy (max_budget p)) = true) /\
  (Viewer.calculate_match_score r (max_distance p) (max_budget p)
     (default [] (values p)) = None <->
   notna (distance_miles r) && (distance_miles r <=? max_distance p)%fl
     && negb (truthy (max_distance p))
   || notna (estimated_price r) && (estimated_price r <=? max_budget p)%fl
        && negb (truthy (max_budget p)) = true).
Proof.
  split.
  - unfold Collect.calculate_match_score. rewrite distance_block_agree.
    rewrite bind_None, distance_block_None, orb_true_iff. split.
    + intros [H | (s1 & _ & H)]; [left; exact H |].
      apply bind_None in H. destruct H as [H | (s2 & _ & H)].
      * right. apply collect_price_block_None in H. exact H.
      * apply bind_None in H. destruct H as [H | (s3 & _ & H)].
        -- destruct (rating_block_returns _ _ H).
        -- rewrite values_block_agree in H. apply bind_None in H.
           destruct H as [H | (s4 & _ & H)]; [| discriminate].
           destruct (values_block_returns _ _ _ H).
    + intros [H | H]; [left; exact H |].
      destruct (Viewer.distance_block r (max_distance p) (Fin 0)) as [s1|] eqn:E.
      * right. exists s1. split; [reflexivity |]. apply bind_None. left.
        apply collect_price_block_None, H.
      * left. apply distance_block_None in E. exact E.
  - unfold Viewer.calculate_match_score.
    rewrite bind_None, distance_block_None, orb_true_iff. split.
    + intros [H | (s1 & _ & H)]; [left; exact H |].
      apply bind_None in H. destruct H as [H | (s2 & _ & H)].
      * right. apply viewer_price_block_None in H. exact H.
      * apply bind_None in H. destruct H as [H | (s3 & _ & H)].
        -- rewrite <- rating_block_agree in H. destruct (rating_block_returns _ _ H).
        -- apply bind_None in H.
           destruct H as [H | (s4 & _ & H)]; [| discriminate].
           destruct (values_block_returns _ _ _ H).
    + intros [H | H]; [left; exact H |].
      destruct (Viewer.distance_block r (max_distance p) (Fin 0)) as [s1|] eqn:E.
      * right. exists s1. split; [reflexivity |]. apply bind_None. left.
        apply viewer_price_block_None, H.
      * left. apply distance_block_None in E. exact E.
Qed.

(** ** The order of the requested values *)

Lemma matches_Permutation (r : row) (vs vs' : list string) :
  vs ≡ₚ vs' -> Viewer.matches r vs = Viewer.matches r vs'.
Proof.
  unfold Viewer.matches. induction 1 as [| v vs vs' _ IH | v w vs | ? ? ? _ IH1 _ IH2].
  - reflexivity.
  - cbn [List.filter]. destruct (_ <? _)%fl; cbn [length]; congruence.
  - cbn [List.filter].
    destruct (Fin 0 <? default (Fin 0) (mentions r !! col_name v))%fl,
      (Fin 0 <? default (Fin 0) (mentions r !! col_name w))%fl; reflexivity.
  - congruence.
Qed.

Lemma values_block_Permutation (r : row) (vs vs' : list string) (s : pyfloat) :
  vs ≡ₚ vs' -> Viewer.values_block r vs s = Viewer.values_block r vs' s.
Proof.
  intros H. unfold Viewer.values_block.
  rewrite (matches_Permutation r vs vs' H).
  pose proof (Permutation_length H) as Hl.
  destruct vs as [|v vs], vs' as [|v' vs']; try discriminate; [reflexivity |].
  rewrite Hl. reflexivity.
Qed.

(** X8: the match score does not depend on the order in which the values
    are requested: two lists of values that are permutations of one another
    give the same outcome, in the viewer and in the collection script. *)
Theorem score_ignores_order_of_values
    (r : row) (limit budget : pyfloat) (vs vs' : list string) :
  vs ≡ₚ vs' ->
  Viewer.calculate_match_score r limit budget vs
    = Viewer.calculate_match_score r limit budget vs' /\
  Collect.calculate_match_score r
      {| max_distance := limit; max_budget := budget; values := Some vs |}
    = Collect.calculate_match_score r
        {| max_distance := limit; max_budget := budget; values := Some vs' |}.
Proof.
  intros H. split.
  - unfold Viewer.calculate_match_score.
    destruct (Viewer.distance_block r limit (Fin 0)) as [s1|]; [| reflexivity].
    cbn [mbind option_bind].
    destruct (Viewer.price_block r budget s1) as [s2|]; [| reflexivity].
    cbn [mbind option_bind].
    destruct (Viewer.rating_block r s2) as [s3|]; [| reflexivity].
    cbn [mbind option_bind]. rewrite (values_block_Permutation r vs vs' s3 H).
    reflexivity.
  - unfold Collect.calculate_match_score.
    change (Collect.distance_block r
              {| max_distance := limit; max_budget := budget; values := Some vs' |})
      with (Collect.distance_block r
              {| max_distance := limit; max_budget := budget; values := Some vs |}).
    destruct (Collect.distance_block r _ (Fin 0)) as [s1|]; [| reflexivity].
    cbn [mbind option_bind].
    change (Collect.price_block r
              {| max_distance := limit; max_budget := budget; values := Some vs' |})
      with (Collect.price_block r
              {| max_distance := limit; max_budget := budget; values := Some vs |}).
    destruct (Collect.price_block r _ s1) as [s2|]; [| reflexivity].
    cbn [mbind option_bind].
    destruct (Collect.rating_block r s2) as [s3|]; [| reflexivity].
    cbn [mbind option_bind]. rewrite !values_block_agree.
    cbn [values from_option id]. unfold Datatypes.id.
    rewrite (values_block_Permutation r vs vs' s3 H). reflexivity.
Qed.

Lemma score_ignores_order_of_values_witness :
  Viewer.calculate_match_score example_row (Fin 10) (Fin 1500) ["montessori"; "stem"]
  = Viewer.calculate_match_score example_row (Fin 10) (Fin 1500) ["stem"; "montessori"].
Proof.
  apply (proj1 (score_ignores_order_of_values example_row (Fin 10) (Fin 1500)
                  ["montessori"; "stem"] ["stem"; "montessori"]
                  (perm_swap _ _ _))).
Defined.

(** ** Keyword search *)

Lemma append_cons (c : ascii) (a y : string) :
  (String c a ++ y = String c (a ++ y))%string.
Proof. reflexivity. Qed.

Lemma append_nil (y : string) : (EmptyString ++ y = y)%string.
Proof. reflexivity. Qed.

Lemma prefix_spec (a s : string) :
  String.prefix a s = true <-> exists y, s = (a ++ y)%string.
Proof.
  revert s. induction a as [|c a IH]; intros s.
  - destruct s; simpl; split; eauto.
  - destruct s as [|d s]; simpl;
      [split; [discriminate | intros [y Hy]; discriminate] |].
    destruct (Ascii.ascii_dec c d) as [-> | Hne].
    + rewrite IH. split; intros [y Hy]; exists y;
        rewrite append_cons in *; congruence.
    + split; [discriminate |].
      intros [y Hy]. rewrite append_cons in Hy. congruence.
Qed.

Lemma contains_spec (sub s : string) :
  contains sub s = true <-> exists x y, s = (x ++ sub ++ y)%string.
Proof.
  induction s as [|c s IH]; cbn [contains].
  - rewrite orb_false_r, prefix_spec. split.
    + intros [y Hy]. exists EmptyString, y. exact Hy.
    + intros (x & y & H). destruct x; [exists y; exact H | discriminate].
  - rewrite orb_true_iff, prefix_spec, IH. split.
    + intros [[y Hy] | (x & y & H)].
      * exists EmptyString, y. exact Hy.
      * exists (String c x), y. rewrite append_cons. congruence.
    + intros (x & y & H). destruct x as [|d x].
      * left. exists y. exact H.
      * right. exists x, y. rewrite append_cons in H. congruence.
Qed.

Lemma string_app_assoc (a b c : string) :
  ((a ++ b) ++ c = a ++ (b ++ c))%string.
Proof.
  induction a as [|x a IH]; [reflexivity |].
  rewrite !append_cons. congruence.
Qed.

(** A text that contains [b] contains every substring of [b]. *)
Lemma contains_trans (a b s : string) :
  contains a b = true -> contains b s = true -> contains a s = true.
Proof.
  rewrite !contains_spec. intros (u & v & ->) (x & y & ->).
  exists (x ++ u)%string, (v ++ y)%string.
  rewrite !string_app_assoc. reflexivity.
Qed.

(** [sub in s] holds exactly when [s.count(sub)] is positive. *)
Lemma count_from_pos (sub s : string) :
  sub <> EmptyString ->
  (0 <? count_from sub s 0)%nat = contains sub s.
Proof.
  intros Hsub. induction s as [|c s IH]; cbn [contains count_from].
  - destruct sub; [congruence | reflexivity].
  - destruct (String.prefix sub (String c s)); [reflexivity |]. exact IH.
Qed.

Lemma count_pos (s sub : string) :
  sub <> EmptyString -> (0 <? count s sub)%nat = contains sub s.
Proof.
  intros Hsub. unfold count. destruct sub as [|c sub]; [congruence |].
  apply count_from_pos. discriminate.
Qed.

Lemma flt_0_of_nat (n : nat) : (Fin 0 <? of_nat n)%fl = (0 <? n)%nat.
Proof.
  unfold of_nat. simpl. destruct n as [|n].
  - reflexivity.
  - pose proof (of_nat_pos (S n) ltac:(lia)) as H.
    cbn [Nat.ltb Nat.leb]. apply Qlt_bool_iff. exact H.
Qed.

Lemma flt_0_flag (b : bool) : (Fin 0 <? FeatureEngineer.flag b)%fl = b.
Proof. destruct b; reflexivity. Qed.

Lemma ltb_0_add (a b : nat) : (0 <? a + b)%nat = (0 <? a)%nat || (0 <? b)%nat.
Proof. destruct a, b; reflexivity. Qed.

(** ** When a requested value is matched *)

(** Resolve a lookup in a dictionary literal: compare the key with each
    entry in turn. *)
Ltac lookup_literal :=
  repeat (rewrite list_to_map_cons, lookup_insert;
          let Hk := fresh "Hk" in
          case_decide as Hk;
          [ try (exfalso; cbv [col_name String.append] in Hk;
                 first [ discriminate Hk | injection Hk as Hk; congruence ])
          | try (exfalso; apply Hk; reflexivity); clear Hk ]);
  rewrite ?list_to_map_nil, ?lookup_empty.

Lemma existsb_one (f : string -> bool) (k : string) : existsb f [k] = f k.
Proof. simpl. apply orb_false_r. Qed.

Lemma existsb_two (f : string -> bool) (k1 k2 : string) :
  existsb f [k1; k2] = f k1 || f k2.
Proof. simpl. rewrite orb_false_r. reflexivity. Qed.

Lemma flt_0_count (t k : string) :
  k <> EmptyString -> (Fin 0 <? of_nat (count t k))%fl = contains k t.
Proof. intros H. rewrite flt_0_of_nat. apply count_pos, H. Qed.

Lemma flt_0_count2 (t k1 k2 : string) :
  k1 <> EmptyString -> k2 <> EmptyString ->
  (Fin 0 <? of_nat (count t k1 + count t k2))%fl = contains k1 t || contains k2 t.
Proof.
  intros H1 H2. rewrite flt_0_of_nat, ltb_0_add, !count_pos by assumption.
  reflexivity.
Qed.

Lemma value_matched_with_reviews (r : review) (rs : list review) (v : string) :
  value_matched (FeatureEngineer.extract_review_features (r :: rs)) v
  = existsb (fun k => contains k (all_text_of (r :: rs))) (keywords_of v).
Proof.
  unfold value_matched, FeatureEngineer.extract_review_features.
  generalize (np_mean (map (fun r0 => String.length (get_text r0)) (r :: rs))).
  generalize (all_text_of (r :: rs)). intros t avg.
  unfold keywords_of.
  repeat (let Hv := fresh "Hv" in
          case_decide as Hv;
          [ subst v; lookup_literal; cbn [from_option id]; unfold Datatypes.id;
            rewrite ?existsb_one, ?existsb_two, ?flt_0_flag,
              ?flt_0_count, ?flt_0_count2 by discriminate;
            reflexivity
          | ]).
  lookup_literal. reflexivity.
Qed.

Lemma matches_with_reviews (rw : row) (rv : review) (rs : list review)
    (vs : list string) :
  mentions rw = FeatureEngineer.extract_review_features (rv :: rs) ->
  Viewer.matches rw vs
  = length (List.filter
              (fun v => existsb (fun k => contains k (all_text_of (rv :: rs)))
                          (keywords_of v)) vs).
Proof.
  intros Hm. unfold Viewer.matches. rewrite Hm. f_equal.
  apply List.filter_ext. intros v.
  apply (value_matched_with_reviews rv rs v).
Qed.

(** X9: for a provider with at least one review, whose [mentions_*] columns
    are the dictionary [extract_review_features] returned, the number of
    requested values that both scorers count as matched is the number of
    requested values one of whose keywords occurs in the lower-cased,
    joined review text; a requested value that is none of the ten the
    extractor knows has no keyword and is never matched. *)
Theorem values_matched_by_keywords (rw : row) (rv : review) (rs : list review)
    (vs : list string) :
  mentions rw = FeatureEngineer.extract_review_features (rv :: rs) ->
  let hit v := existsb (fun k => contains k (all_text_of (rv :: rs)))
                 (keywords_of v) in
  Viewer.matches rw vs = length (List.filter hit vs) /\
  Collect.values_loop rw vs 0 = length (List.filter hit vs).
Proof.
  intros Hm hit. rewrite values_loop_acc.
  rewrite (matches_with_reviews rw rv rs vs Hm). split; reflexivity.
Qed.

Lemma values_matched_by_keywords_witness :
  let rw := {| distance_miles := Fin 5; estimated_price := Fin 1020;
               rating := Fin 4;
               mentions := FeatureEngineer.extract_review_features affordable_reviews |} in
  Viewer.matches rw ["affordable"; "stem"; "safe"; "outdoor"] = 2%nat /\
  Collect.values_loop rw ["affordable"; "stem"; "safe"; "outdoor"] 0 = 2%nat.
Proof.
  intros rw.
  exact (values_matched_by_keywords rw
           {| text := Some "Affordable and safe place for kids" |}
           [ {| text := None |};
             {| text := Some "Reasonable fees, a bit expensive in summer" |} ]
           ["affordable"; "stem"; "safe"; "outdoor"] eq_refl).
Defined.

(** X10: keywords are searched as substrings of the joined text, with no
    word boundaries: when a word [w] occurs in the lower-cased reviews and a
    keyword [k] of the value [v] occurs inside [w], the provider's
    [mentions_v] column is positive and the scorers count [v] as matched
    (["system"] matches the value ["stem"], ["unsafe"] the value ["safe"]). *)
Theorem keyword_inside_longer_word (rv : review) (rs : list review)
    (v k w : string) :
  In k (keywords_of v) ->
  contains k w = true ->
  contains w (all_text_of (rv :: rs)) = true ->
  value_matched (FeatureEngineer.extract_review_features (rv :: rs)) v = true.
Proof.
  intros Hk Hkw Hw. rewrite value_matched_with_reviews.
  apply existsb_exists. exists k. split; [exact Hk |].
  exact (contains_trans k w _ Hkw Hw).
Qed.

Lemma keyword_inside_longer_word_witness :
  value_matched
    (FeatureEngineer.extract_review_features
       [ {| text := Some "Their booking System is slow" |} ]) "stem" = true.
Proof.
  apply (keyword_inside_longer_word
           {| text := Some "Their booking System is slow" |} [] "stem" "stem" "system").
  - vm_compute. left. reflexivity.
  - vm_compute. reflexivity.
  - vm_compute. reflexivity.
Defined.

Lemma sum_nat_ge_last (f : string -> nat) (l : list string) (k : string) :
  In k l -> (f k <= sum_nat (map f l))%nat.
Proof.
  induction l as [|x l IH]; intros Hin; [destruct Hin |].
  cbn [map sum_nat foldr]. destruct Hin as [-> | Hin].
  - lia.
  - specialize (IH Hin). unfold sum_nat in IH. lia.
Qed.

Lemma count_ge_1 (t k : string) :
  k <> EmptyString -> contains k t = true -> (1 <= count t k)%nat.
Proof.
  intros Hk Hc. rewrite <- (count_pos t k Hk) in Hc.
  apply Nat.ltb_lt in Hc. lia.
Qed.

(** X11: the sentiment counts overlap: a provider whose reviews contain the
    negative keyword "unprofessional" (in any letter case) has a positive
    keyword count of at least 1 as well as a negative keyword count of at
    least 1, because "professional" is found inside it. *)
Theorem unprofessional_counts_as_positive (rv : review) (rs : list review) :
  contains "unprofessional" (all_text_of (rv :: rs)) = true ->
  exists pos neg : nat,
    FeatureEngineer.extract_review_features (rv :: rs) !! "positive_keywords_count"
      = Some (of_nat pos) /\
    FeatureEngineer.extract_review_features (rv :: rs) !! "negative_keywords_count"
      = Some (of_nat neg) /\
    (1 <= pos)%nat /\ (1 <= neg)%nat.
Proof.
  intros Hc.
  exists (sum_nat (map (count (all_text_of (rv :: rs))) FeatureEngineer.positive_words)),
         (sum_nat (map (count (all_text_of (rv :: rs))) FeatureEngineer.negative_words)).
  split; [reflexivity |]. split; [reflexivity |]. split.
  - etransitivity;
      [| apply (sum_nat_ge_last (count (all_text_of (rv :: rs))) _ "professional") ].
    + apply count_ge_1; [discriminate |].
      apply (contains_trans _ "unprofessional"); [reflexivity | exact Hc].
    + unfold FeatureEngineer.positive_words. simpl. tauto.
  - etransitivity;
      [| apply (sum_nat_ge_last (count (all_text_of (rv :: rs))) _ "unprofessional") ].
    + apply count_ge_1; [discriminate | exact Hc].
    + unfold FeatureEngineer.negative_words. simpl. tauto.
Qed.

Lemma unprofessional_counts_as_positive_witness :
  exists pos neg : nat,
    FeatureEngineer.extract_review_features
      [ {| text := Some "Rude and Unprofessional staff" |} ] !! "positive_keywords_count"
      = Some (of_nat pos) /\
    FeatureEngineer.extract_review_features
      [ {| text := Some "Rude and Unprofessional staff" |} ] !! "negative_keywords_count"
      = Some (of_nat neg) /\
    (1 <= pos)%nat /\ (1 <= neg)%nat.
Proof.
  apply (unprofessional_counts_as_positive
           {| text := Some "Rude and Unprofessional staff" |} []).
  vm_compute. reflexivity.
Defined.

(** ** Letter case, and the range of the estimated price *)

Lemma same_up_to_case_text (rs rs' : list review) :
  same_up_to_case rs rs' -> all_text_of rs = all_text_of rs'.
Proof. unfold same_up_to_case, all_text_of. intros ->. reflexivity. Qed.

Lemma lower_ascii_idemp (c : ascii) : lower_ascii (lower_ascii c) = lower_ascii c.
Proof.
  destruct c as [[] [] [] [] [] [] [] []]; vm_compute; reflexivity.
Qed.

Lemma lower_idemp (s : string) : lower (lower s) = lower s.
Proof.
  induction s as [|c s IH]; [reflexivity |].
  cbn [lower]. rewrite lower_ascii_idemp, IH. reflexivity.
Qed.

(** X12: only the lower-cased texts are read, apart from the lengths: two
    review lists with the same texts up to letter case get the same
    estimated price for every rating, and the same value under every key of
    the feature dictionary other than avg_review_length. *)
Theorem features_ignore_letter_case (rs rs' : list review) :
  same_up_to_case rs rs' ->
  (forall rating,
     FeatureEngineer.estimate_price_from_reviews rs rating
     = FeatureEngineer.estimate_price_from_reviews rs' rating) /\
  (forall k, k <> "avg_review_length" ->
     FeatureEngineer.extract_review_features rs !! k
     = FeatureEngineer.extract_review_features rs' !! k).
Proof.
  intros H. pose proof (same_up_to_case_text rs rs' H) as Ht.
  destruct rs as [|r rs], rs' as [|r' rs']; try discriminate H.
  - split; reflexivity.
  - split.
    + intros rating. unfold FeatureEngineer.estimate_price_from_reviews.
      rewrite Ht. reflexivity.
    + intros k Hk. unfold FeatureEngineer.extract_review_features.
      rewrite Ht.
      generalize (np_mean (map (fun r0 => String.length (get_text r0)) (r :: rs))).
      generalize (np_mean (map (fun r0 => String.length (get_text r0)) (r' :: rs'))).
      intros avg' avg.
      rewrite !list_to_map_cons, !lookup_insert.
      repeat (case_decide; [first [reflexivity | congruence] |]).
      reflexivity.
Qed.

Lemma features_ignore_letter_case_witness :
  (forall rating,
     FeatureEngineer.estimate_price_from_reviews pricey_reviews rating
     = FeatureEngineer.estimate_price_from_reviews
         [ {| text := Some "great teachers but expensive, really pricey." |} ] rating) /\
  (forall k, k <> "avg_review_length" ->
     FeatureEngineer.extract_review_features pricey_reviews !! k
     = FeatureEngineer.extract_review_features
         [ {| text := Some "great teachers but expensive, really pricey." |} ] !! k).
Proof.
  apply (features_ignore_letter_case pricey_reviews
           [ {| text := Some "great teachers but expensive, really pricey." |} ]).
  reflexivity.
Defined.

Lemma estimate_price_bounds (reviews : list review) (rating : option pyfloat) :
  rating_arg_on_scale rating = true ->
  in_range 495 1725 (FeatureEngineer.estimate_price_from_reviews reviews rating) = true.
Proof.
  intros H.
  assert (Hcases : rating = None \/
                   exists q, rating = Some (Fin q) /\ 0 <= q /\ q <= 5).
  { destruct rating as [[| | |q]|]; try discriminate H; [right | left; reflexivity].
    exists q. unfold rating_arg_on_scale, in_range in H.
    apply andb_true_iff in H. destruct H as [H1 H2]. simpl in H1, H2.
    qbool. auto. }
  unfold FeatureEngineer.estimate_price_from_reviews.
  destruct reviews as [|r rs].
  - destruct Hcases as [-> | (q & -> & H0 & H5)]; [reflexivity |].
    unfold FeatureEngineer.adjust_by_rating, truthy, in_range.
    destruct (Qeq_bool q 0); simpl; [reflexivity |].
    apply andb_true_iff. split; qdone.
  - cbv zeta.
    destruct (_ <? _)%nat; [| destruct (_ <? _)%nat];
      (destruct Hcases as [-> | (q & -> & H0 & H5)]; [reflexivity |]);
      unfold FeatureEngineer.adjust_by_rating, truthy, in_range;
      (destruct (Qeq_bool q 0); simpl; [reflexivity |]);
      apply andb_true_iff; split; qdone.
Qed.

(** X13: for a rating argument that is None or a number on the 0-5 scale,
    the estimated monthly price lies between 495 and 1725, whatever the
    reviews say. *)
Theorem estimated_price_range (reviews : list review) (rating : option pyfloat) :
  rating_arg_on_scale rating = true ->
  in_range 495 1725 (FeatureEngineer.estimate_price_from_reviews reviews rating) = true.
Proof. apply estimate_price_bounds. Qed.

Lemma estimated_price_range_witness :
  in_range 495 1725
    (FeatureEngineer.estimate_price_from_reviews pricey_reviews (Some (Fin 5))) = true.
Proof.
  apply (estimated_price_range pricey_reviews (Some (Fin 5))). reflexivity.
Defined.

(** ** Range of the quality score *)

Lemma sentiment_ratio_bounds (p n : Z) :
  (0 <= p)%Z -> (0 <= n)%Z ->
  0 < inject_Z (p + n + 1) /\
  -1 < inject_Z (p - n) / inject_Z (p + n + 1) /\
  inject_Z (p - n) / inject_Z (p + n + 1) < 1.
Proof.
  intros Hp Hn.
  assert (Hd : 0 < inject_Z (p + n + 1)).
  { change 0 with (inject_Z 0). rewrite <- Zlt_Qlt. lia. }
  assert (Hu : inject_Z (p - n) < inject_Z (p + n + 1)).
  { rewrite <- Zlt_Qlt. lia. }
  assert (Hl : - inject_Z (p + n + 1) < inject_Z (p - n)).
  { rewrite <- inject_Z_opp, <- Zlt_Qlt. lia. }
  split; [exact Hd |]. split.
  - apply Qlt_shift_div_l; [exact Hd | lra].
  - apply Qlt_shift_div_r; [exact Hd | lra].
Qed.

(** X14: for a rating cell that is missing or on the 0-5 scale and keyword
    counts that are not negative, the quality score lies strictly between
    -0.4 and 1. *)
Theorem quality_score_range (rating : pyfloat) (positive negative : Z) :
  rating_cell_on_scale rating = true ->
  (0 <= positive)%Z -> (0 <= negative)%Z ->
  strictly_between (-0.4) 1
    (FeatureEngineer.quality_score rating positive negative) = true.
Proof.
  intros Hr Hp Hn.
  destruct (sentiment_ratio_bounds positive negative Hp Hn) as (Hd & Hlo & Hhi).
  assert (Hz : Qeq_bool (inject_Z (positive + negative + 1)) 0 = false).
  { apply Qeq_bool_false. lra. }
  unfold strictly_between, FeatureEngineer.quality_score.
  set (x := inject_Z (positive - negative) / inject_Z (positive + negative + 1)) in *.
  assert (Hx : (Fin (inject_Z (positive - negative)) /
                Fin (inject_Z (positive + negative + 1)))%fl = Fin x).
  { simpl. rewrite Hz. reflexivity. }
  rewrite Hx. clearbody x. clear Hx Hz.
  assert (Hfill : exists r, fillna (Fin 3) rating = Fin r /\ 0 <= r /\ r <= 5).
  { unfold rating_cell_on_scale, in_range in Hr.
    destruct rating as [ | | |r]; simpl in Hr; try discriminate Hr.
    - exists 3. split; [reflexivity | lra].
    - apply andb_true_iff in Hr. destruct Hr as [H0 H5]. qbool.
      exists r. auto. }
  destruct Hfill as (r & -> & H0 & H5).
  pose proof (Qdiv_nonneg r 5 ltac:(lra) H0) as Hy0.
  pose proof (Qdiv_le_1 r 5 ltac:(lra) H5) as Hy1.
  simpl. set (y := r / 5) in *. clearbody y.
  apply andb_true_iff. split; qcases; qdone.
Qed.

Lemma quality_score_range_witness :
  strictly_between (-0.4) 1 (FeatureEngineer.quality_score (Fin 5) 40 0) = true.
Proof.
  apply (quality_score_range (Fin 5) 40 0); [reflexivity | lia | lia].
Defined.

(** ** Providers without reviews, providers without a rating *)

Lemma no_review_features_zero (k : string) :
  default (Fin 0) (FeatureEngineer.no_review_features !! k) = Fin 0.
Proof.
  unfold FeatureEngineer.no_review_features.
  rewrite !list_to_map_cons, !lookup_insert.
  repeat (case_decide; [reflexivity |]).
  reflexivity.
Qed.

Lemma matches_none (rw : row) (vs : list string) :
  (forall k, default (Fin 0) (mentions rw !! k) = Fin 0) ->
  Viewer.matches rw vs = 0%nat.
Proof.
  intros H. unfold Viewer.matches.
  induction vs as [|v vs IH]; [reflexivity |].
  cbn [List.filter]. rewrite H. exact IH.
Qed.

(** X15: a provider without reviews, whose [mentions_*] columns are the
    dictionary [extract_review_features] returns for an empty list, matches
    none of the requested values in either scorer, whichever values are
    requested; its values term is zero. *)
Theorem no_reviews_match_no_value (rw : row) (vs : list string) :
  mentions rw = FeatureEngineer.extract_review_features [] ->
  Viewer.matches rw vs = 0%nat /\
  Collect.values_loop rw vs 0 = 0%nat /\
  Terms.values_term rw vs =f= Fin 0.
Proof.
  intros Hm.
  assert (H0 : Viewer.matches rw vs = 0%nat).
  { apply matches_none. intros k. rewrite Hm. apply no_review_features_zero. }
  split; [exact H0 |]. split.
  - rewrite values_loop_acc, H0. reflexivity.
  - unfold Terms.values_term. rewrite H0. destruct vs as [|v vs]; [reflexivity |].
    cbn [length]. unfold of_nat. simpl.
    assert (Hpos : 0 < inject_Z (Z.of_nat (S (length vs)))) by (apply of_nat_pos; lia).
    qcases; qbool; try lra. simpl. field_simplify_eq; lra.
Qed.

Lemma no_reviews_match_no_value_witness :
  Viewer.matches unrated_far_row ["clean"; "montessori"; "stem"] = 0%nat /\
  Collect.values_loop unrated_far_row ["clean"; "montessori"; "stem"] 0 = 0%nat /\
  Terms.values_term unrated_far_row ["clean"; "montessori"; "stem"] =f= Fin 0.
Proof.
  apply (no_reviews_match_no_value unrated_far_row ["clean"; "montessori"; "stem"]).
  reflexivity.
Defined.

Lemma estimated_price_column_nan (reviews : list review) :
  FeatureEngineer.estimated_price_column reviews NaN = NaN.
Proof.
  unfold FeatureEngineer.estimated_price_column,
    FeatureEngineer.estimate_price_from_reviews.
  destruct reviews as [|r rs]; [reflexivity |].
  cbv zeta. destruct (_ <? _)%nat; [| destruct (_ <? _)%nat]; reflexivity.
Qed.

(** X16: in a frame whose rating column is float, a provider without a
    rating gets the estimated price NaN whatever its reviews say, and with
    it no price points and no rating points: both scorers return the clamped
    sum of the distance term and the values term, for every budget, a zero
    budget included. *)
Theorem unrated_provider_scores_distance_and_values
    (reviews : list review) (rw : row) (p : preferences) :
  rating rw = NaN ->
  estimated_price rw = FeatureEngineer.estimated_price_column reviews (rating rw) ->
  truthy (max_distance p) = true ->
  estimated_price rw = NaN /\
  same_outcome
    (Collect.calculate_match_score rw p)
    (Some (Terms.total (Terms.distance_term rw (max_distance p)) (Fin 0) (Fin 0)
             (Terms.values_term rw (default [] (values p))))) /\
  same_outcome
    (Viewer.calculate_match_score rw (max_distance p) (max_budget p)
       (default [] (values p)))
    (Some (Terms.total (Terms.distance_term rw (max_distance p)) (Fin 0) (Fin 0)
             (Terms.values_term rw (default [] (values p))))).
Proof.
  intros Hr Hprice Hd.
  rewrite Hr, estimated_price_column_nan in Hprice.
  split; [exact Hprice |].
  assert (Hsum : forall s1 s4,
            s1 =f= (Fin 0 + Terms.distance_term rw (max_distance p))%fl ->
            s4 =f= (s1 + Terms.values_term rw (default [] (values p)))%fl ->
            py_min s4 (Fin 100) =f=
            Terms.total (Terms.distance_term rw (max_distance p)) (Fin 0) (Fin 0)
              (Terms.values_term rw (default [] (values p)))).
  { intros s1 s4 E1 E4. unfold Terms.total. apply py_min_feq.
    rewrite E4. apply fadd_feq; [| reflexivity].
    rewrite !fadd_zero_r. exact E1. }
  split.
  - unfold Collect.calculate_match_score.
    destruct (distance_block_term rw p (Fin 0) Hd) as (s1 & -> & E1).
    cbn [mbind option_bind].
    unfold Collect.price_block, Collect.rating_block. rewrite Hprice, Hr.
    cbn [notna mbind option_bind]. rewrite values_block_agree.
    destruct (values_block_term rw (default [] (values p)) s1) as (s4 & -> & E4).
    cbn [mbind option_bind same_outcome]. apply (Hsum s1 s4 E1 E4).
  - unfold Viewer.calculate_match_score. rewrite <- distance_block_agree.
    destruct (distance_block_term rw p (Fin 0) Hd) as (s1 & -> & E1).
    cbn [mbind option_bind].
    unfold Viewer.price_block, Viewer.rating_block. rewrite Hprice, Hr.
    cbn [notna mbind option_bind].
    destruct (values_block_term rw (default [] (values p)) s1) as (s4 & -> & E4).
    cbn [mbind option_bind same_outcome]. apply (Hsum s1 s4 E1 E4).
Qed.

Lemma unrated_provider_scores_distance_and_values_witness :
  estimated_price unrated_far_row = NaN /\
  same_outcome
    (Collect.calculate_match_score unrated_far_row zero_budget_prefs)
    (Some (Terms.total (Terms.distance_term unrated_far_row (Fin 10)) (Fin 0) (Fin 0)
             (Terms.values_term unrated_far_row ["clean"]))) /\
  same_outcome
    (Viewer.calculate_match_score unrated_far_row (Fin 10) (Fin 0) ["clean"])
    (Some (Terms.total (Terms.distance_term unrated_far_row (Fin 10)) (Fin 0) (Fin 0)
             (Terms.values_term unrated_far_row ["clean"]))).
Proof.
  apply (unrated_provider_scores_distance_and_values [] unrated_far_row
           zero_budget_prefs); reflexivity.
Defined.

(** ** More on the great-circle distance *)

Section DistanceFacts.

Local Open Scope R_scope.

(** The value under the square root. *)
Lemma haversine_term_sym (phi1 phi2 l1 l2 : R) :
  sin ((phi2 - phi1) / 2) ^ 2 + cos phi1 * cos phi2 * sin ((l2 - l1) / 2) ^ 2
  = sin ((phi1 - phi2) / 2) ^ 2 + cos phi2 * cos phi1 * sin ((l1 - l2) / 2) ^ 2.
Proof.
  replace ((phi1 - phi2) / 2) with (- ((phi2 - phi1) / 2)) by lra.
  replace ((l1 - l2) / 2) with (- ((l2 - l1) / 2)) by lra.
  rewrite !sin_neg. ring.
Qed.




(** X18: the distance is symmetric: swapping the two points gives the same
    result. *)
Theorem calculate_distance_symmetric (lat1 lon1 lat2 lon2 : R) :
  Haversine.calculate_distance lat1 lon1 lat2 lon2
  = Haversine.calculate_distance lat2 lon2 lat1 lon1.
Proof.
  unfold Haversine.calculate_distance.
  rewrite (haversine_term_sym (Haversine.radians lat1) (Haversine.radians lat2)
             (Haversine.radians lon1) (Haversine.radians lon2)).
  reflexivity.
Qed.


End DistanceFacts.

(** ** The rows [recommend] leaves out *)

Section NLargestTop.

Context {A : Type} (key : A -> pyfloat).

Lemma insert_desc_Permutation (x : A) (l : list A) :
  insert_desc key x l ≡ₚ x :: l.
Proof.
  induction l as [|y l IH]; [reflexivity |].
  cbn [insert_desc]. destruct (key x <? key y)%fl; [| reflexivity].
  rewrite IH. apply perm_swap.
Qed.

Lemma sort_desc_Permutation (l : list A) : sort_desc key l ≡ₚ l.
Proof.
  induction l as [|x l IH]; [reflexivity |].
  cbn [sort_desc foldr]. rewrite insert_desc_Permutation.
  apply perm_skip, IH.
Qed.

Lemma filter_split_Permutation (f : A -> bool) (l : list A) :
  List.filter f l ++ List.filter (fun x => negb (f x)) l ≡ₚ l.
Proof.
  induction l as [|x l IH]; [reflexivity |].
  cbn [List.filter]. destruct (f x); cbn [negb].
  - cbn [app]. apply perm_skip, IH.
  - rewrite <- Permutation_middle. apply perm_skip, IH.
Qed.

(** The whole frame in ranking order, of which [nlargest] is the head. *)
Lemma ranking_Permutation (l : list A) :
  sort_desc key (List.filter (has_key key) l)
  ++ List.filter (fun x => negb (has_key key x)) l ≡ₚ l.
Proof.
  rewrite sort_desc_Permutation. apply filter_split_Permutation.
Qed.

Lemma ranking_sorted (l : list A) :
  StronglySorted (ranks_before key)
    (sort_desc key (List.filter (has_key key) l)
     ++ List.filter (fun x => negb (has_key key x)) l).
Proof.
  pose proof (nlargest_sorted key (length l) l) as H.
  unfold nlargest in H. rewrite take_ge in H; [exact H |].
  apply Nat.eq_le_incl, Permutation_length, ranking_Permutation.
Qed.

Lemma sorted_app_cross (R : A -> A -> Prop) (l1 l2 : list A) :
  StronglySorted R (l1 ++ l2) ->
  Forall (fun a => Forall (R a) l2) l1.
Proof.
  induction l1 as [|x l1 IH]; intros H; [constructor |].
  cbn [app] in H. apply StronglySorted_inv in H. destruct H as [Hs Hx].
  constructor; [| apply IH, Hs].
  apply Forall_app in Hx. apply Hx.
Qed.

Lemma nlargest_top (n : nat) (l : list A) :
  exists rest : list A,
    nlargest key n l ++ rest ≡ₚ l /\
    length (nlargest key n l) = Nat.min n (length l) /\
    Forall (fun a => Forall (ranks_before key a) rest) (nlargest key n l).
Proof.
  unfold nlargest.
  set (ranking := sort_desc key (List.filter (has_key key) l)
                  ++ List.filter (fun x => negb (has_key key x)) l).
  exists (drop n ranking). split; [| split].
  - rewrite take_drop. apply ranking_Permutation.
  - rewrite length_take. f_equal.
    apply Permutation_length, ranking_Permutation.
  - apply sorted_app_cross. rewrite take_drop. apply ranking_sorted.
Qed.

End NLargestTop.

(** ** Top-N recommendation *)

(** C8: [recommend] returns whenever neither limit is zero, and what it
    returns is rows of the data frame, each with the match score
    [calculate_match_score] gives it: as many rows as there are, up to
    [top_n]; no row standing above a row with a higher score; no row left
    out that has a higher score than a returned row; and the returned rows
    of any one score being the first rows of that score in the data frame,
    in its order (ties are broken by the existing order). *)
Theorem recommend_top_n_sorted_stable
    (df : list row) (p : preferences) (top_n : nat) :
  (truthy (max_distance p) = true -> truthy (max_budget p) = true ->
   exists result : list scored_row,
     SimpleRecommender.recommend df p top_n = Some result /\
     length result = Nat.min top_n (length df)) /\
  (forall result : list scored_row,
     SimpleRecommender.recommend df p top_n = Some result ->
     exists scored rest : list scored_row,
       SimpleRecommender.with_match_score df p = Some scored /\
       map provider scored = df /\
       Forall (fun x => Collect.calculate_match_score (provider x) p
                        = Some (match_score x)) scored /\
       result ++ rest ≡ₚ scored /\
       Forall (fun x => Collect.calculate_match_score (provider x) p
                        = Some (match_score x)) result /\
       length result = Nat.min top_n (length df) /\
       (length result <= top_n)%nat /\
       (forall (i j : nat) (a b : scored_row),
          (i < j)%nat -> result !! i = Some a -> result !! j = Some b ->
          (match_score a <? match_score b)%fl = false) /\
       Forall (fun a =>
                 Forall (fun b => (match_score a <? match_score b)%fl = false) rest)
         result /\
       (forall s : pyfloat,
          List.filter (fun x => feqb s (match_score x)) result
          `prefix_of`
          List.filter (fun x => feqb s (match_score x)) scored)).
Proof.
  assert (Hall : forall result,
            SimpleRecommender.recommend df p top_n = Some result ->
            exists scored rest : list scored_row,
              SimpleRecommender.with_match_score df p = Some scored /\
              map provider scored = df /\
              Forall (fun x => Collect.calculate_match_score (provider x) p
                               = Some (match_score x)) scored /\
              result ++ rest ≡ₚ scored /\
              length result = Nat.min top_n (length df) /\
              result = nlargest match_score top_n scored /\
              Forall (fun a =>
                        Forall (fun b => (match_score a <? match_score b)%fl = false)
                          rest) result).
  { unfold SimpleRecommender.recommend. intros result H.
    destruct (SimpleRecommender.with_match_score df p) as [scored|] eqn:E;
      [| discriminate].
    cbn [mbind option_bind] in H. injection H as <-.
    destruct (with_match_score_spec df p scored E) as [Hmap Hscore].
    destruct (nlargest_top match_score top_n scored) as (rest & Hperm & Hlen & Htop).
    exists scored, rest. split; [reflexivity |]. split; [exact Hmap |].
    split; [exact Hscore |]. split; [exact Hperm |].
    split; [rewrite Hlen, <- Hmap, length_map; reflexivity |].
    split; [reflexivity | exact Htop]. }
  split.
  - intros Hd Hb.
    assert (Hs : is_Some (SimpleRecommender.with_match_score df p)).
    { apply mapM_is_Some_2. rewrite Forall_forall. intros r _. unfold compose.
      destruct (match_score_returns r p Hd Hb) as [s ->]. eexists. reflexivity. }
    destruct Hs as [scored Hs].
    exists (nlargest match_score top_n scored).
    assert (Hrec : SimpleRecommender.recommend df p top_n
                   = Some (nlargest match_score top_n scored)).
    { unfold SimpleRecommender.recommend. rewrite Hs. reflexivity. }
    split; [exact Hrec |].
    destruct (Hall _ Hrec) as (_ & _ & _ & _ & _ & _ & Hlen & _). exact Hlen.
  - intros result H.
    destruct (Hall result H)
      as (scored & rest & Hs & Hmap & Hscore & Hperm & Hlen & -> & Htop).
    exists scored, rest. split; [exact Hs |]. split; [exact Hmap |].
    split; [exact Hscore |]. split; [exact Hperm |]. split.
    { rewrite <- Hperm in Hscore. apply Forall_app in Hscore. apply Hscore. }
    split; [exact Hlen |]. split; [apply nlargest_length |]. split; [| split].
    + intros i j a b Hij Ha Hb.
      exact (sorted_lookup match_score _ i j a b (nlargest_sorted _ _ _) Hij Ha Hb).
    + exact Htop.
    + intros s. apply (nlargest_stable match_score).
Qed.

(** The ranking on a small dataset: the best row first, then the two rows
    that tie at 23 in their dataset order, the row that scores 0 left out. *)
Example recommend_tie :
  option_map
    (map (fun x => (mentions (provider x) !! "mentions_clean", reduced (match_score x))))
    (SimpleRecommender.recommend tie_dataset example_prefs 3)
  = Some [ (None, Fin (105 # 2)); (None, Fin 23); (Some (Fin 3), Fin 23) ].
Proof. vm_compute. reflexivity. Qed.

Lemma recommend_witness :
  exists result : list scored_row,
    SimpleRecommender.recommend tie_dataset example_prefs 3 = Some result /\
    length result = Nat.min 3 (length tie_dataset).
Proof.
  apply (proj1 (recommend_top_n_sorted_stable tie_dataset example_prefs 3));
    reflexivity.
Defined.

(** X20: the rows [recommend] returns are the top of the scored frame: with
    the rows it leaves out they make up the scored frame (no row is
    invented, dropped twice or repeated), their number is the smaller of
    [top_n] and the number of providers, and no row left out has a
    strictly higher score than a returned row. *)
Theorem recommend_returns_the_top
    (df : list row) (p : preferences) (top_n : nat) (result : list scored_row) :
  SimpleRecommender.recommend df p top_n = Some result ->
  exists scored rest : list scored_row,
    SimpleRecommender.with_match_score df p = Some scored /\
    map provider scored = df /\
    result ++ rest ≡ₚ scored /\
    length result = Nat.min top_n (length df) /\
    Forall (fun a => Forall (fun b => (match_score a <? match_score b)%fl = false) rest)
      result.
Proof.
  unfold SimpleRecommender.recommend. intros H.
  destruct (SimpleRecommender.with_match_score df p) as [scored|] eqn:E;
    [| discriminate H].
  cbn [mbind option_bind] in H. injection H as <-.
  destruct (with_match_score_spec df p scored E) as [Hmap _].
  destruct (nlargest_top match_score top_n scored) as (rest & Hperm & Hlen & Htop).
  exists scored, rest. split; [reflexivity |]. split; [exact Hmap |].
  split; [exact Hperm |]. split; [| exact Htop].
  rewrite Hlen, <- Hmap, length_map. reflexivity.
Qed.

Lemma recommend_returns_the_top_witness :
  exists scored rest : list scored_row,
    SimpleRecommender.with_match_score tie_dataset example_prefs = Some scored /\
    map provider scored = tie_dataset /\
    default [] (SimpleRecommender.recommend tie_dataset example_prefs 3) ++ rest
      ≡ₚ scored /\
    length (default [] (SimpleRecommender.recommend tie_dataset example_prefs 3))
      = Nat.min 3 (length tie_dataset) /\
    Forall (fun a => Forall (fun b => (match_score a <? match_score b)%fl = false) rest)
      (default [] (SimpleRecommender.recommend tie_dataset example_prefs 3)).
Proof.
  apply (recommend_returns_the_top tie_dataset example_prefs 3).
  vm_compute. reflexivity.
Defined.

(** ** The row filter of the viewer *)

Lemma fmul_1_2_mono (d d' : pyfloat) :
  (d <=? d')%fl = true -> (d * Fin 1.2 <=? d' * Fin 1.2)%fl = true.
Proof.
  destruct d as [ | | |a], d' as [ | | |b]; simpl; try discriminate;
    intros H; qcases; qbool; try reflexivity; try lra.
Qed.

(** X21: the viewer never shows a provider whose distance is missing, and
    never shows a provider without a rating when the minimum rating is
    positive (the slider starts at 1.0), whatever its match score. *)
Theorem filter_hides_missing (r : row) (limit min_rating : pyfloat) :
  distance_miles r = NaN \/ (rating r = NaN /\ (Fin 0 <? min_rating)%fl = true) ->
  Viewer.passes_filter r limit min_rating = false.
Proof.
  unfold Viewer.passes_filter. intros [H | [H Hm]]; rewrite H.
  - reflexivity.
  - cbn [fillna]. apply andb_false_iff. right.
    destruct min_rating; simpl in *; try discriminate; auto. qdone.
Qed.

Lemma filter_hides_missing_witness :
  Viewer.passes_filter unrated_near_row (Fin 10) (Fin 1) = false.
Proof.
  apply (filter_hides_missing unrated_near_row (Fin 10) (Fin 1)).
  right. split; reflexivity.
Defined.

(** X22: the filter is monotone in the preferences: a provider shown for
    some maximum distance and minimum rating is still shown when the maximum
    distance is raised or the minimum rating is lowered. *)
Theorem filter_monotone (r : row) (limit limit' min_rating min_rating' : pyfloat) :
  (limit <=? limit')%fl = true ->
  (min_rating' <=? min_rating)%fl = true ->
  Viewer.passes_filter r limit min_rating = true ->
  Viewer.passes_filter r limit' min_rating' = true.
Proof.
  unfold Viewer.passes_filter. intros Hl Hm H.
  apply andb_true_iff in H. destruct H as [Hd Hr].
  apply andb_true_iff. split.
  - exact (fle_trans _ _ _ Hd (fmul_1_2_mono limit limit' Hl)).
  - exact (fle_trans _ _ _ Hm Hr).
Qed.

Lemma filter_monotone_witness :
  Viewer.passes_filter typical_row (Fin 12) (Fin 3.5) = true.
Proof.
  apply (filter_monotone typical_row (Fin 5) (Fin 12) (Fin 4) (Fin 3.5));
    reflexivity.
Defined.

(** ** The collector *)

Section CollectorFacts.

Import SimpleChildcareCollector.

Lemma search_loop_pages (pages : list search_response) (last : search_response)
    (more : list search_response) (params : search_params)
    (providers : list dict) (sent : list search_params) :
  Forall (fun data => continues data = true) pages ->
  continues last = false ->
  search_loop (pages ++ last :: more) params providers sent
  = Some (providers ++ concat (map found_in pages) ++ found_in last,
          sent ++ params :: map next_params pages).
Proof.
  intros Hpages Hlast. revert params providers sent.
  induction Hpages as [|page pages Hpage Hpages IH]; intros params providers sent.
  - cbn [app map concat search_loop]. unfold continues, found_in in *.
    destruct (String.eqb (status last) "OK"); cbn [negb andb] in *.
    + destruct (next_page_token last) as [token|]; [| reflexivity].
      cbn [default from_option] in *.
      destruct (String.eqb token ""); [reflexivity | discriminate Hlast].
    + rewrite app_nil_r. reflexivity.
  - cbn [app map concat search_loop].
    unfold continues in Hpage. apply andb_true_iff in Hpage.
    destruct Hpage as [Hok Htoken]. rewrite Hok. cbn [negb].
    unfold next_params at 1.
    destruct (next_page_token page) as [token|] eqn:Et; [| discriminate Htoken].
    apply negb_true_iff in Htoken. rewrite Htoken.
    rewrite IH. unfold found_in at 3. rewrite Hok.
    cbn [default from_option]. f_equal. f_equal.
    + rewrite <- !app_assoc. reflexivity.
    + rewrite <- app_assoc. reflexivity.
Qed.

(** X23: pagination.  When the first replies are OK and carry a page token
    and the next reply is not OK or carries no token, the search returns the
    results of those replies in order (those of the last one too when it is
    OK), after one request per reply: the first with the location, radius
    and keyword, each later one with the page token of the reply before it
    and nothing else.  Replies beyond the one that ends the loop are never
    asked for. *)
Theorem search_follows_page_tokens
    (pages : list search_response) (last : search_response)
    (more : list search_response)
    (location : pyfloat * pyfloat) (radius_miles : Z) (query : string) :
  Forall (fun data => continues data = true) pages ->
  continues last = false ->
  search_childcare_in_area (pages ++ last :: more) location radius_miles query
  = Some (concat (map found_in pages) ++ found_in last,
          Nearby location (radius_param radius_miles) query
            :: map next_params pages).
Proof.
  intros Hpages Hlast. unfold search_childcare_in_area.
  rewrite (search_loop_pages pages last more _ [] [] Hpages Hlast).
  reflexivity.
Qed.

Lemma search_follows_page_tokens_witness :
  let hit id : dict := {[ "place_id" := JStr id ]} in
  let page1 := {| status := "OK"; results := Some [hit "a"; hit "b"];
                  next_page_token := Some "t1" |} in
  let page2 := {| status := "OK"; results := Some [hit "c"];
                  next_page_token := None |} in
  let page3 := {| status := "OK"; results := Some [hit "d"];
                  next_page_token := None |} in
  search_childcare_in_area [page1; page2; page3] (Fin 42.5, Fin (-70.8)) 10 "childcare"
  = Some ([hit "a"; hit "b"; hit "c"],
          [Nearby (Fin 42.5, Fin (-70.8)) (radius_param 10) "childcare";
           PageToken "t1"]).
Proof.
  intros hit page1 page2 page3.
  apply (search_follows_page_tokens [page1] page2 [page3]).
  - repeat constructor.
  - reflexivity.
Defined.

(** X24: the radius sent to the search endpoint never exceeds 50000
    metres: up to 31 miles it is the radius converted to metres, from 32
    miles on it is the cap. *)
Theorem radius_param_capped (radius_miles : Z) :
  (radius_param radius_miles <=? Fin 50000)%fl = true /\
  ((radius_miles <= 31)%Z ->
   radius_param radius_miles = Fin (inject_Z radius_miles * 1609.34)) /\
  ((32 <= radius_miles)%Z -> radius_param radius_miles = Fin 50000).
Proof.
  unfold radius_param, py_min. cbn [fmul flt].
  destruct (Z_le_gt_dec radius_miles 31) as [H | H].
  - assert (Hq : inject_Z radius_miles <= 31).
    { change 31 with (inject_Z 31). rewrite <- Zle_Qle. exact H. }
    destruct (Qlt_bool 50000 (inject_Z radius_miles * 1609.34)) eqn:E;
      [exfalso; qbool; lra |].
    split; [simpl; qbool; lra |]. split; [reflexivity | lia].
  - assert (Hq : 32 <= inject_Z radius_miles).
    { change 32 with (inject_Z 32). rewrite <- Zle_Qle. lia. }
    destruct (Qlt_bool 50000 (inject_Z radius_miles * 1609.34)) eqn:E;
      [| exfalso; qbool; lra].
    split; [reflexivity |]. split; [lia | reflexivity].
Qed.

Lemma combine_place_id (provider details : dict) (pid : json) (c : combined) :
  combine provider details pid = Some c -> place_id c = pid.
Proof.
  unfold combine. destruct (location_of details); [| discriminate].
  cbn [mbind option_bind]. intros [= <-]. reflexivity.
Qed.

Lemma collect_loop_spec (api : json -> details_response) (providers : list dict)
    (asked : list json) (detailed : list combined)
    (out : list json * list combined) :
  collect_loop api providers asked detailed = Some out ->
  out.1 = asked ++ List.filter json_truthy (map place_id_of providers) /\
  exists new : list combined,
    out.2 = detailed ++ new /\
    Forall2 (fun provider c =>
               exists details,
                 get_detailed_info api (place_id_of provider) = Some details /\
                 combine provider details (place_id_of provider) = Some c)
      (List.filter (kept api) providers) new.
Proof.
  revert asked detailed.
  induction providers as [|provider providers IH]; intros asked detailed H.
  - injection H as <-. cbn. rewrite !app_nil_r. split; [reflexivity |].
    exists []. rewrite app_nil_r. split; [reflexivity | constructor].
  - cbn [collect_loop] in H. cbn [map List.filter]. unfold kept.
    fold (place_id_of provider) in *.
    destruct (json_truthy (place_id_of provider)) eqn:Et; cbn [negb andb] in *.
    + unfold fetched.
      destruct (get_detailed_info api (place_id_of provider)) as [details|] eqn:Eg;
        [| discriminate H].
      cbn [mbind option_bind] in H.
      destruct (dict_truthy details) eqn:Ed.
      * destruct (combine provider details (place_id_of provider)) as [c|] eqn:Ec;
          [| discriminate H].
        cbn [mbind option_bind] in H.
        destruct (IH _ _ H) as (Hasked & new & Hnew & Hall).
        split; [rewrite Hasked, <- app_assoc; reflexivity |].
        exists (c :: new). split; [rewrite Hnew, <- app_assoc; reflexivity |].
        constructor; [| exact Hall]. exists details. auto.
      * destruct (IH _ _ H) as (Hasked & new & Hnew & Hall).
        split; [rewrite Hasked, <- app_assoc; reflexivity |].
        exists new. auto.
    + destruct (IH _ _ H) as (Hasked & new & Hnew & Hall).
      split; [exact Hasked |]. exists new. auto.
Qed.

Lemma collect_loop_returns (api : json -> details_response) (providers : list dict)
    (asked : list json) (detailed : list combined) :
  Forall (fun provider => well_formed api provider = true) providers ->
  is_Some (collect_loop api providers asked detailed).
Proof.
  intros H. revert asked detailed.
  induction H as [|provider providers Hp Hps IH]; intros asked detailed.
  - cbn. eauto.
  - cbn [collect_loop]. unfold well_formed in Hp.
    destruct (json_truthy (get provider "place_id" JNull)); cbn [negb orb] in *;
      [| apply IH].
    destruct (get_detailed_info api (get provider "place_id" JNull)) as [details|];
      [| discriminate Hp].
    cbn [mbind option_bind].
    destruct (dict_truthy details); cbn [negb orb] in Hp; [| apply IH].
    apply bool_decide_eq_true in Hp. destruct Hp as [location Hl].
    unfold combine. rewrite Hl. cbn [mbind option_bind]. apply IH.
Qed.

Lemma combined_place_ids (api : json -> details_response)
    (hits : list dict) (records : list combined) :
  Forall2 (fun provider c =>
             exists details,
               get_detailed_info api (place_id_of provider) = Some details /\
               combine provider details (place_id_of provider) = Some c)
    hits records ->
  map place_id records = map place_id_of hits.
Proof.
  induction 1 as [|provider c hs cs (details & _ & Hc) _ IH]; [reflexivity |].
  cbn [map]. rewrite IH, (combine_place_id _ _ _ _ Hc). reflexivity.
Qed.

(** X25: what the detail loop of [collect_all_providers] does with the
    search hits.  A detail request is made for each hit that has a place id
    (a truthy one), in order, and for no other hit.  The records returned
    correspond, in order, to the hits that have a place id and whose detail
    fetch gave a non-empty dictionary: each is the combination of that hit
    with its own details, under the hit's place id.  So there are no more
    records than hits. *)
Theorem collect_keeps_fetched_hits
    (api : json -> details_response) (providers : list dict)
    (asked : list json) (records : list combined) :
  collect_loop api providers [] [] = Some (asked, records) ->
  asked = List.filter json_truthy (map place_id_of providers) /\
  Forall2 (fun provider c =>
             exists details,
               get_detailed_info api (place_id_of provider) = Some details /\
               combine provider details (place_id_of provider) = Some c)
    (List.filter (kept api) providers) records /\
  map place_id records = map place_id_of (List.filter (kept api) providers) /\
  (length records <= length providers)%nat.
Proof.
  intros H. destruct (collect_loop_spec api providers [] [] _ H)
    as (Hasked & new & Hnew & Hall).
  cbn [fst snd app] in *. subst new. split; [exact Hasked |].
  split; [exact Hall |]. split.
  - exact (combined_place_ids api _ _ Hall).
  - rewrite <- (Forall2_length _ _ _ Hall). apply List.filter_length_le.
Qed.

Lemma collect_keeps_fetched_hits_witness :
  let out := default ([], []) (collect_loop example_api example_hits [] []) in
  out.1 = List.filter json_truthy (map place_id_of example_hits) /\
  Forall2 (fun provider c =>
             exists details,
               get_detailed_info example_api (place_id_of provider) = Some details /\
               combine provider details (place_id_of provider) = Some c)
    (List.filter (kept example_api) example_hits) out.2 /\
  map place_id out.2 = map place_id_of (List.filter (kept example_api) example_hits) /\
  (length out.2 <= length example_hits)%nat.
Proof.
  intros out.
  apply (collect_keeps_fetched_hits example_api example_hits out.1 out.2).
  vm_compute. reflexivity.
Defined.

Lemma well_formed_failed_fetch (api : json -> details_response) (provider : dict) :
  String.eqb (details_status (api (place_id_of provider))) "OK" = false ->
  well_formed api provider = true.
Proof.
  intros H. unfold well_formed, get_detailed_info.
  fold (place_id_of provider). rewrite H.
  apply orb_true_iff. right. reflexivity.
Qed.

Lemma well_formed_no_place_id (api : json -> details_response) (provider : dict) :
  json_truthy (place_id_of provider) = false -> well_formed api provider = true.
Proof.
  intros H. unfold well_formed. fold (place_id_of provider). rewrite H. reflexivity.
Qed.

(** X26: the detail loop does not abort on a hit without a place id, on a
    failed detail fetch (a status other than OK) or on an empty result: it
    returns whenever each hit is of one of these kinds or has a reply that
    is well formed (an OK reply with a result whose geometry and location,
    when present, are objects). *)
Theorem collect_survives_failed_fetches
    (api : json -> details_response) (providers : list dict) :
  Forall (fun provider =>
            json_truthy (place_id_of provider) = false \/
            String.eqb (details_status (api (place_id_of provider))) "OK" = false \/
            well_formed api provider = true) providers ->
  is_Some (collect_loop api providers [] []).
Proof.
  intros H. apply collect_loop_returns.
  eapply Forall_impl; [exact H |]. intros provider [Hp | [Hp | Hp]].
  - apply well_formed_no_place_id, Hp.
  - apply well_formed_failed_fetch, Hp.
  - exact Hp.
Qed.

Lemma collect_survives_failed_fetches_witness :
  is_Some (collect_loop example_api example_hits [] []).
Proof.
  apply (collect_survives_failed_fetches example_api example_hits).
  unfold example_hits.
  repeat (constructor; [first [ left; vm_compute; reflexivity
                              | right; left; vm_compute; reflexivity
                              | right; right; vm_compute; reflexivity ] |]).
  constructor.
Defined.

(** X27: a place whose details carry no geometry is collected with latitude
    and longitude None, which the frame holds as missing cells, so that the
    feature engineer gives it the sentinel distance 999. *)
Theorem no_geometry_gives_sentinel_distance
    (provider details : dict) (pid : json) (user_location : R * R) :
  details !! "geometry" = None ->
  exists (c : combined) (lat lon : Haversine.cell),
    combine provider details pid = Some c /\
    latitude c = JNull /\ longitude c = JNull /\
    coordinate_cell (latitude c) = Some lat /\
    coordinate_cell (longitude c) = Some lon /\
    Haversine.distance_miles_column user_location lat lon
      = Some (Haversine.Val 999).
Proof.
  intros H.
  assert (Hloc : location_of details = Some ∅).
  { unfold location_of, get. rewrite H. reflexivity. }
  unfold combine. rewrite Hloc. cbn [mbind option_bind].
  eexists _, Haversine.Missing, Haversine.Missing.
  split; [reflexivity |]. cbn [latitude longitude].
  repeat (split; [reflexivity |]). reflexivity.
Qed.

Lemma no_geometry_gives_sentinel_distance_witness :
  exists (c : combined) (lat lon : Haversine.cell),
    combine ∅ {[ "name" := JStr "Sunshine" ]} (JStr "b") = Some c /\
    latitude c = JNull /\ longitude c = JNull /\
    coordinate_cell (latitude c) = Some lat /\
    coordinate_cell (longitude c) = Some lon /\
    Haversine.distance_miles_column (42.5001, -70.8578)%R lat lon
      = Some (Haversine.Val 999).
Proof.
  apply (no_geometry_gives_sentinel_distance ∅ {[ "name" := JStr "Sunshine" ]}
           (JStr "b") (42.5001, -70.8578)%R).
  reflexivity.
Defined.

(** X30: the collector end to end.  When the search ends after finitely
    many pages and the reply to every detail request is well formed,
    [collect_all_providers] returns, and the records it returns carry, in
    order, the place ids of the hits found on those pages that have a place
    id and a non-empty detail result; a search whose first reply is not OK
    gives the empty frame. *)
Theorem collect_all_providers_end_to_end
    (pages : list search_response) (last : search_response)
    (more : list search_response) (api : json -> details_response)
    (location : pyfloat * pyfloat) (radius : Z) :
  Forall (fun data => continues data = true) pages ->
  continues last = false ->
  Forall (fun provider => well_formed api provider = true)
    (concat (map found_in pages) ++ found_in last) ->
  exists records : list combined,
    collect_all_providers (pages ++ last :: more) api location radius
      = Some records /\
    map place_id records
      = map place_id_of
          (List.filter (kept api) (concat (map found_in pages) ++ found_in last)) /\
    (pages = [] -> String.eqb (status last) "OK" = false -> records = []).
Proof.
  intros Hpages Hlast Hwf.
  unfold collect_all_providers, search_childcare_in_area.
  rewrite (search_loop_pages pages last more _ [] [] Hpages Hlast).
  cbn [mbind option_bind fst app].
  destruct (concat (map found_in pages) ++ found_in last) as [|hit hits] eqn:Efound.
  - exists []. split; [reflexivity |]. split; [reflexivity | auto].
  - destruct (collect_loop_returns api (hit :: hits) [] [] Hwf) as [out Hout].
    rewrite Hout. cbn [mbind option_bind].
    destruct (collect_loop_spec api (hit :: hits) [] [] out Hout)
      as (_ & new & Hnew & Hall).
    cbn [app] in Hnew. exists out.2. split; [reflexivity |]. split.
    + rewrite Hnew. exact (combined_place_ids api _ _ Hall).
    + intros -> Hstatus. exfalso. cbn [map concat app] in Efound.
      unfold found_in in Efound. rewrite Hstatus in Efound. discriminate Efound.
Qed.

Lemma collect_all_providers_end_to_end_witness :
  let page := {| status := "OK"; results := Some example_hits;
                 next_page_token := Some "t1" |} in
  let denied := {| status := "OVER_QUERY_LIMIT"; results := None;
                   next_page_token := None |} in
  exists records : list combined,
    collect_all_providers [page; denied] example_api (Fin 42.5, Fin (-70.8)) 10
      = Some records /\
    map place_id records
      = map place_id_of
          (List.filter (kept example_api)
             (concat (map found_in [page]) ++ found_in denied)) /\
    ([page] = [] -> String.eqb (status denied) "OK" = false -> records = []).
Proof.
  intros page denied.
  apply (collect_all_providers_end_to_end [page] denied [] example_api).
  - repeat constructor.
  - reflexivity.
  - change (Forall (fun provider => well_formed example_api provider = true)
              example_hits).
    unfold example_hits.
    repeat (constructor; [vm_compute; reflexivity |]).
    constructor.
Defined.

End CollectorFacts.

(** ** The two scorers on the rows the feature engineer makes *)

Lemma scorers_agree_of_price_blocks (r : row) (p : preferences) :
  (forall s, same_outcome (Collect.price_block r p s)
                          (Viewer.price_block r (max_budget p) s)) ->
  same_outcome
    (Collect.calculate_match_score r p)
    (Viewer.calculate_match_score r (max_distance p) (max_budget p)
       (default [] (values p))).
Proof.
  intros Hprice.
  unfold Collect.calculate_match_score, Viewer.calculate_match_score.
  rewrite distance_block_agree.
  destruct (Viewer.distance_block r (max_distance p) (Fin 0)) as [s1|];
    [| exact I].
  cbn [mbind option_bind].
  apply same_outcome_bind; [apply Hprice |].
  intros s2 s2' H2.
  apply same_outcome_bind; [apply rating_block_feq, H2 |].
  intros s3 s3' H3. rewrite values_block_agree.
  apply same_outcome_bind; [apply values_block_feq, H3 |].
  intros s4 s4' H4. apply py_min_feq, H4.
Qed.

(** X28: with a budget of at least 1725 the penalty branch of the
    collection script is never taken on a row the feature engineer made:
    for a rating cell that is missing or on the 0-5 scale and the estimated
    price the engineer computes from it and any reviews, the two scorers
    have the same outcome. *)
Theorem scorers_agree_on_engineered_rows
    (reviews : list review) (rw : row) (p : preferences) :
  rating_cell_on_scale (rating rw) = true ->
  estimated_price rw = FeatureEngineer.estimated_price_column reviews (rating rw) ->
  (Fin 1725 <=? max_budget p)%fl = true ->
  same_outcome
    (Collect.calculate_match_score rw p)
    (Viewer.calculate_match_score rw (max_distance p) (max_budget p)
       (default [] (values p))).
Proof.
  intros Hr Hprice Hb. apply scorers_agree_of_price_blocks. intros s.
  apply price_block_agree.
  - destruct (max_budget p); simpl in *; try discriminate; auto. qdone.
  - unfold rating_cell_on_scale in Hr. apply orb_true_iff in Hr.
    destruct Hr as [Hr | Hr].
    + left. destruct (rating rw) eqn:E; try discriminate Hr.
      rewrite Hprice, estimated_price_column_nan. reflexivity.
    + right. left.
      pose proof (estimate_price_bounds reviews (Some (rating rw)) Hr) as Hrange.
      unfold FeatureEngineer.estimated_price_column in Hprice.
      rewrite <- Hprice in Hrange. unfold in_range in Hrange.
      apply andb_true_iff in Hrange. destruct Hrange as [_ Hhi].
      exact (fle_trans _ _ _ Hhi Hb).
Qed.

Lemma scorers_agree_on_engineered_rows_witness :
  same_outcome
    (Collect.calculate_match_score rated_reviewed_row generous_prefs)
    (Viewer.calculate_match_score rated_reviewed_row (Fin 10) (Fin 1800) ["clean"]).
Proof.
  apply (scorers_agree_on_engineered_rows pricey_reviews rated_reviewed_row
           generous_prefs); reflexivity.
Defined.

(** ** The labels the viewer shows *)

(** X29: the number of labels listed under "Approach" for a row is the
    number of matches the viewer's scorer counts for the three values
    montessori, play_based and stem; the reggio column, whose value the
    sidebar offers and the scorer counts, never changes the labels. *)
Theorem matching_values_counts_three (r : row) :
  length (matching_values r)
    = Viewer.matches r ["montessori"; "play_based"; "stem"] /\
  (forall c, matching_values (with_mention r "reggio" c) = matching_values r).
Proof.
  split.
  - unfold matching_values, Viewer.matches. cbv zeta. cbn [List.filter app].
    fold (value_matched (mentions r) "montessori").
    fold (value_matched (mentions r) "play_based").
    fold (value_matched (mentions r) "stem").
    destruct (value_matched (mentions r) "montessori"),
             (value_matched (mentions r) "play_based"),
             (value_matched (mentions r) "stem"); reflexivity.
  - intros c. unfold matching_values, value_matched, with_mention.
    cbn [mentions].
    rewrite !lookup_insert_ne by (cbv [col_name String.append]; discriminate).
    reflexivity.
Qed.
